(** * Olympus IX3 touch panel controller: command correlation engine

    A shallow embedding of [microscope/controllers/olympus_ix3tpc.py]: the
    command table, the dispatcher ([IX3TPC.send_command],
    [IX3TPC.send_command_blocking]), the PortManager command callback
    ([_callback_command]), the start-up sequence of the controller and the
    light source device built on top of it.

    Python code is read as state passing over a [World] (the attributes of
    the one controller object, the cells of the closures that are alive and
    the trace of what the program did to the outside).  The PortManager
    library, object identities and user supplied callables are an
    [Environment]: functions of the trace so far, so that an answer may
    depend on everything that happened before it.

    Modelling decisions, each stated where it is made:
    - [str] is [string] (code points below 256), [int] is [Z], [float] is a
      binary64 [spec_float] with the operations of the IEEE 754 model of the
      Standard Library;
    - the library's callback thread runs while the caller is inside
      [time.sleep]; [send_command] itself runs without interleaving. *)

From Stdlib Require Import ZArith String Ascii List Bool Lia QArith Qround.
From Stdlib Require Import Floats.SpecFloat.
From stdpp Require Import base gmap list strings pretty.

Local Open Scope string_scope.
Local Open Scope Z_scope.

(** ** Exceptions and results *)

Inductive exn :=
| KeyError (key : Z)
| IndexError (msg : string)
| ValueError (msg : string)
| ZeroDivisionError (msg : string)
| OverflowError (msg : string)
| InitialiseError (msg : string)
| UnsupportedFeatureError (msg : string)
| TypeError (msg : string)
| UserError (msg : string)
| InvalidObjectAddress (addr : Z).

Inductive result (A : Type) :=
| Ok (a : A)
| Raise (e : exn).
Arguments Ok {A} a.
Arguments Raise {A} e.

(** ** Python floats (binary64) *)

Definition prec : Z := 53.
Definition emax : Z := 1024.

Definition float := spec_float.

(** The float nearest to the rational [a / b] ([b] positive): how a decimal
    literal such as [0.2] is read. *)
Definition float_of_ratio (a : Z) (b : positive) : float :=
  match a with
  | Z0 => S754_zero false
  | Zpos p => SFdiv prec emax (S754_finite false p 0) (S754_finite false b 0)
  | Zneg p => SFdiv prec emax (S754_finite true p 0) (S754_finite false b 0)
  end.

Definition is_zero (x : float) : bool :=
  match x with S754_zero _ => true | _ => false end.

(** [a / b] on two ints: the correctly rounded quotient. *)
Definition int_truediv (a b : Z) : result float :=
  match a, b with
  | _, Z0 => Raise (ZeroDivisionError "division by zero")
  | Z0, Zpos _ => Ok (S754_zero false)
  | Z0, Zneg _ => Ok (S754_zero true)
  | _, _ =>
      match SFdiv prec emax
              (S754_finite (a <? 0) (Z.to_pos (Z.abs a)) 0)
              (S754_finite (b <? 0) (Z.to_pos (Z.abs b)) 0) with
      | S754_infinity _ =>
          Raise (OverflowError "integer division result too large for a float")
      | q => Ok q
      end
  end.

(** [x / y] on two floats. *)
Definition float_truediv (x y : float) : result float :=
  if is_zero y then Raise (ZeroDivisionError "float division by zero")
  else Ok (SFdiv prec emax x y).

(** [int(x)]: truncation toward zero. *)
Definition int_of_float (x : float) : result Z :=
  match x with
  | S754_nan => Raise (ValueError "cannot convert float NaN to integer")
  | S754_infinity _ =>
      Raise (OverflowError "cannot convert float infinity to integer")
  | S754_zero _ => Ok 0
  | S754_finite s m e =>
      let magnitude :=
        if 0 <=? e then Z.shiftl (Zpos m) e else Z.shiftr (Zpos m) (- e) in
      Ok (if s then - magnitude else magnitude)
  end.

(** [float(n)] for an int: the nearest float, or [OverflowError]. *)
Definition float_of_int (n : Z) : result float :=
  match binary_normalize prec emax n 0 false with
  | S754_infinity _ => Raise (OverflowError "int too large to convert to float")
  | x => Ok x
  end.

(** [x * n] for a float and an int. *)
Definition float_mul_int (x : float) (n : Z) : result float :=
  match float_of_int n with
  | Raise e => Raise e
  | Ok y => Ok (SFmul prec emax x y)
  end.

(** The exact value of a finite float, as a rational. *)
Definition Q_of_float (x : float) : option Q :=
  match x with
  | S754_zero _ => Some 0%Q
  | S754_finite s m e =>
      let v := if 0 <=? e then inject_Z (Zpos m * 2 ^ e)
               else Qmake (Zpos m) (Z.to_pos (2 ^ (- e))) in
      Some (if s then Qopp v else v)
  | _ => None
  end.

(** Rounding a rational toward zero. *)
Definition Qtruncate (v : Q) : Z :=
  if Qle_bool 0 v then Qfloor v else Qceiling v.

(** What [time.sleep(secs)] does with its argument before it sleeps: NaN and
    negative lengths are refused with [ValueError], lengths that do not fit
    the clock (2^63 nanoseconds) with [OverflowError]. *)
Definition sleep_check (secs : float) : result unit :=
  match secs with
  | S754_nan => Raise (ValueError "Invalid value NaN (not a number)")
  | S754_infinity _ =>
      Raise (OverflowError "timestamp too large to convert to C _PyTime_t")
  | S754_zero _ => Ok tt
  | S754_finite s m e =>
      let fits :=
        if 0 <=? e then Zpos m * 2 ^ e * 10 ^ 9 <? 2 ^ 63
        else Zpos m * 10 ^ 9 <? 2 ^ 63 * 2 ^ (- e) in
      if negb fits then
        Raise (OverflowError "timestamp too large to convert to C _PyTime_t")
      else if s then Raise (ValueError "sleep length must be non-negative")
      else Ok tt
  end.

(** ** Python strings *)

Definition ord (c : ascii) : Z := Z.of_N (N_of_ascii c).

(** [chr(x)], for the code points a [string] can hold. *)
Definition chr (x : Z) : result ascii :=
  if (0 <=? x) && (x <? 256) then Ok (ascii_of_N (Z.to_N x))
  else Raise (ValueError "chr() arg not in range(0x110000)").

Fixpoint list_chr (xs : list Z) : result (list ascii) :=
  match xs with
  | [] => Ok []
  | x :: xs' =>
      match chr x with
      | Raise e => Raise e
      | Ok c =>
          match list_chr xs' with
          | Raise e => Raise e
          | Ok cs => Ok (c :: cs)
          end
      end
  end.

(** [str.isspace] on one character of a Latin-1 string. *)
Definition is_space (c : ascii) : bool :=
  let n := ord c in
  ((9 <=? n) && (n <=? 13)) || ((28 <=? n) && (n <=? 32))
  || (n =? 133) || (n =? 160).

(** [s.split()]: the maximal runs of non-blank characters. *)
Fixpoint split_go (s : string) (word : string) : list string :=
  match s with
  | EmptyString => if String.eqb word "" then [] else [word]
  | String c s' =>
      if is_space c
      then (if String.eqb word "" then split_go s' ""
            else word :: split_go s' "")
      else split_go s' (word ++ String c "")
  end.

Definition str_split (s : string) : list string := split_go s "".

Definition digit_value (c : ascii) : option Z :=
  let n := ord c in
  if (48 <=? n) && (n <=? 57) then Some (n - 48) else None.

(** The digits of a decimal literal; single underscores may separate digits. *)
Fixpoint parse_digits (s : string) (acc : Z) (after_digit : bool) : option Z :=
  match s with
  | EmptyString => if after_digit then Some acc else None
  | String c s' =>
      match digit_value c with
      | Some d => parse_digits s' (10 * acc + d) true
      | None =>
          if (ord c =? 95) && after_digit then
            match s' with
            | EmptyString => None
            | String c' _ =>
                match digit_value c' with
                | Some _ => parse_digits s' acc false
                | None => None
                end
            end
          else None
      end
  end.

(** The blanks [int] skips at both ends of a literal: the white space of C
    and, beyond ASCII, the characters [str.isspace] accepts.  The separators
    28 to 31, blank for [str.split], are not among them. *)
Definition is_int_space (c : ascii) : bool :=
  let n := ord c in
  ((9 <=? n) && (n <=? 13)) || (n =? 32) || (n =? 133) || (n =? 160).

Fixpoint lstrip (s : string) : string :=
  match s with
  | String c s' => if is_int_space c then lstrip s' else s
  | EmptyString => EmptyString
  end.

Definition strip (s : string) : string :=
  String.rev (lstrip (String.rev (lstrip s))).

(** [repr(s)] on a Latin-1 string.  The quotes are single unless the
    string holds a single quote and no double quote; the quote in use and
    the backslash are escaped, tab, newline and return have their letters,
    and the other characters that are not printable (the control
    characters, the no-break space and the soft hyphen) are written in
    hexadecimal. *)
Definition backslash : ascii := ascii_of_N 92.
Definition single_quote : ascii := ascii_of_N 39.
Definition double_quote : ascii := ascii_of_N 34.

Definition hex_lower (d : Z) : ascii :=
  ascii_of_N (Z.to_N (if d <? 10 then 48 + d else 87 + d)).

Definition repr_char (quote c : ascii) : string :=
  let n := ord c in
  if Ascii.eqb c quote || Ascii.eqb c backslash then String backslash (String c "")
  else if n =? 9 then String backslash "t"
  else if n =? 10 then String backslash "n"
  else if n =? 13 then String backslash "r"
  else if (n <? 32) || (n =? 127) || ((128 <=? n) && (n <=? 160)) || (n =? 173)
  then String backslash
         (String "x" (String (hex_lower (n / 16)) (String (hex_lower (n mod 16)) "")))
  else String c "".

Definition repr (s : string) : string :=
  let cs := list_ascii_of_string s in
  let quote :=
    if existsb (Ascii.eqb single_quote) cs
       && negb (existsb (Ascii.eqb double_quote) cs)
    then double_quote else single_quote in
  String quote (String.concat "" (map (repr_char quote) cs) ++ String quote "").

(** [int(s)] on a string, base ten.  The message of the error shows at most
    200 characters of [repr(s)].  The bound an interpreter may be configured
    with on the number of digits (4300 by default where it exists) is not
    modelled: a response has at most 256 characters. *)
Definition int_of_str (s : string) : result Z :=
  let bad :=
    Raise (ValueError ("invalid literal for int() with base 10: "
                       ++ String.substring 0 200 (repr s))) in
  match strip s with
  | String "-" digits =>
      match parse_digits digits 0 false with
      | Some n => Ok (- n)
      | None => bad
      end
  | String "+" digits =>
      match parse_digits digits 0 false with
      | Some n => Ok n
      | None => bad
      end
  | digits =>
      match parse_digits digits 0 false with
      | Some n => Ok n
      | None => bad
      end
  end.

(** ["{:d}".format(n)] and ["{:X}".format(n)]. *)
Definition format_d (n : Z) : string := pretty n.

Definition hex_digit (d : Z) : ascii :=
  ascii_of_N (Z.to_N (if d <? 10 then 48 + d else 55 + d)).

Fixpoint format_X_go (fuel : nat) (n : Z) (acc : string) : string :=
  match fuel with
  | O => acc
  | S fuel' =>
      let acc' := String (hex_digit (n mod 16)) acc in
      if n <? 16 then acc' else format_X_go fuel' (n / 16) acc'
  end.

Definition format_X (n : Z) : string :=
  if n <? 0 then "-" ++ format_X_go (S (Z.to_nat (Z.log2 (- n)))) (- n) ""
  else format_X_go (S (Z.to_nat (Z.log2 n))) n "".

(** ** ctypes *)

(** Storing a Python int in a field keeps its low bits, without a range
    check.  [c_ulong] and [c_long] are the 32-bit types of the platform the
    PortManager DLLs exist for. *)
Definition c_byte (v : Z) : Z := (v + 128) mod 256 - 128.
Definition c_ulong (v : Z) : Z := v mod 2 ^ 32.
Definition c_long (v : Z) : Z := (v + 2 ^ 31) mod 2 ^ 32 - 2 ^ 31.
Definition c_void_p (pointer_bits v : Z) : Z := v mod 2 ^ pointer_bits.

(** Reading a [c_void_p]: a NULL pointer reads as [None]. *)
Definition c_void_p_value (p : Z) : option Z :=
  if p =? 0 then None else Some p.

(** [text + "{:X}".format(p.value)] for a pointer [p]: the value of a NULL
    pointer is [None], which the format [X] refuses. *)
Definition format_address (text : string) (p : Z) : result string :=
  match c_void_p_value p with
  | Some a => Ok (text ++ format_X a)
  | None =>
      Raise (TypeError "unsupported format string passed to NoneType.__format__")
  end.

(** The array type [ctypes.c_byte * size] called on a list of initial
    values: the array is zero filled, and an initialiser beyond its end is
    an [IndexError]. *)
Definition c_byte_Array (size : Z) (values : list Z) : result (list Z) :=
  if Z.of_nat (length values) <=? size
  then Ok (map c_byte values ++ replicate (Z.to_nat size - length values)%nat 0)%list
  else Raise (IndexError "invalid index").

Definition _SZ_SMALL : Z := 8.
Definition _MAX_TAG_SIZE : Z := 32.
Definition _MAX_COMMAND_SIZE : Z := 256.
Definition _MAX_RESPONSE_SIZE : Z := 256.

Record _MDK_MSL_CMD := {
  m_Signature : Z;
  m_Type : Z;
  m_Sequence : Z;
  m_From : list Z;
  m_To : list Z;
  m_Status : Z;
  m_Result : Z;
  m_Sync : Z;
  m_Command : Z;
  m_SendOnly : Z;
  m_StartTime : Z;
  m_FinishTime : Z;
  m_Timeout : Z;
  m_Callback : Z;
  m_Event : Z;
  m_Context : Z;
  m_TimerID : Z;
  m_PortContext : Z;
  m_Ext1 : Z;
  m_Ext2 : Z;
  m_Ext3 : Z;
  m_lExt1 : Z;
  m_lExt2 : Z;
  m_TagSize : Z;
  m_CmdTag : list Z;
  m_CmdSize : Z;
  m_Cmd : list Z;
  m_RspSize : Z;
  m_Rsp : list Z
}.

(** The record [_MDK_MSL_CMD(m_CmdSize=.., m_Cmd=.., m_Callback=..,
    m_Context=.., m_Timeout=.., m_Command=..)]: the named fields are stored
    through their C types, all others are zero. *)
Definition new_MDK_MSL_CMD (pointer_bits : Z)
    (cmd_size : Z) (cmd : list Z) (callback context timeout command : Z)
    : _MDK_MSL_CMD :=
  {| m_Signature := 0; m_Type := 0; m_Sequence := 0;
     m_From := replicate (Z.to_nat _SZ_SMALL) 0;
     m_To := replicate (Z.to_nat _SZ_SMALL) 0;
     m_Status := 0; m_Result := 0; m_Sync := 0;
     m_Command := c_long command;
     m_SendOnly := 0; m_StartTime := 0; m_FinishTime := 0;
     m_Timeout := c_ulong timeout;
     m_Callback := c_void_p pointer_bits callback;
     m_Event := 0;
     m_Context := c_void_p pointer_bits context;
     m_TimerID := 0; m_PortContext := 0;
     m_Ext1 := 0; m_Ext2 := 0; m_Ext3 := 0; m_lExt1 := 0; m_lExt2 := 0;
     m_TagSize := 0;
     m_CmdTag := replicate (Z.to_nat _MAX_TAG_SIZE) 0;
     m_CmdSize := c_ulong cmd_size;
     m_Cmd := cmd;
     m_RspSize := 0;
     m_Rsp := replicate (Z.to_nat _MAX_RESPONSE_SIZE) 0 |}.

(** What the library does to a record before it calls back: it fills in the
    response and its size. *)
Definition with_response (r : _MDK_MSL_CMD) (rsp_size : Z) (rsp : list Z)
    : _MDK_MSL_CMD :=
  {| m_Signature := m_Signature r; m_Type := m_Type r;
     m_Sequence := m_Sequence r; m_From := m_From r; m_To := m_To r;
     m_Status := m_Status r; m_Result := m_Result r; m_Sync := m_Sync r;
     m_Command := m_Command r; m_SendOnly := m_SendOnly r;
     m_StartTime := m_StartTime r; m_FinishTime := m_FinishTime r;
     m_Timeout := m_Timeout r; m_Callback := m_Callback r;
     m_Event := m_Event r; m_Context := m_Context r;
     m_TimerID := m_TimerID r; m_PortContext := m_PortContext r;
     m_Ext1 := m_Ext1 r; m_Ext2 := m_Ext2 r; m_Ext3 := m_Ext3 r;
     m_lExt1 := m_lExt1 r; m_lExt2 := m_lExt2 r;
     m_TagSize := m_TagSize r; m_CmdTag := m_CmdTag r;
     m_CmdSize := m_CmdSize r; m_Cmd := m_Cmd r;
     m_RspSize := rsp_size; m_Rsp := rsp |}.

(** ** The command table *)

Inductive CommandStatus := WAIT | SUCCESS | TIMEOUT.

Definition CommandStatus_value (s : CommandStatus) : Z :=
  match s with WAIT => 0 | SUCCESS => 1 | TIMEOUT => 2 end.

Definition CommandStatus_name (s : CommandStatus) : string :=
  match s with WAIT => "WAIT" | SUCCESS => "SUCCESS" | TIMEOUT => "TIMEOUT" end.

Definition CommandStatus_eqb (a b : CommandStatus) : bool :=
  CommandStatus_value a =? CommandStatus_value b.

Inductive PyObject :=
| PyNone
| PyInt (n : Z)
| PyStr (s : string).

(** The callables that reach the table: the nested function [_callback] of
    an activation of [send_command_blocking] (it writes the nonlocals of
    that activation, its [frame]), and functions of the caller, known by
    name and run by the environment. *)
Inductive Callable :=
| closure__callback (frame : nat)
| function (name : string).

Record _CommandTableEntry := {
  status : CommandStatus;
  data : _MDK_MSL_CMD;
  callback : option Callable;
  callback_args : list PyObject
}.

Definition with_status (e : _CommandTableEntry) (s : CommandStatus)
    : _CommandTableEntry :=
  {| status := s; data := data e; callback := callback e;
     callback_args := callback_args e |}.

(** ** The world and its environment *)

Inductive LogLevel := ERROR | WARNING | INFO.

Inductive Event :=
| EvInitialize
| EvEnumInterface
| EvGetInterfaceInfo (index : Z)
| EvOpenInterface (addr : Z)
| EvCloseInterface (addr : Z)
| EvRegisterCallback (addr context : Z)
| EvSendCommand (addr : Z) (cmd : _MDK_MSL_CMD)
| EvLog (level : LogLevel) (msg : string)
| EvSleep (secs : float)
| EvCall (f : Callable) (st : CommandStatus) (response : string)
         (args : list PyObject)
| EvCallbackException (e : exn).

(** The arguments of one invocation of the command callback; [pv] stands
    for the record the pointer designates. *)
Record Completion := {
  MsgId : Z;
  wParam : Z;
  lParam : Z;
  pv : _MDK_MSL_CMD;
  pContext : Z;
  pCaller : Z
}.

Record Environment := {
  (** [ctypes.sizeof(ctypes.c_void_p)] *)
  sizeof_c_void_p : Z;
  (** [id(self)] and [id(self._command_table)] *)
  id_self : Z;
  id_command_table : Z;
  MSL_PM_Initialize : list Event → Z;
  MSL_PM_EnumInterface : list Event → Z;
  (** the status, and the address written through the second argument *)
  MSL_PM_GetInterfaceInfo : list Event → Z → Z * Z;
  MSL_PM_OpenInterface : list Event → Z → bool;
  MSL_PM_CloseInterface : list Event → Z → bool;
  MSL_PM_RegisterCallback : list Event → Z → Z → bool;
  MSL_PM_SendCommand : list Event → Z → _MDK_MSL_CMD → bool;
  (** the command callbacks the library makes during one sleep *)
  completions : list Event → list Completion;
  (** a function of the caller, which may raise and may touch the table *)
  call_function :
    list Event → string → CommandStatus → string → list PyObject →
    gmap Z _CommandTableEntry → result unit * gmap Z _CommandTableEntry
}.

Record World := {
  _command_table : gmap Z _CommandTableEntry;
  _pm_if_data_addr : Z;
  _shutting_down : bool;
  _devices : list string;
  (** the nonlocals [status] and [response] of each activation of
      [send_command_blocking] *)
  frames : list (CommandStatus * string);
  trace : list Event
}.

Definition set_command_table (t : gmap Z _CommandTableEntry) (w : World) : World :=
  {| _command_table := t; _pm_if_data_addr := _pm_if_data_addr w;
     _shutting_down := _shutting_down w; _devices := _devices w;
     frames := frames w; trace := trace w |}.

Definition set_pm_if_data_addr (a : Z) (w : World) : World :=
  {| _command_table := _command_table w; _pm_if_data_addr := a;
     _shutting_down := _shutting_down w; _devices := _devices w;
     frames := frames w; trace := trace w |}.

Definition set_shutting_down (b : bool) (w : World) : World :=
  {| _command_table := _command_table w;
     _pm_if_data_addr := _pm_if_data_addr w;
     _shutting_down := b; _devices := _devices w;
     frames := frames w; trace := trace w |}.

Definition set_devices (d : list string) (w : World) : World :=
  {| _command_table := _command_table w;
     _pm_if_data_addr := _pm_if_data_addr w;
     _shutting_down := _shutting_down w; _devices := d;
     frames := frames w; trace := trace w |}.

Definition set_frames (f : list (CommandStatus * string)) (w : World) : World :=
  {| _command_table := _command_table w;
     _pm_if_data_addr := _pm_if_data_addr w;
     _shutting_down := _shutting_down w; _devices := _devices w;
     frames := f; trace := trace w |}.

Definition set_trace (t : list Event) (w : World) : World :=
  {| _command_table := _command_table w;
     _pm_if_data_addr := _pm_if_data_addr w;
     _shutting_down := _shutting_down w; _devices := _devices w;
     frames := frames w; trace := t |}.

(** ** Statements: state passing with exceptions *)

Definition M (A : Type) : Type := World → result A * World.

Definition ret {A} (a : A) : M A := λ w, (Ok a, w).

Definition bind {A B} (m : M A) (k : A → M B) : M B :=
  λ w, match m w with
       | (Ok a, w') => k a w'
       | (Raise e, w') => (Raise e, w')
       end.

Definition raise {A} (e : exn) : M A := λ w, (Raise e, w).

Definition lift {A} (r : result A) : M A := λ w, (r, w).

Definition gets {A} (f : World → A) : M A := λ w, (Ok (f w), w).

Definition modify (f : World → World) : M unit := λ w, (Ok tt, f w).

Definition emit (ev : Event) : M unit :=
  modify (λ w, set_trace (trace w ++ [ev])%list w).

Notation "'let!' x ':=' m 'in' k" := (bind m (λ x, k))
  (at level 10, x pattern, m at level 100, k at level 200).
Notation "m ';;;' k" := (bind m (λ _, k))
  (at level 100, k at level 200, right associativity).

Fixpoint for_each {A} (xs : list A) (body : A → M unit) : M unit :=
  match xs with
  | [] => ret tt
  | x :: xs' => body x;;; for_each xs' body
  end.

(** [command_table[key]], [command_table[key].status = s] and
    [del command_table[key]]. *)
Definition getitem (key : Z) : M _CommandTableEntry :=
  λ w, match _command_table w !! key with
       | Some e => (Ok e, w)
       | None => (Raise (KeyError key), w)
       end.

Definition setitem (key : Z) (e : _CommandTableEntry) : M unit :=
  modify (λ w, set_command_table (<[key := e]> (_command_table w)) w).

Definition delitem (key : Z) : M unit :=
  let! _ := getitem key in
  modify (λ w, set_command_table (delete key (_command_table w)) w).

Definition set_status (key : Z) (s : CommandStatus) : M unit :=
  let! entry := getitem key in
  setitem key (with_status entry s).

(** The log calls of the module. *)
Definition _logger (level : LogLevel) (msg : string) : M unit :=
  emit (EvLog level msg).

Section WithEnvironment.
Context (env : Environment).

Definition pointer_size_bits : Z := sizeof_c_void_p env * 8.

(** Calling a callable [f(status, response, *args)]. *)
Definition call (f : Callable) (st : CommandStatus) (response : string)
    (args : list PyObject) : M unit :=
  emit (EvCall f st response args);;;
  match f with
  | closure__callback frame =>
      match args with
      | [] => modify (λ w, set_frames (<[frame := (st, response)]> (frames w)) w)
      | _ => raise (TypeError "_callback() takes 2 positional arguments")
      end
  | function name =>
      λ w, let '(r, t) := call_function env (trace w) name st response args
                            (_command_table w) in
           (r, set_command_table t w)
  end.

(** [ctypes.cast(address, ctypes.py_object).value]: the object that lives
    at the address.  The only object the program ever passes by address is
    the command table; the value of any other address is not defined. *)
Definition py_object_value (address : Z) : M unit :=
  match c_void_p_value address with
  | None => raise (ValueError "PyObject is NULL")
  | Some a =>
      if a =? c_void_p pointer_size_bits (id_command_table env) then ret tt
      else raise (InvalidObjectAddress a)
  end.

(** The text of the response: as many bytes of [m_Rsp] as [m_RspSize]
    says, each turned into a character. *)
Definition response_text (cmd_data : _MDK_MSL_CMD) : result string :=
  match list_chr (take (Z.to_nat (m_RspSize cmd_data)) (m_Rsp cmd_data)) with
  | Ok cs => Ok (string_of_list_ascii cs)
  | Raise e => Raise e
  end.

Definition _callback_command (MsgId wParam lParam : Z) (pv : _MDK_MSL_CMD)
    (pContext pCaller : Z) : M Z :=
  let cmd_data := pv in
  let key := default 0 (c_void_p_value (m_Callback cmd_data)) in
  let! response := lift (response_text cmd_data) in
  py_object_value (m_Context cmd_data);;;
  match c_void_p_value pContext with
  | Some _ => set_status key SUCCESS
  | None => set_status key TIMEOUT
  end;;;
  let! entry := getitem key in
  match callback entry with
  | Some f => call f (status entry) response (callback_args entry)
  | None => ret tt
  end;;;
  delitem key;;;
  ret 0.

(** One invocation by the library.  An exception that leaves a ctypes
    callback is printed and dropped; the library sees the default result. *)
Definition run_completion (c : Completion) (w : World) : World :=
  match _callback_command (MsgId c) (wParam c) (lParam c) (pv c)
          (pContext c) (pCaller c) w with
  | (Ok _, w') => w'
  | (Raise e, w') => set_trace (trace w' ++ [EvCallbackException e])%list w'
  end.

(** [time.sleep(secs)]: the caller is suspended and the library's thread
    makes the callbacks that are due. *)
Definition time_sleep (secs : float) : M unit :=
  lift (sleep_check secs);;;
  emit (EvSleep secs);;;
  modify (λ w, foldl (λ w' c, run_completion c w') w (completions env (trace w))).

End WithEnvironment.

(** ** The controller *)

Module IX3TPC.

Definition _COMMAND_TERMINATOR : string := String "013" (String "010" "").

Definition default_timeout_ms : Z := 10000.
Definition default_sleep_interval : float := float_of_ratio 1 5.

(** The loop [for i in range(0, stop): if i not in keys: key = i; break],
    started at [i].  The loop ends at the first free [i], so it makes at
    most one step more than the table has keys: [fuel] counts the steps. *)
Inductive scan := Break (i : Z) | Exhausted | OutOfFuel.

Fixpoint scan_range (fuel : nat) (keys : gmap Z _CommandTableEntry)
    (i stop : Z) : scan :=
  match fuel with
  | O => OutOfFuel
  | S fuel' =>
      if stop <=? i then Exhausted
      else match keys !! i with
           | None => Break i
           | Some _ => scan_range fuel' keys (i + 1) stop
           end
  end.

Section WithEnvironment.
Context (env : Environment).

(** The key [send_command] settles on: [key = 0], then the loop. *)
Definition find_key (keys : gmap Z _CommandTableEntry) : Z :=
  match scan_range (S (size keys)) keys 0 (2 ^ pointer_size_bits env) with
  | Break i => i
  | Exhausted | OutOfFuel => 0
  end.

(** The record [send_command] builds for [cmd] under [key]. *)
Definition command_record (key : Z) (cmd : string) (timeout_ms : Z)
    : result _MDK_MSL_CMD :=
  match c_byte_Array _MAX_COMMAND_SIZE
          (map ord (list_ascii_of_string (cmd ++ _COMMAND_TERMINATOR))) with
  | Raise e => Raise e
  | Ok m_cmd =>
      Ok (new_MDK_MSL_CMD (pointer_size_bits env)
            (Z.of_nat (String.length cmd)
             + Z.of_nat (String.length _COMMAND_TERMINATOR))
            m_cmd key (id_command_table env) timeout_ms 1)
  end.

Definition send_command (cmd : string) (callback : option Callable)
    (callback_args : list PyObject) (timeout_ms : Z) : M unit :=
  let! key := gets (λ w, find_key (_command_table w)) in
  let! record := lift (command_record key cmd timeout_ms) in
  setitem key {| status := WAIT; data := record; callback := callback;
                 callback_args := callback_args |};;;
  let! entry := getitem key in
  let! addr := gets _pm_if_data_addr in
  let! pmsc_success :=
    gets (λ w, MSL_PM_SendCommand env (trace w) addr (data entry)) in
  emit (EvSendCommand addr (data entry));;;
  if negb pmsc_success then
    _logger ERROR ("MSL_PM_SendCommand() failed for command '" ++ cmd ++ "'.")
  else ret tt.

(** [timeout_ms / 1000 / sleep_interval] *)
Definition intervals (timeout_ms : Z) (sleep_interval : float) : result float :=
  match int_truediv timeout_ms 1000 with
  | Raise e => Raise e
  | Ok seconds => float_truediv seconds sleep_interval
  end.

(** [int(timeout_ms / 1000 / sleep_interval) + 1], the end of the range
    [send_command_blocking] loops over. *)
Definition range_stop (timeout_ms : Z) (sleep_interval : float) : result Z :=
  match intervals timeout_ms sleep_interval with
  | Raise e => Raise e
  | Ok quotient =>
      match int_of_float quotient with
      | Raise e => Raise e
      | Ok n => Ok (n + 1)
      end
  end.

(** The loop of [send_command_blocking] over a range of [n] elements:
    leave when the callback has written a status, sleep otherwise. *)
Fixpoint poll (frame : nat) (sleep_interval : float) (n : nat) : M unit :=
  match n with
  | O => ret tt
  | S n' =>
      let! cell := gets (λ w, default (WAIT, "") (frames w !! frame)) in
      if negb (CommandStatus_eqb (fst cell) WAIT) then ret tt
      else time_sleep env sleep_interval;;; poll frame sleep_interval n'
  end.

Definition send_command_blocking (cmd : string) (timeout_ms : Z)
    (sleep_interval : float) : M (CommandStatus * string) :=
  (* status = CommandStatus.WAIT; response = "" *)
  let! frame := gets (λ w, length (frames w)) in
  modify (λ w, set_frames (frames w ++ [(WAIT, "")])%list w);;;
  send_command cmd (Some (closure__callback frame)) [] timeout_ms;;;
  let! stop := lift (range_stop timeout_ms sleep_interval) in
  poll frame sleep_interval (Z.to_nat stop);;;
  gets (λ w, default (WAIT, "") (frames w !! frame)).

Definition _initialise_portmanager : M unit :=
  let! status := gets (λ w, MSL_PM_Initialize env (trace w)) in
  emit EvInitialize;;;
  (if negb (status =? 0) then
     raise (InitialiseError
              ("MSL_PM_Initialize() failed with code " ++ format_d status))
   else ret tt);;;
  let! count := gets (λ w, MSL_PM_EnumInterface env (trace w)) in
  emit EvEnumInterface;;;
  (if count =? 0 then
     raise (InitialiseError
              ("Couldn't find active interfaces on the IEEE 1394 bus. "
               ++ "Please ensure that the computer is connected to an "
               ++ "IX3-CBH control unit which is powered."))
   else ret tt);;;
  (if 1 <? count then
     raise (UnsupportedFeatureError
              ("The ability to communicate with multiple devices on the "
               ++ "IEEE 1394 bus has not been implemented yet."))
   else ret tt);;;
  modify (set_pm_if_data_addr 0);;;
  let! info := gets (λ w, MSL_PM_GetInterfaceInfo env (trace w) 0) in
  emit (EvGetInterfaceInfo 0);;;
  modify (set_pm_if_data_addr (c_void_p (pointer_size_bits env) (snd info)));;;
  let! addr := gets _pm_if_data_addr in
  let! success := gets (λ w, MSL_PM_OpenInterface env (trace w) addr) in
  emit (EvOpenInterface addr);;;
  (if negb success then
     let! msg :=
       lift (format_address
               "Failed to open interface for object at address 0x" addr) in
     raise (InitialiseError msg)
   else ret tt);;;
  let! msg :=
    lift (format_address "Opened interface for object at address 0x" addr) in
  _logger INFO msg;;;
  let! success :=
    gets (λ w, MSL_PM_RegisterCallback env (trace w) addr (id_self env)) in
  emit (EvRegisterCallback addr (id_self env));;;
  if negb success then
    let! msg :=
      lift (format_address
              "Failed to register callbacks for object at address 0x" addr) in
    raise (InitialiseError msg)
  else ret tt.

Definition _login : M unit :=
  let command_sequence :=
    [ ("L 1,0", "L +");
      ("EN6 1,1", "EN6 +");
      ("EN5 1", "EN5 +");
      ("OPE 0", "OPE +") ] in
  for_each command_sequence (λ '(cmd_msg, cmd_exprsp),
    let! (st, response) :=
      send_command_blocking cmd_msg default_timeout_ms default_sleep_interval in
    if negb (CommandStatus_eqb st SUCCESS) || negb (String.eqb response cmd_exprsp)
    then raise (InitialiseError
                  ("Error logging in. Command: '" ++ cmd_msg
                   ++ "'. Status: '" ++ CommandStatus_name st
                   ++ "'. Response: '" ++ response ++ "'."))
    else ret tt).

Definition _configure : M unit :=
  let command_sequence := [ ("TPIL 0", "TPIL +") ] in
  for_each command_sequence (λ '(cmd_msg, cmd_exprsp),
    let! (st, response) :=
      send_command_blocking cmd_msg default_timeout_ms default_sleep_interval in
    if negb (CommandStatus_eqb st SUCCESS) || negb (String.eqb response cmd_exprsp)
    then raise (InitialiseError
                  ("Error configuring. Command: '" ++ cmd_msg
                   ++ "'. Status: '" ++ CommandStatus_name st
                   ++ "'. Response: '" ++ response ++ "'."))
    else ret tt).

(** The constructor, after the constructor of the base class (framework
    code that does not touch the attributes below). *)
Definition __init__ : M unit :=
  modify (set_devices []);;;
  modify (set_pm_if_data_addr 0);;;
  modify (set_command_table ∅);;;
  _initialise_portmanager;;;
  modify (set_shutting_down false);;;
  _login;;;
  _configure;;;
  modify (λ w, set_devices (_devices w ++ ["LHLEDC"])%list w).

(** [_do_shutdown].  The shutdown of the base class (framework code: it
    shuts the devices of the controller down) is the argument
    [super_do_shutdown]. *)
Definition _do_shutdown (super_do_shutdown : M unit) : M unit :=
  modify (set_shutting_down true);;;
  super_do_shutdown;;;
  send_command "L 0,0" None [] 0;;;
  let! addr := gets _pm_if_data_addr in
  let! _ := gets (λ w, MSL_PM_CloseInterface env (trace w) addr) in
  emit (EvCloseInterface addr).

End WithEnvironment.
End IX3TPC.

(** ** The light source *)

Module _IX3LHLEDC.
Section WithEnvironment.
Context (env : Environment).

Definition _do_enable : M unit :=
  let! (st, response) :=
    IX3TPC.send_command_blocking env "DSH 0"
      IX3TPC.default_timeout_ms IX3TPC.default_sleep_interval in
  if negb (CommandStatus_eqb st SUCCESS) || negb (String.eqb response "DSH +")
  then raise (ValueError
                ("Unexpected response for command 'DSH 0'. Status: "
                 ++ CommandStatus_name st ++ ". Response: " ++ response))
  else ret tt.

Definition _do_disable : M unit :=
  let! shutting_down := gets _shutting_down in
  if negb shutting_down then
    let! (st, response) :=
      IX3TPC.send_command_blocking env "DSH 1"
        IX3TPC.default_timeout_ms IX3TPC.default_sleep_interval in
    if negb (CommandStatus_eqb st SUCCESS) || negb (String.eqb response "DSH +")
    then raise (ValueError
                  ("Unexpected response for command 'DSH 1'. Status: "
                   ++ CommandStatus_name st ++ ". Response: " ++ response))
    else ret tt
  else ret tt.

(** [xs[-1]] *)
Definition last_item (xs : list string) : result string :=
  match last xs with
  | Some x => Ok x
  | None => Raise (IndexError "list index out of range")
  end.

Definition get_is_on : M bool :=
  let! (st, response) :=
    IX3TPC.send_command_blocking env "DSH?"
      IX3TPC.default_timeout_ms IX3TPC.default_sleep_interval in
  if negb (CommandStatus_eqb st SUCCESS)
     || negb (existsb (String.eqb response) ["DSH 0"; "DSH 1"])
  then raise (ValueError
                ("Unexpected response for command 'DSH?'. Status: "
                 ++ CommandStatus_name st ++ ". Response: " ++ response))
  else
    let! word := lift (last_item (str_split response)) in
    let! n := lift (int_of_str word) in
    ret (negb (n =? 0)).

Definition _do_get_power : M float :=
  let! (st, response) :=
    IX3TPC.send_command_blocking env "DSH?"
      IX3TPC.default_timeout_ms IX3TPC.default_sleep_interval in
  let! power_int :=
    if negb (String.eqb response "") then
      let! word := lift (last_item (str_split response)) in
      lift (int_of_str word)
    else ret (-1) in
  if negb (CommandStatus_eqb st SUCCESS)
     || negb ((0 <=? power_int) && (power_int <=? 255))
  then raise (ValueError
                ("Unexpected response for command 'DSH?'. Status: "
                 ++ CommandStatus_name st ++ ". Response: " ++ response))
  else lift (int_truediv power_int 255).

Definition _do_set_power (power : float) : M unit :=
  let! scaled := lift (float_mul_int power 255) in
  let! level := lift (int_of_float scaled) in
  let command := "DIL1 " ++ format_d level in
  let! (st, response) :=
    IX3TPC.send_command_blocking env command
      IX3TPC.default_timeout_ms IX3TPC.default_sleep_interval in
  if negb (CommandStatus_eqb st SUCCESS) || negb (String.eqb response "DIL1 +")
  then raise (ValueError
                ("Unexpected response for command '" ++ command
                 ++ "'. Status: " ++ CommandStatus_name st
                 ++ ". Response: " ++ response))
  else ret tt.

End WithEnvironment.
End _IX3LHLEDC.

(** ** A simulated control unit

    An environment to run the model in: a 64-bit platform, one interface on
    the bus, and a control unit that answers every command during the first
    sleep after its submission.  [reply] gives the answer to a command
    body, or [None] when the unit stays silent; an answer comes with a
    non-NULL [pContext]. *)

Definition empty_world : World :=
  {| _command_table := ∅; _pm_if_data_addr := 0; _shutting_down := false;
     _devices := []; frames := []; trace := [] |}.

(** The body of the command in a record: [m_Cmd] without its terminator. *)
Definition command_body (r : _MDK_MSL_CMD) : string :=
  match list_chr (take (Z.to_nat (m_CmdSize r) - 2)%nat (m_Cmd r)) with
  | Ok cs => string_of_list_ascii cs
  | Raise _ => ""
  end.

(** The record after the unit has written [text] into it. *)
Definition answered (text : string) (r : _MDK_MSL_CMD) : _MDK_MSL_CMD :=
  let bytes := map ord (list_ascii_of_string text) in
  with_response r (Z.of_nat (length bytes))
    (bytes ++ replicate (Z.to_nat _MAX_RESPONSE_SIZE - length bytes)%nat 0)%list.

Definition answer (reply : string → option string) (r : _MDK_MSL_CMD)
    : list Completion :=
  match reply (command_body r) with
  | None => []
  | Some text =>
      [ {| MsgId := 0; wParam := 0; lParam := 0;
           pv := answered text r;
           pContext := 4096; pCaller := 0 |} ]
  end.

Definition simulated (count : Z) (accept : bool)
    (reply : string → option string) : Environment :=
  {| sizeof_c_void_p := 8;
     id_self := 140000000000000;
     id_command_table := 140000000001024;
     MSL_PM_Initialize := λ _, 0;
     MSL_PM_EnumInterface := λ _, count;
     MSL_PM_GetInterfaceInfo := λ _ _, (0, 8192);
     MSL_PM_OpenInterface := λ _ _, true;
     MSL_PM_CloseInterface := λ _ _, true;
     MSL_PM_RegisterCallback := λ _ _ _, true;
     MSL_PM_SendCommand := λ _ _ _, accept;
     completions := λ history,
       match reverse history with
       | EvSleep _ :: EvSendCommand _ r :: _ => answer reply r
       | _ => []
       end;
     call_function := λ _ name _ _ _ table,
       (if String.eqb name "fails" then Raise (UserError "fails") else Ok tt,
        table) |}.

(** The unit acknowledges a command ["X args"] with ["X +"] and answers
    the query ["X?"] with ["X 0"]. *)
Definition acknowledge (cmd : string) : option string :=
  match str_split cmd with
  | word :: _ =>
      match String.index 0 "?" word with
      | Some n => Some (String.substring 0 n word ++ " 0")
      | None => Some (word ++ " +")
      end
  | [] => None
  end.

Definition silent (cmd : string) : option string := None.

(** ** Observations on worlds and tables *)

Definition is_sleep (ev : Event) : bool :=
  match ev with EvSleep _ => true | _ => false end.

Definition is_submission (ev : Event) : bool :=
  match ev with EvSendCommand _ _ => true | _ => false end.

(** The number of times the program slept, that is the number of rounds of
    the polling loop that found the command unresolved. *)
Definition sleeps (history : list Event) : nat :=
  length (filter (λ ev, is_sleep ev = true) history).

Definition submissions (history : list Event) : nat :=
  length (filter (λ ev, is_submission ev = true) history).

(** Every entry is stored under the key its record carries in
    [m_Callback]. *)
Definition handle_is_key (t : gmap Z _CommandTableEntry) : Prop :=
  ∀ k e, t !! k = Some e → m_Callback (data e) = k.

(** No two entries carry the same key in their records. *)
Definition handles_distinct (t : gmap Z _CommandTableEntry) : Prop :=
  ∀ k1 k2 e1 e2,
    t !! k1 = Some e1 → t !! k2 = Some e2 →
    m_Callback (data e1) = m_Callback (data e2) → k1 = k2.

(** The number of polls the specification gives for a command that is
    never answered, [ceil(timeoutMs / 1000 / pollIntervalS) + 1], in exact
    arithmetic. *)
Definition spec_polls (timeoutMs : Z) (pollIntervalS : Q) : Z :=
  Qceiling (inject_Z timeoutMs / inject_Z 1000 / pollIntervalS) + 1.

(** An entry waiting for its callback, with the given completion handler. *)
Definition waiting_entry (env : Environment) (key : Z)
    (f : option Callable) (args : list PyObject) : _CommandTableEntry :=
  {| status := WAIT;
     data := new_MDK_MSL_CMD (pointer_size_bits env) 0
               (replicate (Z.to_nat _MAX_COMMAND_SIZE) 0) key
               (id_command_table env) 10000 1;
     callback := f; callback_args := args |}.

Definition NUL : ascii := "000"%char.

(** Named environments: a unit that never answers, and one that does. *)
Definition platform64 : Environment := simulated 1 true silent.
Definition responsive : Environment := simulated 1 true acknowledge.

(** One command in flight under key 0, whose handler raises. *)
Definition failing_handler_world : World :=
  set_command_table
    {[ 0 := waiting_entry responsive 0 (Some (function "fails")) [] ]}
    empty_world.

(** ** Names for the parts of the two central functions *)

(** The size [send_command] compares, in effect, with the room in
    [m_Cmd]: the command and its terminator. *)
Definition payload_size (cmd : string) : Z :=
  Z.of_nat (String.length cmd)
  + Z.of_nat (String.length IX3TPC._COMMAND_TERMINATOR).

(** The bytes [send_command] puts in [m_Cmd]. *)
Definition command_bytes (cmd : string) : list Z :=
  let text := list_ascii_of_string (cmd ++ IX3TPC._COMMAND_TERMINATOR) in
  (map c_byte (map ord text)
   ++ replicate (Z.to_nat _MAX_COMMAND_SIZE - length (map ord text))%nat 0)%list.

(** The entry [send_command] stores, and the world right after the
    submission. *)
Definition new_entry (record : _MDK_MSL_CMD) (cb : option Callable)
    (args : list PyObject) : _CommandTableEntry :=
  {| status := WAIT; data := record; callback := cb; callback_args := args |}.

Definition submitted (key : Z) (record : _MDK_MSL_CMD)
    (cb : option Callable) (args : list PyObject) (w : World) : World :=
  set_trace (trace w ++ [EvSendCommand (_pm_if_data_addr w) record])%list
    (set_command_table (<[key := new_entry record cb args]> (_command_table w)) w).

(** What [_callback_command] reads from its arguments: the key, the
    status the entry is resolved to, and whether [m_Context] names the
    command table. *)
Definition key_of (pv : _MDK_MSL_CMD) : Z :=
  default 0 (c_void_p_value (m_Callback pv)).

Definition resolved (pContext : Z) : CommandStatus :=
  match c_void_p_value pContext with Some _ => SUCCESS | None => TIMEOUT end.

Definition names_command_table (env : Environment) (pv : _MDK_MSL_CMD) : Prop :=
  c_void_p_value (m_Context pv)
  = Some (c_void_p (pointer_size_bits env) (id_command_table env)).

(** ** Inputs the statements below are run on *)

(** A library that refuses every submission. *)
Definition refusing : Environment := simulated 1 false silent.

(** Keys 0, 1 and 3 in flight: the smallest free key is 2. *)
Definition busy_world : World :=
  set_command_table
    (<[0 := waiting_entry responsive 0 None []]>
       (<[1 := waiting_entry responsive 1 None []]>
          (<[3 := waiting_entry responsive 3 None []]> ∅)))
    empty_world.

(** One command in flight under key 0, whose handler returns. *)
Definition notified_world : World :=
  set_command_table
    {[ 0 := waiting_entry responsive 0 (Some (function "notify")) [PyInt 7] ]}
    empty_world.

(** A command of 255 characters: with its terminator it needs 257 bytes. *)
Definition long_command : string :=
  string_of_list_ascii (replicate 255 "A"%char).


Definition with_interface_address (addr : Z) (env : Environment) : Environment :=
  {| sizeof_c_void_p := sizeof_c_void_p env;
     id_self := id_self env;
     id_command_table := id_command_table env;
     MSL_PM_Initialize := MSL_PM_Initialize env;
     MSL_PM_EnumInterface := MSL_PM_EnumInterface env;
     MSL_PM_GetInterfaceInfo := λ _ _, (0, addr);
     MSL_PM_OpenInterface := MSL_PM_OpenInterface env;
     MSL_PM_CloseInterface := MSL_PM_CloseInterface env;
     MSL_PM_RegisterCallback := MSL_PM_RegisterCallback env;
     MSL_PM_SendCommand := MSL_PM_SendCommand env;
     completions := completions env;
     call_function := call_function env |}.

Definition with_completions (f : list Event → list Completion)
    (env : Environment) : Environment :=
  {| sizeof_c_void_p := sizeof_c_void_p env;
     id_self := id_self env;
     id_command_table := id_command_table env;
     MSL_PM_Initialize := MSL_PM_Initialize env;
     MSL_PM_EnumInterface := MSL_PM_EnumInterface env;
     MSL_PM_GetInterfaceInfo := MSL_PM_GetInterfaceInfo env;
     MSL_PM_OpenInterface := MSL_PM_OpenInterface env;
     MSL_PM_CloseInterface := MSL_PM_CloseInterface env;
     MSL_PM_RegisterCallback := MSL_PM_RegisterCallback env;
     MSL_PM_SendCommand := MSL_PM_SendCommand env;
     completions := f;
     call_function := call_function env |}.




(** A library that gives NULL for the address of the interface. *)
Definition null_interface : Environment := with_interface_address 0 responsive.

(** A unit that, during the first sleep after a submission, completes the
    command in flight under key 0 and never the command just submitted. *)
Definition crosstalk : Environment :=
  with_completions
    (λ history,
       match reverse history with
       | EvSleep _ :: EvSendCommand _ _ :: _ =>
           [ {| MsgId := 0; wParam := 0; lParam := 0;
                pv := answered "NFP 1" (data (waiting_entry responsive 0 None []));
                pContext := 4096; pCaller := 0 |} ]
       | _ => []
       end)
    responsive.

(** ** Runs of the program *)

(** What a statement does, as a relation [R] between the world before it
    and the world after it, whatever it returns or raises. *)
Definition transforms {A} (R : World → World → Prop) (m : M A) : Prop :=
  ∀ w r w', m w = (r, w') → R w w'.

(** Neither slept nor submitted anything. *)
Definition quiet (w w' : World) : Prop :=
  sleeps (trace w') = sleeps (trace w)
  ∧ submissions (trace w') = submissions (trace w).

(** Every entry is stored under the key its record carries, the key lies
    in the key space, and the record names the command table. *)
Definition table_wf (env : Environment) (t : gmap Z _CommandTableEntry) : Prop :=
  ∀ k e, t !! k = Some e →
    m_Callback (data e) = k
    ∧ 0 ≤ k < 2 ^ pointer_size_bits env
    ∧ m_Context (data e)
      = c_void_p (pointer_size_bits env) (id_command_table env).

(** The functions of the caller keep the table well formed. *)
Definition polite (env : Environment) : Prop :=
  ∀ history name st response args t,
    table_wf env t →
    table_wf env (snd (call_function env history name st response args t)).

(** One step of a run: a call of the dispatcher by the program, or a
    command callback made by the library. *)
Inductive step (env : Environment) : World → World → Prop :=
| step_send_command cmd cb args timeout_ms w :
    step env w (snd (IX3TPC.send_command env cmd cb args timeout_ms w))
| step_send_command_blocking cmd timeout_ms sleep_interval w :
    step env w
      (snd (IX3TPC.send_command_blocking env cmd timeout_ms sleep_interval w))
| step_callback c w :
    step env w (run_completion env c w).

(** The worlds a run can be in, started with an empty table. *)
Definition reachable (env : Environment) (w : World) : Prop :=
  ∃ w0, _command_table w0 = ∅ ∧ rtc (step env) w0 w.

(** The library initialises, shows one interface, opens it, registers the
    callbacks and accepts every submission, and the address it gives for
    the interface is not NULL. *)
Definition works (env : Environment) : Prop :=
  (∀ h, MSL_PM_Initialize env h = 0)
  ∧ (∀ h, MSL_PM_EnumInterface env h = 1)
  ∧ (∀ h a, MSL_PM_OpenInterface env h a = true)
  ∧ (∀ h a c, MSL_PM_RegisterCallback env h a c = true)
  ∧ (∀ h a r, MSL_PM_SendCommand env h a r = true)
  ∧ (∀ h, c_void_p (pointer_size_bits env)
            (snd (MSL_PM_GetInterfaceInfo env h 0)) ≠ 0).

(** The unit answers every command during the first sleep after its
    submission, as [reply] says. *)
Definition answers (env : Environment) (reply : string → option string) : Prop :=
  ∀ history addr record secs,
    completions env (history ++ [EvSendCommand addr record; EvSleep secs])%list
    = answer reply record.

(** Pointers have a size, and the command table is not at address NULL. *)
Definition platform_ok (env : Environment) : Prop :=
  0 ≤ pointer_size_bits env
  ∧ c_void_p (pointer_size_bits env) (id_command_table env) ≠ 0.

(** The world [send_command_blocking] is in after its submission: the
    cell of its closure is allocated and the command is sent. *)
Definition blocking_submitted (env : Environment) (cmd : string)
    (timeout_ms : Z) (w : World) : World :=
  snd (IX3TPC.send_command env cmd
         (Some (closure__callback (length (frames w)))) [] timeout_ms
         (set_frames (frames w ++ [(WAIT, "")])%list w)).

(** The command bodies submitted in a trace, in order. *)
Definition submitted_commands (history : list Event) : list string :=
  omap (λ ev, match ev with
              | EvSendCommand _ r => Some (command_body r)
              | _ => None
              end) history.

(** The calls of the closure [_callback] of the activation of
    [send_command_blocking] whose cell is [frame]. *)
Definition is_callback_of (frame : nat) (ev : Event) : bool :=
  match ev with
  | EvCall (closure__callback f) _ _ _ => Nat.eqb f frame
  | _ => false
  end.

Definition callbacks (frame : nat) (history : list Event) : nat :=
  length (filter (λ ev, is_callback_of frame ev = true) history).

(** The cell [frame] changes only when its closure is called: the calls
    never get fewer, and with no call more the cell is as it was. *)
Definition undisturbed (frame : nat) (w w' : World) : Prop :=
  (callbacks frame (trace w) ≤ callbacks frame (trace w'))%nat
  ∧ (callbacks frame (trace w') = callbacks frame (trace w) →
     frames w' !! frame = frames w !! frame).

(** Ordering of floats: [x <= y]. *)
Definition float_le (x y : float) : bool := SFleb x y.

(** The world after a sleep during which the library reported the
    completion of the command under [key], whose handler is the closure of
    the blocking call with cell [frame]: the cell holds the outcome, the
    entry is retired, and the trace shows the sleep and the call. *)
Definition answered_world (frame : nat) (key : Z) (st : CommandStatus)
    (text : string) (secs : float) (w : World) : World :=
  set_command_table (delete key (_command_table w))
    (set_frames (<[frame := (st, text)]> (frames w))
       (set_trace
          (trace w ++ [EvSleep secs; EvCall (closure__callback frame) st text []])%list
          w)).

(** Text of ASCII characters only. *)
Definition ascii_text (s : string) : Prop :=
  Forall (λ c, ord c < 128) (list_ascii_of_string s).

(** A statement keeps the table well formed. *)
Definition keeps_table_wf (env : Environment) (w w' : World) : Prop :=
  table_wf env (_command_table w) → table_wf env (_command_table w').

(** The world after [_initialise_portmanager] with a library that works:
    the interface address is the one the library gave, and the trace shows
    the five calls and the log line in between. *)
Definition initialised (env : Environment) (w : World) : World :=
  let addr :=
    c_void_p (pointer_size_bits env)
      (snd (MSL_PM_GetInterfaceInfo env
              (trace w ++ [EvInitialize; EvEnumInterface])%list 0)) in
  set_trace
    (trace w
     ++ [EvInitialize; EvEnumInterface; EvGetInterfaceInfo 0;
         EvOpenInterface addr;
         EvLog INFO ("Opened interface for object at address 0x" ++ format_X addr);
         EvRegisterCallback addr (id_self env)])%list
    (set_pm_if_data_addr addr w).

(** The commands of the login and of the configuration, with the answers
    the constructor expects. *)
Definition startup_commands : list (string * string) :=
  [ ("L 1,0", "L +"); ("EN6 1,1", "EN6 +"); ("EN5 1", "EN5 +");
    ("OPE 0", "OPE +"); ("TPIL 0", "TPIL +") ].

(** One more command acknowledged: the table is empty again, the
    attributes of the controller are as before, and the trace shows one
    more command and one more sleep. *)
Definition acknowledged (cmd : string) (w w' : World) : Prop :=
  _command_table w' = ∅
  ∧ _pm_if_data_addr w' = _pm_if_data_addr w
  ∧ _shutting_down w' = _shutting_down w
  ∧ _devices w' = _devices w
  ∧ submitted_commands (trace w') = (submitted_commands (trace w) ++ [cmd])%list
  ∧ sleeps (trace w') = S (sleeps (trace w)).

(** The body of the loops of [_login] and [_configure]; [what] is the
    start of the error message. *)
Definition startup_step (env : Environment) (what : string)
    (step : string * string) : M unit :=
  let '(cmd_msg, cmd_exprsp) := step in
  let! (st, response) :=
    IX3TPC.send_command_blocking env cmd_msg
      IX3TPC.default_timeout_ms IX3TPC.default_sleep_interval in
  if negb (CommandStatus_eqb st SUCCESS) || negb (String.eqb response cmd_exprsp)
  then raise (InitialiseError
                (what ++ cmd_msg
                 ++ "'. Status: '" ++ CommandStatus_name st
                 ++ "'. Response: '" ++ response ++ "'."))
  else ret tt.

(** [int(power * 255)], the level [_do_set_power] sends. *)
Definition power_level (power : float) : result Z :=
  match float_mul_int power 255 with
  | Raise e => Raise e
  | Ok scaled => int_of_float scaled
  end.

(** [n / 255] is a float between 0 and 1. *)
Definition is_unit_fraction (n : Z) : bool :=
  match int_truediv n 255 with
  | Ok x => float_le (S754_zero false) x && float_le x (float_of_ratio 1 1)
  | Raise _ => false
  end.

(** The bytes of the response that lie within its declared size. *)
Definition declared_response (r : _MDK_MSL_CMD) : list Z :=
  take (Z.to_nat (m_RspSize r)) (m_Rsp r).

(** What the library tells [_initialise_portmanager], call by call, in a
    run started in [w]: the status of the initialisation, the number of
    interfaces, the address of the interface, and whether the interface
    opens and the callbacks register. *)
Definition pm_status (env : Environment) (w : World) : Z :=
  MSL_PM_Initialize env (trace w).

Definition pm_count (env : Environment) (w : World) : Z :=
  MSL_PM_EnumInterface env (trace w ++ [EvInitialize])%list.

Definition pm_address (env : Environment) (w : World) : Z :=
  c_void_p (pointer_size_bits env)
    (snd (MSL_PM_GetInterfaceInfo env
            (trace w ++ [EvInitialize; EvEnumInterface])%list 0)).

Definition pm_opened (env : Environment) (w : World) : bool :=
  MSL_PM_OpenInterface env
    (trace w ++ [EvInitialize; EvEnumInterface; EvGetInterfaceInfo 0])%list
    (pm_address env w).

Definition pm_registered (env : Environment) (w : World) : bool :=
  MSL_PM_RegisterCallback env
    (trace w
     ++ [EvInitialize; EvEnumInterface; EvGetInterfaceInfo 0;
         EvOpenInterface (pm_address env w);
         EvLog INFO ("Opened interface for object at address 0x"
                     ++ format_X (pm_address env w))])%list
    (pm_address env w) (id_self env).

(** * Properties *)

(** ** Key allocation *)

(** Keys [i], [i+1], ..., [i+n-1] all taken: the table has at least [n]
    entries. *)
Lemma occupied_window_size (keys : gmap Z _CommandTableEntry) (i : Z) (n : nat) :
  (∀ j, i ≤ j < i + Z.of_nat n → is_Some (keys !! j)) → (n ≤ size keys)%nat.
Proof.
  intros Hocc.
  assert (Hsub : (list_to_set (seqZ i (Z.of_nat n)) : gset Z) ⊆ dom keys).
  { intros j Hj. apply elem_of_list_to_set, elem_of_seqZ in Hj.
    apply elem_of_dom, Hocc. lia. }
  apply subseteq_size in Hsub.
  rewrite size_list_to_set, length_seqZ, size_dom in Hsub by apply NoDup_seqZ.
  lia.
Qed.

Lemma occupied_prefix_size (keys : gmap Z _CommandTableEntry) (n : Z) :
  (∀ j, 0 ≤ j < n → is_Some (keys !! j)) → n ≤ Z.of_nat (size keys).
Proof.
  intros Hocc. destruct (Z.le_gt_cases n 0) as [Hn | Hn]; [lia |].
  pose proof (occupied_window_size keys 0 (Z.to_nat n)) as Hsize.
  rewrite Z2Nat.id in Hsize by lia. specialize (Hsize Hocc). lia.
Qed.

Lemma scan_range_Break fuel keys i stop k :
  IX3TPC.scan_range fuel keys i stop = IX3TPC.Break k →
  i ≤ k < stop ∧ keys !! k = None ∧ ∀ j, i ≤ j < k → is_Some (keys !! j).
Proof.
  revert i. induction fuel as [| fuel IH]; intros i; simpl; [discriminate |].
  destruct (Z.leb_spec stop i) as [Hstop | Hstop]; [discriminate |].
  destruct (keys !! i) as [e |] eqn:Hi.
  - intros Hscan. destruct (IH _ Hscan) as (Hk & Hfree & Hbelow).
    split; [lia |]. split; [done |].
    intros j Hj. destruct (decide (j = i)) as [-> | Hne]; [by rewrite Hi |].
    apply Hbelow. lia.
  - intros [= <-]. split; [lia |]. split; [done |]. intros j Hj. lia.
Qed.

Lemma scan_range_Exhausted fuel keys i stop :
  IX3TPC.scan_range fuel keys i stop = IX3TPC.Exhausted →
  ∀ j, i ≤ j < stop → is_Some (keys !! j).
Proof.
  revert i. induction fuel as [| fuel IH]; intros i; simpl; [discriminate |].
  destruct (Z.leb_spec stop i) as [Hstop | Hstop]; [intros _ j Hj; lia |].
  destruct (keys !! i) as [e |] eqn:Hi; [| discriminate].
  intros Hscan j Hj. destruct (decide (j = i)) as [-> | Hne]; [by rewrite Hi |].
  apply (IH _ Hscan). lia.
Qed.

Lemma scan_range_OutOfFuel fuel keys i stop :
  IX3TPC.scan_range fuel keys i stop = IX3TPC.OutOfFuel →
  ∀ j, i ≤ j < i + Z.of_nat fuel → is_Some (keys !! j).
Proof.
  revert i. induction fuel as [| fuel IH]; intros i; simpl; [intros _ j Hj; lia |].
  destruct (Z.leb_spec stop i) as [Hstop | Hstop]; [discriminate |].
  destruct (keys !! i) as [e |] eqn:Hi; [| discriminate].
  intros Hscan j Hj. destruct (decide (j = i)) as [-> | Hne]; [by rewrite Hi |].
  apply (IH _ Hscan). lia.
Qed.

(** The search for a key always ends by itself: one step more than the
    table has entries is enough for the loop over any range, so the step
    budget of [find_key] is never the reason it stops. *)
Lemma scan_range_total keys stop :
  IX3TPC.scan_range (S (size keys)) keys 0 stop ≠ IX3TPC.OutOfFuel.
Proof.
  intros Hscan.
  pose proof (occupied_window_size _ _ _ (scan_range_OutOfFuel _ _ _ _ Hscan)).
  lia.
Qed.

Lemma find_key_free env keys :
  Z.of_nat (size keys) < 2 ^ pointer_size_bits env →
  0 ≤ IX3TPC.find_key env keys < 2 ^ pointer_size_bits env
  ∧ keys !! IX3TPC.find_key env keys = None
  ∧ ∀ j, 0 ≤ j < IX3TPC.find_key env keys → is_Some (keys !! j).
Proof.
  intros Hsize. unfold IX3TPC.find_key.
  destruct (IX3TPC.scan_range _ _ _ _) as [k | |] eqn:Hscan.
  - by apply scan_range_Break in Hscan.
  - pose proof (occupied_prefix_size _ _ (scan_range_Exhausted _ _ _ _ Hscan)).
    lia.
  - by apply scan_range_total in Hscan.
Qed.

Lemma find_key_crowded env keys :
  (∀ j, 0 ≤ j < 2 ^ pointer_size_bits env → is_Some (keys !! j)) →
  IX3TPC.find_key env keys = 0.
Proof.
  intros Hocc. unfold IX3TPC.find_key.
  destruct (IX3TPC.scan_range _ _ _ _) as [k | |] eqn:Hscan; [| done | done].
  apply scan_range_Break in Hscan as (Hk & Hfree & _).
  destruct (Hocc k Hk) as [e He]. congruence.
Qed.

(** X1. The key [send_command] settles on is either the smallest
    non-negative integer that is free in the table, which then lies in the
    key space, or it is 0 because every key of the key space is taken. *)
Theorem find_key_cases env keys :
  (0 ≤ IX3TPC.find_key env keys < 2 ^ pointer_size_bits env
   ∧ keys !! IX3TPC.find_key env keys = None
   ∧ ∀ j, 0 ≤ j < IX3TPC.find_key env keys → is_Some (keys !! j))
  ∨ (IX3TPC.find_key env keys = 0
     ∧ ∀ j, 0 ≤ j < 2 ^ pointer_size_bits env → is_Some (keys !! j)).
Proof.
  unfold IX3TPC.find_key.
  destruct (IX3TPC.scan_range _ _ _ _) as [k | |] eqn:Hscan.
  - left. by apply scan_range_Break in Hscan.
  - right. split; [done |]. exact (scan_range_Exhausted _ _ _ _ Hscan).
  - by apply scan_range_total in Hscan.
Qed.

(** ** The dispatcher *)

Lemma length_list_ascii_of_string s :
  length (list_ascii_of_string s) = String.length s.
Proof. induction s as [| c s IH]; simpl; [done | by f_equal]. Qed.

Lemma string_length_app (s t : string) :
  String.length (s ++ t) = (String.length s + String.length t)%nat.
Proof. induction s as [| c s IH]; simpl; [done | by f_equal]. Qed.

Lemma list_ascii_of_string_app (s t : string) :
  list_ascii_of_string (s ++ t)
  = (list_ascii_of_string s ++ list_ascii_of_string t)%list.
Proof. induction s as [| c s IH]; simpl; [done | by f_equal]. Qed.

Lemma payload_length cmd :
  Z.of_nat (length (map ord (list_ascii_of_string (cmd ++ IX3TPC._COMMAND_TERMINATOR))))
  = payload_size cmd.
Proof.
  rewrite length_map, length_list_ascii_of_string, string_length_app.
  unfold payload_size. lia.
Qed.

Lemma command_record_fits env key cmd timeout_ms :
  payload_size cmd ≤ _MAX_COMMAND_SIZE →
  IX3TPC.command_record env key cmd timeout_ms
  = Ok (new_MDK_MSL_CMD (pointer_size_bits env) (payload_size cmd)
          (command_bytes cmd) key (id_command_table env) timeout_ms 1).
Proof.
  intros Hfits. unfold IX3TPC.command_record, c_byte_Array.
  rewrite payload_length.
  destruct (Z.leb_spec (payload_size cmd) _MAX_COMMAND_SIZE); [done | lia].
Qed.

Lemma command_record_too_long env key cmd timeout_ms :
  _MAX_COMMAND_SIZE < payload_size cmd →
  IX3TPC.command_record env key cmd timeout_ms = Raise (IndexError "invalid index").
Proof.
  intros Hlong. unfold IX3TPC.command_record, c_byte_Array.
  rewrite payload_length.
  destruct (Z.leb_spec (payload_size cmd) _MAX_COMMAND_SIZE); [lia | done].
Qed.

(** [send_command], statement by statement. *)
Lemma send_command_eq env cmd cb args timeout_ms w :
  IX3TPC.send_command env cmd cb args timeout_ms w =
  let key := IX3TPC.find_key env (_command_table w) in
  match IX3TPC.command_record env key cmd timeout_ms with
  | Raise e => (Raise e, w)
  | Ok record =>
      let w' := submitted key record cb args w in
      if MSL_PM_SendCommand env (trace w) (_pm_if_data_addr w) record
      then (Ok tt, w')
      else (Ok tt,
            set_trace
              (trace w'
               ++ [EvLog ERROR
                     ("MSL_PM_SendCommand() failed for command '" ++ cmd ++ "'.")])%list
              w')
  end.
Proof.
  unfold IX3TPC.send_command, bind, gets, lift, setitem, getitem, modify, emit,
    _logger, ret.
  cbn. destruct (IX3TPC.command_record _ _ _ _) as [record | e]; [| done].
  cbn. rewrite lookup_insert_eq. cbn.
  by destruct (MSL_PM_SendCommand _ _ _ _).
Qed.

(** A command that fits is stored under the key found, whatever the
    library says to the submission. *)
Lemma send_command_stores env cmd cb args timeout_ms w :
  payload_size cmd ≤ _MAX_COMMAND_SIZE →
  let key := IX3TPC.find_key env (_command_table w) in
  let record :=
    new_MDK_MSL_CMD (pointer_size_bits env) (payload_size cmd)
      (command_bytes cmd) key (id_command_table env) timeout_ms 1 in
  ∃ w', IX3TPC.send_command env cmd cb args timeout_ms w = (Ok tt, w')
        ∧ _command_table w'
          = <[key := new_entry record cb args]> (_command_table w).
Proof.
  intros Hfits key record. rewrite send_command_eq. cbn zeta. fold key.
  rewrite (command_record_fits _ _ _ _ Hfits). fold record.
  destruct (MSL_PM_SendCommand _ _ _ _); eexists; split; reflexivity.
Qed.

Lemma handle_is_key_distinct t : handle_is_key t → handles_distinct t.
Proof.
  intros Hkey k1 k2 e1 e2 H1 H2 Heq.
  by rewrite <- (Hkey _ _ H1), <- (Hkey _ _ H2).
Qed.

Lemma handle_is_key_insert t key e :
  handle_is_key t → m_Callback (data e) = key → handle_is_key (<[key := e]> t).
Proof.
  intros Hkey He k e' Hlook.
  destruct (decide (key = k)) as [-> | Hne].
  - rewrite lookup_insert_eq in Hlook. by injection Hlook as <-.
  - rewrite lookup_insert_ne in Hlook by done. by apply Hkey.
Qed.

(** C1. For a call of [send_command] that submits its command (the
    command fits its record) while the table holds fewer entries than the
    key space has keys: the key allocated is the smallest non-negative
    integer absent from the table; it was absent before the call; after the
    call the table is the old one with exactly one new entry, stored under
    that key, waiting, and carrying the key in its record; and if every
    entry was stored under the key its record carries, the same holds
    afterwards, so the keys of the commands in flight are pairwise
    distinct. *)
Theorem send_command_allocates_smallest_free_key
    env cmd cb args timeout_ms w :
  Z.of_nat (size (_command_table w)) < 2 ^ pointer_size_bits env →
  payload_size cmd ≤ _MAX_COMMAND_SIZE →
  ∃ key entry w',
    IX3TPC.send_command env cmd cb args timeout_ms w = (Ok tt, w')
    ∧ 0 ≤ key
    ∧ _command_table w !! key = None
    ∧ (∀ j, 0 ≤ j < key → is_Some (_command_table w !! j))
    ∧ _command_table w' = <[key := entry]> (_command_table w)
    ∧ size (_command_table w') = S (size (_command_table w))
    ∧ status entry = WAIT
    ∧ m_Callback (data entry) = key
    ∧ (handle_is_key (_command_table w) →
       handle_is_key (_command_table w') ∧ handles_distinct (_command_table w')).
Proof.
  intros Hsize Hfits.
  destruct (find_key_free env _ Hsize) as (Hrange & Hfree & Hbelow).
  destruct (send_command_stores env cmd cb args timeout_ms w Hfits)
    as (w' & Hrun & Htable).
  set (key := IX3TPC.find_key env (_command_table w)) in *.
  set (record := new_MDK_MSL_CMD (pointer_size_bits env) (payload_size cmd)
                   (command_bytes cmd) key (id_command_table env) timeout_ms 1) in *.
  assert (Hhandle : m_Callback record = key).
  { cbn. unfold c_void_p. apply Z.mod_small. lia. }
  exists key, (new_entry record cb args), w'.
  split; [done |]. split; [lia |]. split; [done |]. split; [done |].
  split; [done |].
  split; [by rewrite Htable, map_size_insert_None |].
  split; [done |]. split; [done |].
  intros Hkey. rewrite Htable.
  assert (handle_is_key (<[key := new_entry record cb args]> (_command_table w)))
    by by apply handle_is_key_insert.
  split; [done | by apply handle_is_key_distinct].
Qed.

Lemma send_command_allocates_smallest_free_key_witness :
  ∃ key entry w',
    IX3TPC.send_command responsive "DSH 0" None [] 10000 busy_world = (Ok tt, w')
    ∧ 0 ≤ key
    ∧ _command_table busy_world !! key = None
    ∧ (∀ j, 0 ≤ j < key → is_Some (_command_table busy_world !! j))
    ∧ _command_table w' = <[key := entry]> (_command_table busy_world)
    ∧ size (_command_table w') = S (size (_command_table busy_world))
    ∧ status entry = WAIT
    ∧ m_Callback (data entry) = key
    ∧ (handle_is_key (_command_table busy_world) →
       handle_is_key (_command_table w') ∧ handles_distinct (_command_table w')).
Proof.
  apply (send_command_allocates_smallest_free_key
           responsive "DSH 0" None [] 10000 busy_world).
  - vm_compute. reflexivity.
  - vm_compute. discriminate.
Defined.

(** The key found in [busy_world], by evaluation. *)
Example find_key_busy_world :
  IX3TPC.find_key responsive (_command_table busy_world) = 2.
Proof. vm_compute. reflexivity. Qed.

(** C4. A command whose length plus the length of the two-character
    terminator exceeds 256 makes [send_command] fail: the array of the
    command bytes refuses the initialiser beyond its end, and the exception
    (an [IndexError], the payload being too large for the record) leaves
    the world as it was.  A command within the limit is stored with its
    terminator: the record holds the bytes of the command followed by
    carriage return and line feed, and [m_CmdSize] counts both. *)
Theorem send_command_payload_limit env cmd cb args timeout_ms w :
  (_MAX_COMMAND_SIZE < payload_size cmd →
   IX3TPC.send_command env cmd cb args timeout_ms w
   = (Raise (IndexError "invalid index"), w))
  ∧ (payload_size cmd ≤ _MAX_COMMAND_SIZE →
     ∃ entry w',
       IX3TPC.send_command env cmd cb args timeout_ms w = (Ok tt, w')
       ∧ _command_table w' !! IX3TPC.find_key env (_command_table w) = Some entry
       ∧ m_CmdSize (data entry) = payload_size cmd
       ∧ Z.of_nat (length (m_Cmd (data entry))) = _MAX_COMMAND_SIZE
       ∧ take (Z.to_nat (payload_size cmd)) (m_Cmd (data entry))
         = (map c_byte (map ord (list_ascii_of_string cmd)) ++ [13; 10])%list).
Proof.
  split; intros Hsize.
  - rewrite send_command_eq. cbn zeta.
    by rewrite (command_record_too_long _ _ _ _ Hsize).
  - destruct (send_command_stores env cmd cb args timeout_ms w Hsize)
      as (w' & Hrun & Htable).
    eexists _, w'. split; [done |].
    split; [rewrite Htable; apply lookup_insert_eq |].
    assert (Hpos : 0 ≤ payload_size cmd) by (unfold payload_size; lia).
    pose proof (payload_length cmd) as Hlen.
    cbn. unfold command_bytes.
    split; [unfold c_ulong; apply Z.mod_small; unfold _MAX_COMMAND_SIZE in *; lia |].
    split.
    + rewrite length_app, length_replicate, !length_map.
      rewrite !length_map in Hlen. unfold _MAX_COMMAND_SIZE in *. lia.
    + rewrite take_app_length' by (rewrite length_map; lia).
      by rewrite list_ascii_of_string_app, !map_app.
Qed.

Lemma send_command_payload_limit_witness :
  IX3TPC.send_command responsive long_command None [] 10000 empty_world
  = (Raise (IndexError "invalid index"), empty_world).
Proof.
  apply (proj1 (send_command_payload_limit
                  responsive long_command None [] 10000 empty_world)).
  vm_compute. reflexivity.
Defined.

(** C6. When the library refuses the submission, [send_command] returns
    normally; what it did to the outside is one submission followed by one
    error line in the log, and nothing more; the entry created for the
    command is in the table under the allocated key, still waiting; every
    other key is as it was. *)
Theorem send_command_submit_failure env cmd cb args timeout_ms w record :
  IX3TPC.command_record env (IX3TPC.find_key env (_command_table w)) cmd timeout_ms
  = Ok record →
  MSL_PM_SendCommand env (trace w) (_pm_if_data_addr w) record = false →
  ∃ w',
    IX3TPC.send_command env cmd cb args timeout_ms w = (Ok tt, w')
    ∧ trace w'
      = (trace w
         ++ [EvSendCommand (_pm_if_data_addr w) record;
             EvLog ERROR ("MSL_PM_SendCommand() failed for command '" ++ cmd ++ "'.")])%list
    ∧ _command_table w' !! IX3TPC.find_key env (_command_table w)
      = Some {| status := WAIT; data := record; callback := cb;
                callback_args := args |}
    ∧ ∀ k, k ≠ IX3TPC.find_key env (_command_table w) →
           _command_table w' !! k = _command_table w !! k.
Proof.
  intros Hrecord Hrefused. eexists. split.
  - rewrite send_command_eq. cbn zeta. rewrite Hrecord, Hrefused. reflexivity.
  - cbn. split; [by rewrite <- app_assoc |]. split; [apply lookup_insert_eq |].
    intros k Hk. by apply lookup_insert_ne.
Qed.

Lemma send_command_submit_failure_witness :
  let record :=
    new_MDK_MSL_CMD 64 7 (command_bytes "DSH 0") 2
      (id_command_table refusing) 10000 1 in
  ∃ w',
    IX3TPC.send_command refusing "DSH 0" None [] 10000 busy_world = (Ok tt, w')
    ∧ trace w'
      = (trace busy_world
         ++ [EvSendCommand (_pm_if_data_addr busy_world) record;
             EvLog ERROR ("MSL_PM_SendCommand() failed for command '" ++ "DSH 0" ++ "'.")])%list
    ∧ _command_table w' !! IX3TPC.find_key refusing (_command_table busy_world)
      = Some {| status := WAIT; data := record; callback := None;
                callback_args := [] |}
    ∧ ∀ k, k ≠ IX3TPC.find_key refusing (_command_table busy_world) →
           _command_table w' !! k = _command_table busy_world !! k.
Proof.
  intros record.
  apply (send_command_submit_failure refusing "DSH 0" None [] 10000 busy_world record).
  - vm_compute. reflexivity.
  - reflexivity.
Defined.

(** Counting the sleeps and the submissions of a trace. *)
Lemma sleeps_app h1 h2 : sleeps (h1 ++ h2) = (sleeps h1 + sleeps h2)%nat.
Proof. unfold sleeps. by rewrite filter_app, length_app. Qed.

Lemma submissions_app h1 h2 :
  submissions (h1 ++ h2) = (submissions h1 + submissions h2)%nat.
Proof. unfold submissions. by rewrite filter_app, length_app. Qed.

Lemma sleeps_cons ev h :
  sleeps (ev :: h) = (if is_sleep ev then S (sleeps h) else sleeps h).
Proof.
  unfold sleeps. rewrite filter_cons.
  destruct (is_sleep ev); by case_decide.
Qed.

Lemma submissions_cons ev h :
  submissions (ev :: h)
  = (if is_submission ev then S (submissions h) else submissions h).
Proof.
  unfold submissions. rewrite filter_cons.
  destruct (is_submission ev); by case_decide.
Qed.






(** ** The callback adapter *)

(** A call leaves exactly one mark in the trace, whatever its outcome. *)
Lemma call_trace env f st response args w r w' :
  call env f st response args w = (r, w') →
  trace w' = (trace w ++ [EvCall f st response args])%list.
Proof.
  unfold call, bind, emit, modify, raise. cbn.
  destruct f as [frame | name]; cbn.
  - destruct args; intros [= <- <-]; done.
  - destruct (call_function _ _ _ _ _ _ _) as [r' t]. intros [= <- <-]. done.
Qed.

(** [_callback_command], statement by statement, for a record whose key
    is in the table. *)
Lemma callback_command_eq
    env MsgId wParam lParam pv pContext pCaller w entry response :
  _command_table w !! key_of pv = Some entry →
  response_text pv = Ok response →
  names_command_table env pv →
  _callback_command env MsgId wParam lParam pv pContext pCaller w =
  let key := key_of pv in
  let st := resolved pContext in
  let w1 := set_command_table (<[key := with_status entry st]> (_command_table w)) w in
  match callback entry with
  | None => (Ok 0, set_command_table (delete key (_command_table w1)) w1)
  | Some f =>
      match call env f st response (callback_args entry) w1 with
      | (Ok _, w2) =>
          match _command_table w2 !! key with
          | Some _ => (Ok 0, set_command_table (delete key (_command_table w2)) w2)
          | None => (Raise (KeyError key), w2)
          end
      | (Raise e, w2) => (Raise e, w2)
      end
  end.
Proof.
  intros Hentry Hresponse Hcontext.
  unfold _callback_command, py_object_value, set_status, delitem, getitem,
    setitem, bind, lift, modify, ret, raise, resolved.
  fold (key_of pv). rewrite Hresponse, Hcontext, Z.eqb_refl. cbn -[call].
  destruct (c_void_p_value pContext); rewrite Hentry; cbn -[call];
    rewrite lookup_insert_eq; cbn -[call];
    (destruct (callback entry) as [f |]; [| cbn; by rewrite lookup_insert_eq]);
    (destruct (call _ _ _ _ _ _) as [[[] | e] w2]; [| done]);
    by destruct (_command_table w2 !! key_of pv).
Qed.

(** X2. A completion for a key that is in the table, with a response
    that decodes and a record that names the table: the entry is resolved to
    [SUCCESS] when [pContext] is not NULL and to [TIMEOUT] when it is.  With
    no handler the callback returns 0 and the table loses exactly that
    entry.  With a handler, the handler is called once, with the resolved
    status, the response and the stored arguments; when it returns, the
    entry is gone from the table afterwards. *)
Theorem callback_command_resolves
    env MsgId wParam lParam pv pContext pCaller w entry response :
  _command_table w !! key_of pv = Some entry →
  response_text pv = Ok response →
  names_command_table env pv →
  let resolving :=
    set_command_table
      (<[key_of pv := with_status entry (resolved pContext)]> (_command_table w)) w in
  (pContext ≠ 0 ↔ resolved pContext = SUCCESS)
  ∧ (pContext = 0 ↔ resolved pContext = TIMEOUT)
  ∧ (callback entry = None →
     ∃ w', _callback_command env MsgId wParam lParam pv pContext pCaller w = (Ok 0, w')
           ∧ _command_table w' = delete (key_of pv) (_command_table w)
           ∧ trace w' = trace w)
  ∧ (∀ f w1,
       callback entry = Some f →
       call env f (resolved pContext) response (callback_args entry) resolving
       = (Ok tt, w1) →
       ∃ r w', _callback_command env MsgId wParam lParam pv pContext pCaller w = (r, w')
               ∧ _command_table w' !! key_of pv = None
               ∧ trace w'
                 = (trace w
                    ++ [EvCall f (resolved pContext) response (callback_args entry)])%list).
Proof.
  intros Hentry Hresponse Hcontext resolving.
  pose proof (callback_command_eq env MsgId wParam lParam pv pContext pCaller
                w entry response Hentry Hresponse Hcontext) as Heq.
  cbn zeta in Heq. fold resolving in Heq.
  split; [| split; [| split]].
  - unfold resolved, c_void_p_value.
    destruct (Z.eqb_spec pContext 0); split; (done || discriminate).
  - unfold resolved, c_void_p_value.
    destruct (Z.eqb_spec pContext 0); split; (done || discriminate).
  - intros Hnone. rewrite Hnone in Heq. eexists. split; [exact Heq |].
    cbn. split; [| done]. by rewrite delete_insert_eq.
  - intros f w1 Hsome Hcall. rewrite Hsome, Hcall in Heq.
    pose proof (call_trace _ _ _ _ _ _ _ _ Hcall) as Htrace.
    destruct (_command_table w1 !! key_of pv) eqn:Hlook;
      eexists _, _; (split; [exact Heq |]); cbn.
    + split; [apply lookup_delete_eq | done].
    + done.
Qed.

Lemma callback_command_resolves_witness :
  let pv := answered "DSH +" (data (waiting_entry responsive 0 None [])) in
  ∃ r w',
    _callback_command responsive 0 0 0 pv 4096 0 notified_world = (r, w')
    ∧ _command_table w' !! key_of pv = None
    ∧ trace w'
      = (trace notified_world
         ++ [EvCall (function "notify") (resolved 4096) "DSH +" [PyInt 7]])%list.
Proof.
  intros pv.
  eapply (proj2 (proj2 (proj2
            (callback_command_resolves responsive 0 0 0 pv 4096 0 notified_world
               (waiting_entry responsive 0 (Some (function "notify")) [PyInt 7])
               "DSH +" _ _ _)))).
  - reflexivity.
  - vm_compute. reflexivity.
  Unshelve.
  + vm_compute. reflexivity.
  + vm_compute. reflexivity.
  + vm_compute. reflexivity.
Defined.

(** C2, at a handler that raises.  The command in flight under key 0 has
    a handler that raises; the library reports its completion with a
    non-NULL [pContext].  The handler is called once, with [SUCCESS] and the
    response, its exception leaves the callback, and the entry is still in
    the table, resolved to [SUCCESS]: the deletion was never reached. *)
Theorem callback_command_raising_handler_keeps_entry :
  let pv := answered "DSH +" (data (waiting_entry responsive 0 None [])) in
  let r := _callback_command responsive 0 0 0 pv 4096 0 failing_handler_world in
  fst r = Raise (UserError "fails")
  ∧ status <$> (_command_table (snd r) !! 0) = Some SUCCESS
  ∧ trace (snd r) = [EvCall (function "fails") SUCCESS "DSH +" []].
Proof. vm_compute. done. Qed.

(** ** Decoding the response *)

Lemma response_text_with_response r n rsp :
  response_text (with_response r n rsp)
  = match list_chr (take (Z.to_nat n) rsp) with
    | Ok cs => Ok (string_of_list_ascii cs)
    | Raise e => Raise e
    end.
Proof. done. Qed.

(** C5, as the specification has it, fails: the text decoded from a
    response of size 7 that holds "DSH 0" and two NUL bytes is not
    "DSH 0". *)
Lemma response_text_keeps_NUL :
  let pv :=
    answered ("DSH 0" ++ String NUL (String NUL ""))
      (data (waiting_entry responsive 0 None [])) in
  m_RspSize pv = 7
  ∧ take 7 (m_Rsp pv) = [68; 83; 72; 32; 48; 0; 0]
  ∧ response_text pv ≠ Ok "DSH 0".
Proof. vm_compute. split; [done |]. split; [done |]. discriminate. Qed.


(** ** The blocking send *)

Lemma sleeps_replicate n secs : sleeps (replicate n (EvSleep secs)) = n.
Proof.
  induction n as [| n IH]; [done |].
  change (replicate (S n) (EvSleep secs))
    with ([EvSleep secs] ++ replicate n (EvSleep secs))%list.
  rewrite sleeps_app, IH. done.
Qed.

Lemma submissions_replicate n secs :
  submissions (replicate n (EvSleep secs)) = 0%nat.
Proof.
  induction n as [| n IH]; [done |].
  change (replicate (S n) (EvSleep secs))
    with ([EvSleep secs] ++ replicate n (EvSleep secs))%list.
  rewrite submissions_app, IH. done.
Qed.

(** Without callbacks a sleep only adds to the trace. *)
Lemma time_sleep_quiet env secs w :
  (∀ history, completions env history = []) →
  sleep_check secs = Ok tt →
  time_sleep env secs w = (Ok tt, set_trace (trace w ++ [EvSleep secs])%list w).
Proof.
  intros Hquiet Hcheck. unfold time_sleep, bind, lift, emit, modify.
  rewrite Hcheck. cbn. by rewrite Hquiet.
Qed.

Lemma poll_unanswered env frame secs n w :
  (∀ history, completions env history = []) →
  (n ≠ 0%nat → sleep_check secs = Ok tt) →
  fst (default (WAIT, "") (frames w !! frame)) = WAIT →
  IX3TPC.poll env frame secs n w
  = (Ok tt, set_trace (trace w ++ replicate n (EvSleep secs))%list w).
Proof.
  intros Hquiet. revert w. induction n as [| n IH]; intros w Hcheck Hwait.
  - cbn. unfold ret. rewrite app_nil_r. by destruct w.
  - cbn [IX3TPC.poll]. unfold bind at 1. unfold gets at 1. rewrite Hwait.
    cbn [CommandStatus_eqb CommandStatus_value Z.eqb negb].
    unfold bind. rewrite (time_sleep_quiet env secs w Hquiet) by auto.
    rewrite IH; [| intros _; auto | done].
    cbn. by rewrite <- app_assoc.
Qed.

Lemma send_command_frames env cmd cb args timeout_ms w r w' :
  IX3TPC.send_command env cmd cb args timeout_ms w = (r, w') →
  frames w' = frames w.
Proof.
  rewrite send_command_eq. cbn zeta.
  destruct (IX3TPC.command_record _ _ _ _) as [record | e]; [| by intros [= <- <-]].
  by destruct (MSL_PM_SendCommand _ _ _ _); intros [= <- <-].
Qed.

Lemma send_command_counts env cmd cb args timeout_ms w w' :
  IX3TPC.send_command env cmd cb args timeout_ms w = (Ok tt, w') →
  sleeps (trace w') = sleeps (trace w)
  ∧ submissions (trace w') = S (submissions (trace w)).
Proof.
  rewrite send_command_eq. cbn zeta.
  destruct (IX3TPC.command_record _ _ _ _) as [record | e]; [| discriminate].
  destruct (MSL_PM_SendCommand _ _ _ _); intros [= <-];
    cbn -[sleeps submissions];
    rewrite ?sleeps_app, ?submissions_app, ?sleeps_cons, ?submissions_cons;
    cbn -[sleeps submissions];
    change (sleeps []) with 0%nat; change (submissions []) with 0%nat; lia.
Qed.

Lemma send_command_returns env cmd cb args timeout_ms w :
  payload_size cmd ≤ _MAX_COMMAND_SIZE →
  ∃ w', IX3TPC.send_command env cmd cb args timeout_ms w = (Ok tt, w').
Proof.
  intros Hfits. rewrite send_command_eq. cbn zeta.
  rewrite (command_record_fits _ _ _ _ Hfits).
  destruct (MSL_PM_SendCommand _ _ _ _); eauto.
Qed.

Lemma Qtruncate_nonneg (a : Z) (d : positive) :
  0 ≤ a → Qtruncate (a # d) = a / Z.pos d.
Proof.
  intros Ha. unfold Qtruncate, Qle_bool, Qfloor. cbn [Qnum Qden inject_Z].
  destruct (Z.leb_spec (0 * Z.pos d) (a * 1)); [done | lia].
Qed.

Lemma Qtruncate_opp (a : Z) (d : positive) :
  0 < a → Qtruncate (Qopp (a # d)) = - (a / Z.pos d).
Proof.
  intros Ha. unfold Qtruncate, Qle_bool, Qceiling, Qfloor, Qopp.
  cbn [Qnum Qden inject_Z].
  destruct (Z.leb_spec (0 * Z.pos d) (- a * 1)); [lia |].
  by rewrite Z.opp_involutive.
Qed.

(** [int] of a float is the value of the float, rounded toward zero. *)
Lemma int_of_float_truncates x n :
  int_of_float x = Ok n →
  ∃ v, Q_of_float x = Some v ∧ n = Qtruncate v.
Proof.
  destruct x as [s | s | | s m e]; unfold int_of_float, Q_of_float;
    try discriminate.
  - intros [= <-]. by exists 0%Q.
  - intros [= <-]. eexists. split; [reflexivity |].
    destruct (Z.leb_spec 0 e) as [He | He].
    + rewrite Z.shiftl_mul_pow2 by done.
      assert (0 < Z.pos m * 2 ^ e)
        by (apply Z.mul_pos_pos; [done | by apply Z.pow_pos_nonneg]).
      unfold inject_Z.
      destruct s; [rewrite Qtruncate_opp by done | rewrite Qtruncate_nonneg by lia];
        by rewrite Z.div_1_r.
    + rewrite Z.shiftr_div_pow2 by lia.
      assert (Hpow : 0 < 2 ^ (- e)) by (apply Z.pow_pos_nonneg; lia).
      destruct s; [rewrite Qtruncate_opp by done | rewrite Qtruncate_nonneg by done];
        by rewrite Z2Pos.id.
Qed.

Lemma platform64_quiet history : completions platform64 history = [].
Proof.
  unfold platform64, simulated, completions.
  destruct (reverse history) as [| [] [| [] ?]]; done.
Qed.

(** C3, as the specification has it, fails.  With a timeout of 1500 ms
    and a sleep interval of one second the unanswered call sleeps twice,
    where [ceil(1500 / 1000 / 1) + 1] is 3; and with a sleep interval of
    zero the call raises [ZeroDivisionError]. *)
Lemma send_command_blocking_polls_not_ceiling :
  let run :=
    IX3TPC.send_command_blocking platform64 "DSH 0" 1500 (float_of_ratio 1 1)
      empty_world in
  fst run = Ok (WAIT, "")
  ∧ sleeps (trace (snd run)) = 2%nat
  ∧ spec_polls 1500 <$> Q_of_float (float_of_ratio 1 1) = Some 3
  ∧ fst (IX3TPC.send_command_blocking platform64 "DSH 0" 10000
           (S754_zero false) empty_world)
    = Raise (ZeroDivisionError "float division by zero").
Proof. vm_compute. done. Qed.


(** ** Initialisation *)

(** C8.  In the constructor of the controller, once the library is
    initialised (status 0): an enumeration that reports no interface raises
    [InitialiseError], one that reports two or more raises
    [UnsupportedFeatureError]; in both cases the constructor has only
    initialised the library and enumerated the interfaces by then, and no
    command (so no login command) has been submitted. *)
Theorem init_refuses_interface_count env w :
  MSL_PM_Initialize env (trace w) = 0 →
  let count := MSL_PM_EnumInterface env (trace w ++ [EvInitialize])%list in
  (count = 0 →
   ∃ msg w',
     IX3TPC.__init__ env w = (Raise (InitialiseError msg), w')
     ∧ trace w' = (trace w ++ [EvInitialize; EvEnumInterface])%list
     ∧ submissions (trace w') = submissions (trace w))
  ∧ (2 ≤ count →
     ∃ msg w',
       IX3TPC.__init__ env w = (Raise (UnsupportedFeatureError msg), w')
       ∧ trace w' = (trace w ++ [EvInitialize; EvEnumInterface])%list
       ∧ submissions (trace w') = submissions (trace w)).
Proof.
  intros Hinit count.
  assert (Hsubs : submissions (trace w ++ [EvInitialize; EvEnumInterface])
                  = submissions (trace w)).
  { rewrite submissions_app, !submissions_cons. cbn -[submissions].
    change (submissions []) with 0%nat. lia. }
  split; intros Hcount.
  - eexists _, _. split.
    + unfold IX3TPC.__init__, IX3TPC._initialise_portmanager, bind, gets,
        modify, emit, raise, ret. cbn. rewrite Hinit. cbn.
      fold count. rewrite Hcount. cbn. reflexivity.
    + cbn -[submissions]. rewrite <- app_assoc. done.
  - eexists _, _. split.
    + unfold IX3TPC.__init__, IX3TPC._initialise_portmanager, bind, gets,
        modify, emit, raise, ret. cbn. rewrite Hinit. cbn.
      fold count.
      destruct (Z.eqb_spec count 0) as [| _]; [lia |].
      destruct (Z.ltb_spec 1 count) as [_ |]; [| lia].
      cbn. reflexivity.
    + cbn -[submissions]. rewrite <- app_assoc. done.
Qed.

Lemma init_refuses_interface_count_witness :
  ∃ msg w',
    IX3TPC.__init__ (simulated 2 true acknowledge) empty_world
    = (Raise (UnsupportedFeatureError msg), w')
    ∧ trace w' = (trace empty_world ++ [EvInitialize; EvEnumInterface])%list
    ∧ submissions (trace w') = submissions (trace empty_world).
Proof.
  apply (init_refuses_interface_count (simulated 2 true acknowledge) empty_world).
  - reflexivity.
  - vm_compute. discriminate.
Defined.

(** ** The light source *)

Lemma CommandStatus_eqb_eq a b : CommandStatus_eqb a b = true ↔ a = b.
Proof. destruct a, b; cbn; split; (done || discriminate). Qed.

(** C9.  Enabling the light source returns normally exactly when the
    blocking send of "DSH 0" returns [SUCCESS] with the response "DSH +";
    for every other status and response the caller gets a [ValueError];
    an exception of the blocking send itself reaches the caller as it
    is. *)
Theorem do_enable_succeeds_iff env w :
  let blocking :=
    IX3TPC.send_command_blocking env "DSH 0"
      IX3TPC.default_timeout_ms IX3TPC.default_sleep_interval w in
  (∀ w', _IX3LHLEDC._do_enable env w = (Ok tt, w')
         ↔ blocking = (Ok (SUCCESS, "DSH +"), w'))
  ∧ (∀ st response w',
       blocking = (Ok (st, response), w') →
       (st, response) ≠ (SUCCESS, "DSH +") →
       ∃ msg, _IX3LHLEDC._do_enable env w = (Raise (ValueError msg), w'))
  ∧ (∀ e w', blocking = (Raise e, w') →
             _IX3LHLEDC._do_enable env w = (Raise e, w')).
Proof.
  intros blocking. unfold _IX3LHLEDC._do_enable, bind. fold blocking.
  destruct blocking as [[[st response] | e] w1].
  - cbn beta iota.
    destruct (CommandStatus_eqb st SUCCESS) eqn:Hst.
    + apply CommandStatus_eqb_eq in Hst as ->.
      destruct (String.eqb_spec response "DSH +") as [-> | Hresponse]; cbn;
        unfold ret, raise.
      * split; [intros w'; split; intros [= <-]; done |].
        split; [| discriminate].
        by intros st' response' w' [= <- <- <-] Hne.
      * split; [intros w'; split; [discriminate | intros [= ? _]; done] |].
        split; [| discriminate].
        intros st' response' w' [= <- <- <-] _. by eexists.
    + assert (st ≠ SUCCESS) by (intros ->; discriminate). cbn.
      unfold raise.
      split; [intros w'; split; [discriminate | intros [= ? _ _]; done] |].
      split; [| discriminate].
      intros st' response' w' [= <- <- <-] _. by eexists.
  - split; [intros w'; split; discriminate |].
    split; [discriminate |]. by intros e' w' [= <- <-].
Qed.

Lemma do_enable_succeeds_iff_witness :
  ∃ w', _IX3LHLEDC._do_enable responsive empty_world = (Ok tt, w').
Proof.
  eexists.
  apply (proj1 (do_enable_succeeds_iff responsive empty_world)).
  vm_compute. reflexivity.
Defined.

(** C10.  [get_is_on] returns [False] exactly when the blocking "DSH?"
    query returns [SUCCESS] with "DSH 0", returns [True] exactly when it
    returns [SUCCESS] with "DSH 1", and raises [ValueError] for every other
    status and response. *)
Theorem get_is_on_cases env w :
  let blocking :=
    IX3TPC.send_command_blocking env "DSH?"
      IX3TPC.default_timeout_ms IX3TPC.default_sleep_interval w in
  (∀ w', _IX3LHLEDC.get_is_on env w = (Ok false, w')
         ↔ blocking = (Ok (SUCCESS, "DSH 0"), w'))
  ∧ (∀ w', _IX3LHLEDC.get_is_on env w = (Ok true, w')
           ↔ blocking = (Ok (SUCCESS, "DSH 1"), w'))
  ∧ (∀ st response w',
       blocking = (Ok (st, response), w') →
       (st, response) ≠ (SUCCESS, "DSH 0") →
       (st, response) ≠ (SUCCESS, "DSH 1") →
       ∃ msg, _IX3LHLEDC.get_is_on env w = (Raise (ValueError msg), w')).
Proof.
  intros blocking. unfold _IX3LHLEDC.get_is_on, bind. fold blocking.
  destruct blocking as [[[st response] | e] w1].
  - cbn beta iota.
    destruct (CommandStatus_eqb st SUCCESS) eqn:Hst.
    + apply CommandStatus_eqb_eq in Hst as ->.
      cbn [negb orb existsb].
      destruct (String.eqb_spec response "DSH 0") as [-> | Hzero].
      { vm_compute.
        split; [intros w'; split; intros [= <-]; done |].
        split; [intros w'; split; discriminate |].
        by intros st' response' w' [= <- <- <-] Hne. }
      destruct (String.eqb_spec response "DSH 1") as [-> | Hone].
      { vm_compute.
        split; [intros w'; split; discriminate |].
        split; [intros w'; split; intros [= <-]; done |].
        by intros st' response' w' [= <- <- <-] _ Hne. }
      cbn. unfold raise.
      split; [intros w'; split; [discriminate | intros [= ? _]; done] |].
      split; [intros w'; split; [discriminate | intros [= ? _]; done] |].
      intros st' response' w' [= <- <- <-] _ _. by eexists.
    + assert (st ≠ SUCCESS) by (intros ->; discriminate). cbn. unfold raise.
      split; [intros w'; split; [discriminate | intros [= ? _ _]; done] |].
      split; [intros w'; split; [discriminate | intros [= ? _ _]; done] |].
      intros st' response' w' [= <- <- <-] _ _. by eexists.
  - split; [intros w'; split; discriminate |].
    split; [intros w'; split; discriminate |]. discriminate.
Qed.

Lemma get_is_on_cases_witness :
  ∃ w', _IX3LHLEDC.get_is_on responsive empty_world = (Ok false, w').
Proof.
  eexists.
  apply (proj1 (get_is_on_cases responsive empty_world)).
  vm_compute. reflexivity.
Defined.

(** ** Statements and what they preserve *)

Section Transforms.
Context (R : World → World → Prop).
Hypothesis R_refl : ∀ w, R w w.
Hypothesis R_trans : ∀ w1 w2 w3, R w1 w2 → R w2 w3 → R w1 w3.

Lemma transforms_ret {A} (a : A) : transforms R (ret a).
Proof. intros w r w' [= <- <-]. apply R_refl. Qed.

Lemma transforms_raise {A} (e : exn) : transforms R (raise (A := A) e).
Proof. intros w r w' [= <- <-]. apply R_refl. Qed.

Lemma transforms_lift {A} (x : result A) : transforms R (lift x).
Proof. intros w r w' [= <- <-]. apply R_refl. Qed.

Lemma transforms_gets {A} (f : World → A) : transforms R (gets f).
Proof. intros w r w' [= <- <-]. apply R_refl. Qed.

Lemma transforms_modify (f : World → World) :
  (∀ w, R w (f w)) → transforms R (modify f).
Proof. intros Hf w r w' [= <- <-]. apply Hf. Qed.

Lemma transforms_bind {A B} (m : M A) (k : A → M B) :
  transforms R m → (∀ a, transforms R (k a)) → transforms R (bind m k).
Proof.
  intros Hm Hk w r w'. unfold bind.
  destruct (m w) as [[a | e] w1] eqn:Hrun.
  - intros Hrest. eapply R_trans; [by eapply Hm | by eapply Hk].
  - intros [= <- <-]. by eapply Hm.
Qed.

Lemma transforms_getitem key : transforms R (getitem key).
Proof.
  intros w r w'. unfold getitem.
  destruct (_command_table w !! key); intros [= <- <-]; apply R_refl.
Qed.

Lemma transforms_for_each {A} (xs : list A) (body : A → M unit) :
  (∀ x, transforms R (body x)) → transforms R (for_each xs body).
Proof.
  intros Hbody. induction xs as [| x xs IH]; cbn [for_each].
  - apply transforms_ret.
  - apply transforms_bind; [apply Hbody | intros _; apply IH].
Qed.

End Transforms.

Lemma quiet_refl w : quiet w w.
Proof. by split. Qed.

Lemma quiet_trans w1 w2 w3 : quiet w1 w2 → quiet w2 w3 → quiet w1 w3.
Proof. intros [? ?] [? ?]. split; congruence. Qed.

Lemma quiet_table t w : quiet w (set_command_table t w).
Proof. by split. Qed.

Lemma quiet_frames f w : quiet w (set_frames f w).
Proof. by split. Qed.

Lemma quiet_event ev w :
  is_sleep ev = false → is_submission ev = false →
  quiet w (set_trace (trace w ++ [ev])%list w).
Proof.
  intros Hsleep Hsubmission. split; cbn -[sleeps submissions].
  - rewrite sleeps_app, sleeps_cons, Hsleep. change (sleeps []) with 0%nat. lia.
  - rewrite submissions_app, submissions_cons, Hsubmission.
    change (submissions []) with 0%nat. lia.
Qed.

Lemma call_quiet env f st response args :
  transforms quiet (call env f st response args).
Proof.
  unfold call. apply transforms_bind; [apply quiet_trans | |].
  - apply transforms_modify. intros w. by apply quiet_event.
  - intros _. destruct f as [frame | name].
    + destruct args.
      * apply transforms_modify. intros w. apply quiet_frames.
      * apply transforms_raise, quiet_refl.
    + intros w r w'. destruct (call_function _ _ _ _ _ _ _) as [r' t].
      intros [= <- <-]. apply quiet_table.
Qed.

Lemma set_status_quiet key s : transforms quiet (set_status key s).
Proof.
  unfold set_status.
  apply transforms_bind;
    [apply quiet_trans | apply transforms_getitem, quiet_refl |].
  intros entry. apply transforms_modify. intros w. apply quiet_table.
Qed.

Lemma delitem_quiet key : transforms quiet (delitem key).
Proof.
  unfold delitem.
  apply transforms_bind;
    [apply quiet_trans | apply transforms_getitem, quiet_refl |].
  intros entry. apply transforms_modify. intros w. apply quiet_table.
Qed.

Lemma callback_command_quiet env MsgId wParam lParam pv pContext pCaller :
  transforms quiet
    (_callback_command env MsgId wParam lParam pv pContext pCaller).
Proof.
  unfold _callback_command.
  apply transforms_bind;
    [apply quiet_trans | apply transforms_lift, quiet_refl |].
  intros response. apply transforms_bind; [apply quiet_trans | |].
  { unfold py_object_value. destruct (c_void_p_value _) as [a |].
    - destruct (a =? _);
        [apply transforms_ret | apply transforms_raise]; apply quiet_refl.
    - apply transforms_raise, quiet_refl. }
  intros _. apply transforms_bind; [apply quiet_trans | |].
  { destruct (c_void_p_value pContext); apply set_status_quiet. }
  intros _. apply transforms_bind;
    [apply quiet_trans | apply transforms_getitem, quiet_refl |].
  intros entry. apply transforms_bind; [apply quiet_trans | |].
  { destruct (callback entry);
      [apply call_quiet | apply transforms_ret, quiet_refl]. }
  intros _. apply transforms_bind; [apply quiet_trans | apply delitem_quiet |].
  intros _. apply transforms_ret, quiet_refl.
Qed.

Lemma run_completion_quiet env c w : quiet w (run_completion env c w).
Proof.
  unfold run_completion.
  destruct (_callback_command _ _ _ _ _ _ _ w) as [[n | e] w'] eqn:Hrun;
    pose proof (callback_command_quiet _ _ _ _ _ _ _ _ _ _ Hrun) as Hquiet.
  - done.
  - eapply quiet_trans; [exact Hquiet | by apply quiet_event].
Qed.

Lemma completions_quiet env cs w :
  quiet w (foldl (λ w' c, run_completion env c w') w cs).
Proof.
  revert w. induction cs as [| c cs IH]; intros w; cbn; [apply quiet_refl |].
  eapply quiet_trans; [apply run_completion_quiet | apply IH].
Qed.

(** A sleep is one sleep, or none when the length is refused. *)
Lemma time_sleep_counts env secs w r w' :
  time_sleep env secs w = (r, w') →
  (sleeps (trace w') ≤ S (sleeps (trace w)))%nat
  ∧ submissions (trace w') = submissions (trace w).
Proof.
  unfold time_sleep, bind, lift, emit, modify.
  destruct (sleep_check secs) as [[] | e];
    [| intros [= <- <-]; split; [lia | done]].
  intros [= <- <-].
  destruct (completions_quiet env
              (completions env (trace w ++ [EvSleep secs]))
              (set_trace (trace w ++ [EvSleep secs])%list w)) as [Hs Hc].
  cbn -[sleeps submissions] in Hs, Hc. cbn -[sleeps submissions].
  rewrite Hs, Hc, sleeps_app, submissions_app, sleeps_cons, submissions_cons.
  cbn -[sleeps submissions].
  change (sleeps []) with 0%nat. change (submissions []) with 0%nat. lia.
Qed.

Lemma poll_counts env frame secs n w r w' :
  IX3TPC.poll env frame secs n w = (r, w') →
  (sleeps (trace w') ≤ sleeps (trace w) + n)%nat
  ∧ submissions (trace w') = submissions (trace w).
Proof.
  revert w. induction n as [| n IH]; intros w; cbn [IX3TPC.poll].
  - intros [= <- <-]. lia.
  - unfold bind at 1. unfold gets at 1.
    destruct (negb _); [intros [= <- <-]; lia |].
    unfold bind.
    destruct (time_sleep env secs w) as [[[] | e] w1] eqn:Hsleep;
      pose proof (time_sleep_counts _ _ _ _ _ Hsleep) as [Hs Hc].
    + intros Hrest. destruct (IH _ Hrest) as [Hs' Hc']. lia.
    + intros [= <- <-]. lia.
Qed.

(** [send_command_blocking] after a submission that returned. *)
Lemma send_command_blocking_eq env cmd timeout_ms sleep_interval w w1 :
  IX3TPC.send_command env cmd (Some (closure__callback (length (frames w)))) []
    timeout_ms (set_frames (frames w ++ [(WAIT, "")])%list w) = (Ok tt, w1) →
  IX3TPC.send_command_blocking env cmd timeout_ms sleep_interval w
  = match IX3TPC.range_stop timeout_ms sleep_interval with
    | Raise e => (Raise e, w1)
    | Ok stop =>
        match IX3TPC.poll env (length (frames w)) sleep_interval
                (Z.to_nat stop) w1 with
        | (Ok _, w2) =>
            (Ok (default (WAIT, "") (frames w2 !! length (frames w))), w2)
        | (Raise e, w2) => (Raise e, w2)
        end
    end.
Proof.
  intros Hsend. unfold IX3TPC.send_command_blocking, bind.
  unfold gets at 1, modify at 1. rewrite Hsend. unfold lift at 1.
  destruct (IX3TPC.range_stop _ _) as [stop | e]; [| done].
  by destruct (IX3TPC.poll _ _ _ _ _) as [[[] | e] w2].
Qed.

(** X3. [send_command_blocking], whatever the unit does: a command that
    fits the buffer is submitted exactly once.  When the number of polling
    rounds [stop] can be computed, the call sleeps at most [stop] times, and
    with [stop <= 0] it returns [WAIT] and the empty response at once,
    without sleeping.  When it cannot be computed (a sleep interval of zero,
    say) the exception leaves the call after the submission and before any
    sleep. *)
Theorem send_command_blocking_bounded env cmd timeout_ms sleep_interval w :
  payload_size cmd ≤ _MAX_COMMAND_SIZE →
  let run := IX3TPC.send_command_blocking env cmd timeout_ms sleep_interval w in
  submissions (trace (snd run)) = S (submissions (trace w))
  ∧ match IX3TPC.range_stop timeout_ms sleep_interval with
    | Ok stop =>
        (sleeps (trace (snd run)) ≤ sleeps (trace w) + Z.to_nat stop)%nat
        ∧ (stop ≤ 0 →
           fst run = Ok (WAIT, "")
           ∧ sleeps (trace (snd run)) = sleeps (trace w))
    | Raise e =>
        fst run = Raise e ∧ sleeps (trace (snd run)) = sleeps (trace w)
    end.
Proof.
  intros Hfits run. subst run.
  destruct (send_command_returns env cmd
              (Some (closure__callback (length (frames w)))) [] timeout_ms
              (set_frames (frames w ++ [(WAIT, "")])%list w) Hfits)
    as [w1 Hsend].
  pose proof (send_command_frames _ _ _ _ _ _ _ _ Hsend) as Hframes.
  destruct (send_command_counts _ _ _ _ _ _ _ Hsend) as [Hsleeps Hsubs].
  cbn -[sleeps submissions] in Hsleeps, Hsubs, Hframes.
  assert (Hcell : frames w1 !! length (frames w) = Some (WAIT, "")).
  { rewrite Hframes. by rewrite lookup_app_r, Nat.sub_diag. }
  rewrite (send_command_blocking_eq _ _ _ _ _ _ Hsend).
  destruct (IX3TPC.range_stop timeout_ms sleep_interval) as [stop | e];
    [| done].
  destruct (IX3TPC.poll env _ sleep_interval (Z.to_nat stop) w1)
    as [[[] | e] w2] eqn:Hpoll;
    pose proof (poll_counts _ _ _ _ _ _ _ Hpoll) as [Hs Hc];
    cbn -[sleeps submissions].
  - split; [congruence |]. split; [lia |]. intros Hstop.
    assert (Hzero : Z.to_nat stop = 0%nat) by lia.
    rewrite Hzero in Hpoll. cbn in Hpoll. injection Hpoll as <-.
    rewrite Hcell. split; [done | lia].
  - split; [congruence |]. split; [lia |]. intros Hstop.
    assert (Hzero : Z.to_nat stop = 0%nat) by lia.
    rewrite Hzero in Hpoll. discriminate.
Qed.

Lemma send_command_blocking_bounded_witness :
  submissions
    (trace (snd (IX3TPC.send_command_blocking responsive "DSH 0" 10000
                   IX3TPC.default_sleep_interval empty_world)))
  = S (submissions (trace empty_world)).
Proof.
  refine (proj1 (send_command_blocking_bounded responsive "DSH 0" 10000
                   IX3TPC.default_sleep_interval empty_world _)).
  vm_compute. discriminate.
Defined.

(** ** A blocking send whose callback is never called *)

Lemma callbacks_app frame h1 h2 :
  callbacks frame (h1 ++ h2) = (callbacks frame h1 + callbacks frame h2)%nat.
Proof. unfold callbacks. by rewrite filter_app, length_app. Qed.

Lemma callbacks_cons frame ev h :
  callbacks frame (ev :: h)
  = (if is_callback_of frame ev then S (callbacks frame h)
     else callbacks frame h).
Proof.
  unfold callbacks. rewrite filter_cons.
  destruct (is_callback_of frame ev); by case_decide.
Qed.

Lemma callbacks_event frame ev h :
  callbacks frame (h ++ [ev])
  = (callbacks frame h + if is_callback_of frame ev then 1 else 0)%nat.
Proof.
  rewrite callbacks_app, callbacks_cons. change (callbacks frame []) with 0%nat.
  by destruct (is_callback_of frame ev).
Qed.

Lemma undisturbed_refl frame w : undisturbed frame w w.
Proof. by split. Qed.

Lemma undisturbed_trans frame w1 w2 w3 :
  undisturbed frame w1 w2 → undisturbed frame w2 w3 → undisturbed frame w1 w3.
Proof.
  intros [Hle12 Hcell12] [Hle23 Hcell23]. split; [lia |].
  intros Hsame. rewrite Hcell23, Hcell12; [done | lia | lia].
Qed.

Lemma undisturbed_table frame t w : undisturbed frame w (set_command_table t w).
Proof. by split. Qed.

Lemma undisturbed_event frame ev w :
  undisturbed frame w (set_trace (trace w ++ [ev])%list w).
Proof.
  split; cbn [trace set_trace frames]; [| done].
  rewrite callbacks_event. lia.
Qed.

Lemma call_undisturbed env frame f st response args :
  transforms (undisturbed frame) (call env f st response args).
Proof.
  intros w r w'. unfold call, bind, emit, modify, raise.
  destruct f as [cell | name].
  - destruct args; intros [= <- <-]; split; cbn [trace set_trace set_frames frames];
      rewrite callbacks_event; cbn [is_callback_of]; try lia.
    + destruct (Nat.eqb_spec cell frame) as [-> | Hother]; [lia |].
      intros _. by apply list_lookup_insert_ne.
    + done.
  - destruct (call_function _ _ _ _ _ _ _) as [r' t]. intros [= <- <-].
    apply (undisturbed_event frame).
Qed.

Lemma set_status_undisturbed frame key s :
  transforms (undisturbed frame) (set_status key s).
Proof.
  unfold set_status.
  apply transforms_bind;
    [apply undisturbed_trans | apply transforms_getitem, undisturbed_refl |].
  intros entry. apply transforms_modify. intros w. apply undisturbed_table.
Qed.

Lemma delitem_undisturbed frame key :
  transforms (undisturbed frame) (delitem key).
Proof.
  unfold delitem.
  apply transforms_bind;
    [apply undisturbed_trans | apply transforms_getitem, undisturbed_refl |].
  intros entry. apply transforms_modify. intros w. apply undisturbed_table.
Qed.

Lemma callback_command_undisturbed
    env frame MsgId wParam lParam pv pContext pCaller :
  transforms (undisturbed frame)
    (_callback_command env MsgId wParam lParam pv pContext pCaller).
Proof.
  unfold _callback_command.
  apply transforms_bind;
    [apply undisturbed_trans | apply transforms_lift, undisturbed_refl |].
  intros response. apply transforms_bind; [apply undisturbed_trans | |].
  { unfold py_object_value. destruct (c_void_p_value _) as [a |].
    - destruct (a =? _);
        [apply transforms_ret | apply transforms_raise]; apply undisturbed_refl.
    - apply transforms_raise, undisturbed_refl. }
  intros _. apply transforms_bind; [apply undisturbed_trans | |].
  { destruct (c_void_p_value pContext); apply set_status_undisturbed. }
  intros _. apply transforms_bind;
    [apply undisturbed_trans | apply transforms_getitem, undisturbed_refl |].
  intros entry. apply transforms_bind; [apply undisturbed_trans | |].
  { destruct (callback entry);
      [apply call_undisturbed | apply transforms_ret, undisturbed_refl]. }
  intros _. apply transforms_bind;
    [apply undisturbed_trans | apply delitem_undisturbed |].
  intros _. apply transforms_ret, undisturbed_refl.
Qed.

Lemma run_completion_undisturbed env frame c w :
  undisturbed frame w (run_completion env c w).
Proof.
  unfold run_completion.
  destruct (_callback_command _ _ _ _ _ _ _ w) as [[n | e] w'] eqn:Hrun;
    pose proof (callback_command_undisturbed _ frame _ _ _ _ _ _ _ _ _ Hrun)
      as Hstep.
  - done.
  - eapply undisturbed_trans; [exact Hstep | apply undisturbed_event].
Qed.

Lemma completions_undisturbed env frame cs w :
  undisturbed frame w (foldl (λ w' c, run_completion env c w') w cs).
Proof.
  revert w. induction cs as [| c cs IH]; intros w; cbn;
    [apply undisturbed_refl |].
  eapply undisturbed_trans; [apply run_completion_undisturbed | apply IH].
Qed.

(** A sleep of an accepted length is one sleep, whatever the library does
    meanwhile. *)
Lemma time_sleep_accepted env frame secs w :
  sleep_check secs = Ok tt →
  ∃ w',
    time_sleep env secs w = (Ok tt, w')
    ∧ undisturbed frame w w'
    ∧ sleeps (trace w') = S (sleeps (trace w))
    ∧ submissions (trace w') = submissions (trace w).
Proof.
  intros Hcheck. unfold time_sleep, bind, lift, emit, modify. rewrite Hcheck.
  eexists. split; [reflexivity |].
  set (w1 := set_trace (trace w ++ [EvSleep secs])%list w).
  change (completions env (trace w ++ [EvSleep secs])%list)
    with (completions env (trace w1)).
  destruct (completions_quiet env (completions env (trace w1)) w1) as [Hs Hc].
  pose proof (completions_undisturbed env frame (completions env (trace w1)) w1)
    as Hstep.
  split; [eapply undisturbed_trans; [apply (undisturbed_event frame) | exact Hstep] |].
  rewrite Hs, Hc. subst w1. cbn [trace set_trace].
  rewrite sleeps_app, submissions_app, sleeps_cons, submissions_cons.
  cbn [is_sleep is_submission].
  change (sleeps []) with 0%nat. change (submissions []) with 0%nat. lia.
Qed.

Lemma time_sleep_undisturbed env frame secs :
  transforms (undisturbed frame) (time_sleep env secs).
Proof.
  intros w r w'. unfold time_sleep, bind, lift, emit, modify.
  destruct (sleep_check secs) as [[] | e];
    [| intros [= <- <-]; apply undisturbed_refl].
  intros [= <- <-].
  eapply undisturbed_trans;
    [apply (undisturbed_event frame) | apply completions_undisturbed].
Qed.

Lemma poll_undisturbed env frame cell secs n :
  transforms (undisturbed frame) (IX3TPC.poll env cell secs n).
Proof.
  induction n as [| n IH]; cbn [IX3TPC.poll].
  - apply transforms_ret, undisturbed_refl.
  - apply transforms_bind;
      [apply undisturbed_trans | apply transforms_gets, undisturbed_refl |].
    intros status. destruct (negb _);
      [apply transforms_ret, undisturbed_refl |].
    apply transforms_bind;
      [apply undisturbed_trans | apply time_sleep_undisturbed |].
    intros _. exact IH.
Qed.

(** The loop, when the closure is not called while it runs: it ends by
    itself, after [n] sleeps. *)
Lemma poll_uncalled env frame secs n w r w' :
  (n ≠ 0%nat → sleep_check secs = Ok tt) →
  fst (default (WAIT, "") (frames w !! frame)) = WAIT →
  IX3TPC.poll env frame secs n w = (r, w') →
  callbacks frame (trace w') = callbacks frame (trace w) →
  r = Ok tt
  ∧ frames w' !! frame = frames w !! frame
  ∧ sleeps (trace w') = (sleeps (trace w) + n)%nat
  ∧ submissions (trace w') = submissions (trace w).
Proof.
  revert w. induction n as [| n IH]; intros w Hcheck Hwait; cbn [IX3TPC.poll].
  - intros [= <- <-] _. split; [done |]. split; [done |]. lia.
  - unfold bind at 1. unfold gets at 1. rewrite Hwait.
    cbn [CommandStatus_eqb CommandStatus_value Z.eqb negb].
    destruct (time_sleep_accepted env frame secs w) as (ws & Hsleep & Hstep & Hs & Hc);
      [by apply Hcheck |].
    unfold bind. rewrite Hsleep. intros Hrest Hsame.
    pose proof (poll_undisturbed env frame frame secs n _ _ _ Hrest) as Hrest'.
    destruct Hstep as [Hle1 Hcell1], Hrest' as [Hle2 Hcell2].
    assert (Hsame1 : callbacks frame (trace ws) = callbacks frame (trace w))
      by lia.
    destruct (IH ws) as (-> & Hcell & Hs' & Hc'); [auto | | exact Hrest | lia |].
    { by rewrite Hcell1. }
    split; [done |]. split; [by rewrite Hcell, Hcell1 |]. lia.
Qed.

Lemma send_command_callbacks env frame cmd cb args timeout_ms w r w' :
  IX3TPC.send_command env cmd cb args timeout_ms w = (r, w') →
  callbacks frame (trace w') = callbacks frame (trace w).
Proof.
  rewrite send_command_eq. cbn zeta.
  destruct (IX3TPC.command_record _ _ _ _) as [record | e];
    [| by intros [= <- <-]].
  destruct (MSL_PM_SendCommand _ _ _ _); intros [= <- <-];
    cbn [trace set_trace submitted set_command_table];
    rewrite ?callbacks_event; cbn [is_callback_of]; lia.
Qed.

(** C3, as the code has it.  Take a command that fits its record, a
    timeout and a sleep interval for which
    [int(timeout_ms / 1000 / sleep_interval) + 1] is defined, say [stop],
    the interval being a length [time.sleep] accepts if any sleep is made,
    and a call of [send_command_blocking] during which the callback of the
    call is never called: no completion reaches the command, whatever the
    library does meanwhile with the other commands in flight.  Then the
    call submits the command once, finds it unresolved and sleeps exactly
    [stop] times (not at all when [stop] is not positive), and returns
    [WAIT] with the empty string, without raising.  [stop] is one more than
    the binary64 quotient [timeout_ms / 1000 / sleep_interval] rounded
    toward zero: the quotient is truncated, not rounded up. *)
Theorem send_command_blocking_unanswered
    env cmd timeout_ms sleep_interval stop w :
  let frame := length (frames w) in
  let run := IX3TPC.send_command_blocking env cmd timeout_ms sleep_interval w in
  callbacks frame (trace (snd run)) = callbacks frame (trace w) →
  payload_size cmd ≤ _MAX_COMMAND_SIZE →
  IX3TPC.range_stop timeout_ms sleep_interval = Ok stop →
  (0 < stop → sleep_check sleep_interval = Ok tt) →
  ∃ w',
    run = (Ok (WAIT, ""), w')
    ∧ sleeps (trace w') = (sleeps (trace w) + Z.to_nat stop)%nat
    ∧ submissions (trace w') = S (submissions (trace w))
    ∧ ∃ quotient v,
        IX3TPC.intervals timeout_ms sleep_interval = Ok quotient
        ∧ Q_of_float quotient = Some v
        ∧ stop = Qtruncate v + 1.
Proof.
  intros frame run Huncalled Hfits Hstop Hcheck. subst run.
  set (w0 := set_frames (frames w ++ [(WAIT, "")])%list w).
  destruct (send_command_returns env cmd (Some (closure__callback frame)) []
              timeout_ms w0 Hfits) as [w1 Hsend].
  pose proof (send_command_frames _ _ _ _ _ _ _ _ Hsend) as Hframes.
  destruct (send_command_counts _ _ _ _ _ _ _ Hsend) as [Hsleeps Hsubs].
  pose proof (send_command_callbacks _ frame _ _ _ _ _ _ _ Hsend) as Hcalls.
  assert (Hcell : frames w1 !! frame = Some (WAIT, "")).
  { rewrite Hframes. cbn. by rewrite lookup_app_r, Nat.sub_diag. }
  rewrite (send_command_blocking_eq _ _ _ _ _ _ Hsend), Hstop in Huncalled |- *.
  fold frame in Huncalled |- *.
  destruct (IX3TPC.poll env frame sleep_interval (Z.to_nat stop) w1)
    as [r w2] eqn:Hpoll.
  assert (Hsame : callbacks frame (trace w2) = callbacks frame (trace w1)).
  { rewrite Hcalls. by destruct r. }
  destruct (poll_uncalled env frame sleep_interval (Z.to_nat stop) w1 r w2)
    as (-> & Hcell2 & Hs & Hc);
    [intros Hn; apply Hcheck; lia | by rewrite Hcell | exact Hpoll | exact Hsame |].
  exists w2. rewrite Hcell2, Hcell. split; [done |].
  change (trace w0) with (trace w) in Hsleeps, Hsubs.
  split; [lia |]. split; [lia |].
  unfold IX3TPC.range_stop in Hstop.
  destruct (IX3TPC.intervals _ _) as [quotient | e]; [| discriminate].
  destruct (int_of_float quotient) as [n | e] eqn:Hint; [| discriminate].
  injection Hstop as <-.
  destruct (int_of_float_truncates _ _ Hint) as (v & Hv & ->).
  by exists quotient, v.
Qed.

Lemma send_command_blocking_unanswered_witness :
  ∃ w',
    IX3TPC.send_command_blocking crosstalk "DSH 0" 10000
      IX3TPC.default_sleep_interval notified_world
    = (Ok (WAIT, ""), w')
    ∧ sleeps (trace w') = (sleeps (trace notified_world) + Z.to_nat 51)%nat
    ∧ submissions (trace w') = S (submissions (trace notified_world))
    ∧ ∃ quotient v,
        IX3TPC.intervals 10000 IX3TPC.default_sleep_interval = Ok quotient
        ∧ Q_of_float quotient = Some v
        ∧ 51 = Qtruncate v + 1.
Proof.
  refine (send_command_blocking_unanswered crosstalk "DSH 0" 10000
            IX3TPC.default_sleep_interval 51 notified_world _ _ _ _).
  - vm_compute. reflexivity.
  - vm_compute. discriminate.
  - vm_compute. reflexivity.
  - intros _. vm_compute. reflexivity.
Defined.

(** In that run the library did complete the other command in flight: its
    handler was called, and its entry is gone. *)
Example crosstalk_run :
  let w' :=
    snd (IX3TPC.send_command_blocking crosstalk "DSH 0" 10000
           IX3TPC.default_sleep_interval notified_world) in
  _command_table notified_world !! 0 ≠ None
  ∧ _command_table w' !! 0 = None
  ∧ EvCall (function "notify") SUCCESS "NFP 1" [PyInt 7] ∈ trace w'.
Proof.
  vm_compute. split; [discriminate |]. split; [reflexivity |].
  do 2 apply list_elem_of_further. apply list_elem_of_here.
Qed.

(** ** The table stays well formed *)

Lemma keeps_table_wf_refl env w : keeps_table_wf env w w.
Proof. by intros ?. Qed.

Lemma keeps_table_wf_trans env w1 w2 w3 :
  keeps_table_wf env w1 w2 → keeps_table_wf env w2 w3 → keeps_table_wf env w1 w3.
Proof. intros H12 H23 Hwf. auto. Qed.

Lemma keeps_table_wf_same env w w' :
  _command_table w' = _command_table w → keeps_table_wf env w w'.
Proof. intros Heq Hwf. by rewrite Heq. Qed.

Lemma table_wf_insert env t key e :
  table_wf env t →
  m_Callback (data e) = key →
  0 ≤ key < 2 ^ pointer_size_bits env →
  m_Context (data e) = c_void_p (pointer_size_bits env) (id_command_table env) →
  table_wf env (<[key := e]> t).
Proof.
  intros Hwf Hhandle Hrange Hcontext k e' Hlook.
  destruct (decide (key = k)) as [-> | Hne].
  - rewrite lookup_insert_eq in Hlook. by injection Hlook as <-.
  - rewrite lookup_insert_ne in Hlook by done. by apply Hwf.
Qed.

Lemma table_wf_delete env t key : table_wf env t → table_wf env (delete key t).
Proof.
  intros Hwf k e Hlook. apply lookup_delete_Some in Hlook as [_ Hlook].
  by apply Hwf.
Qed.

Lemma table_wf_handle_is_key env t : table_wf env t → handle_is_key t.
Proof. intros Hwf k e Hlook. by destruct (Hwf k e Hlook). Qed.

Lemma find_key_range env keys :
  0 ≤ pointer_size_bits env →
  0 ≤ IX3TPC.find_key env keys < 2 ^ pointer_size_bits env.
Proof.
  intros Hbits. pose proof (Z.pow_pos_nonneg 2 (pointer_size_bits env)).
  unfold IX3TPC.find_key.
  destruct (IX3TPC.scan_range _ _ _ _) as [k | |] eqn:Hscan; [| lia | lia].
  apply scan_range_Break in Hscan. lia.
Qed.

Lemma command_record_fields env key cmd timeout_ms record :
  IX3TPC.command_record env key cmd timeout_ms = Ok record →
  m_Callback record = c_void_p (pointer_size_bits env) key
  ∧ m_Context record
    = c_void_p (pointer_size_bits env) (id_command_table env)
  ∧ m_Timeout record = c_ulong timeout_ms.
Proof.
  unfold IX3TPC.command_record.
  destruct (c_byte_Array _ _); [| discriminate]. by intros [= <-].
Qed.

Lemma send_command_keeps_table_wf env cmd cb args timeout_ms :
  0 ≤ pointer_size_bits env →
  transforms (keeps_table_wf env)
    (IX3TPC.send_command env cmd cb args timeout_ms).
Proof.
  intros Hbits w r w'. rewrite send_command_eq. cbn zeta.
  destruct (IX3TPC.command_record _ _ _ _) as [record | e] eqn:Hrecord;
    [| intros [= <- <-]; apply keeps_table_wf_refl].
  apply command_record_fields in Hrecord as (Hhandle & Hcontext & _).
  pose proof (find_key_range env (_command_table w) Hbits) as Hrange.
  assert (Hstored : table_wf env (_command_table w) →
            table_wf env
              (<[IX3TPC.find_key env (_command_table w)
                 := new_entry record cb args]> (_command_table w))).
  { intros Hwf. apply table_wf_insert; [done | | done | done].
    cbn. rewrite Hhandle. unfold c_void_p. apply Z.mod_small. lia. }
  by destruct (MSL_PM_SendCommand _ _ _ _); intros [= <- <-].
Qed.

Lemma call_keeps_table_wf env f st response args :
  polite env → transforms (keeps_table_wf env) (call env f st response args).
Proof.
  intros Hpolite. unfold call.
  apply transforms_bind; [apply keeps_table_wf_trans | |].
  - apply transforms_modify. intros w. by apply keeps_table_wf_same.
  - intros _. destruct f as [frame | name].
    + destruct args.
      * apply transforms_modify. intros w. by apply keeps_table_wf_same.
      * apply transforms_raise, keeps_table_wf_refl.
    + intros w r w'.
      pose proof (Hpolite (trace w) name st response args (_command_table w))
        as Hkept.
      destruct (call_function _ _ _ _ _ _ _) as [r' t].
      intros [= <- <-]. exact Hkept.
Qed.

Lemma set_status_keeps_table_wf env key s :
  transforms (keeps_table_wf env) (set_status key s).
Proof.
  intros w r w'. unfold set_status, bind, getitem, setitem, modify.
  destruct (_command_table w !! key) as [entry |] eqn:Hentry;
    intros [= <- <-]; [| apply keeps_table_wf_refl].
  intros Hwf. destruct (Hwf key entry Hentry) as (? & ? & ?).
  by apply table_wf_insert.
Qed.

Lemma delitem_keeps_table_wf env key :
  transforms (keeps_table_wf env) (delitem key).
Proof.
  intros w r w'. unfold delitem, bind, getitem, modify.
  destruct (_command_table w !! key) as [entry |];
    intros [= <- <-]; [| apply keeps_table_wf_refl].
  intros Hwf. by apply table_wf_delete.
Qed.

Lemma callback_command_keeps_table_wf
    env MsgId wParam lParam pv pContext pCaller :
  polite env →
  transforms (keeps_table_wf env)
    (_callback_command env MsgId wParam lParam pv pContext pCaller).
Proof.
  intros Hpolite. unfold _callback_command.
  apply transforms_bind;
    [apply keeps_table_wf_trans | apply transforms_lift, keeps_table_wf_refl |].
  intros response. apply transforms_bind; [apply keeps_table_wf_trans | |].
  { unfold py_object_value. destruct (c_void_p_value _) as [a |].
    - destruct (a =? _);
        [apply transforms_ret | apply transforms_raise];
        apply keeps_table_wf_refl.
    - apply transforms_raise, keeps_table_wf_refl. }
  intros _. apply transforms_bind; [apply keeps_table_wf_trans | |].
  { destruct (c_void_p_value pContext); apply set_status_keeps_table_wf. }
  intros _. apply transforms_bind;
    [apply keeps_table_wf_trans
    | apply transforms_getitem, keeps_table_wf_refl |].
  intros entry. apply transforms_bind; [apply keeps_table_wf_trans | |].
  { destruct (callback entry);
      [by apply call_keeps_table_wf
      | apply transforms_ret, keeps_table_wf_refl]. }
  intros _. apply transforms_bind;
    [apply keeps_table_wf_trans | apply delitem_keeps_table_wf |].
  intros _. apply transforms_ret, keeps_table_wf_refl.
Qed.

Lemma run_completion_keeps_table_wf env c w :
  polite env → keeps_table_wf env w (run_completion env c w).
Proof.
  intros Hpolite. unfold run_completion.
  destruct (_callback_command _ _ _ _ _ _ _ w) as [[n | e] w'] eqn:Hrun;
    pose proof (callback_command_keeps_table_wf _ _ _ _ _ _ _ Hpolite _ _ _ Hrun)
      as Hkept; [done |].
  intros Hwf. by apply Hkept.
Qed.

Lemma completions_keep_table_wf env cs w :
  polite env →
  keeps_table_wf env w (foldl (λ w' c, run_completion env c w') w cs).
Proof.
  intros Hpolite. revert w.
  induction cs as [| c cs IH]; intros w; cbn; [apply keeps_table_wf_refl |].
  eapply keeps_table_wf_trans; [by apply run_completion_keeps_table_wf | apply IH].
Qed.

Lemma time_sleep_keeps_table_wf env secs :
  polite env → transforms (keeps_table_wf env) (time_sleep env secs).
Proof.
  intros Hpolite. unfold time_sleep.
  apply transforms_bind;
    [apply keeps_table_wf_trans | apply transforms_lift, keeps_table_wf_refl |].
  intros _. apply transforms_bind; [apply keeps_table_wf_trans | |].
  { apply transforms_modify. intros w. by apply keeps_table_wf_same. }
  intros _. apply transforms_modify. intros w.
  by apply completions_keep_table_wf.
Qed.

Lemma poll_keeps_table_wf env frame secs n :
  polite env → transforms (keeps_table_wf env) (IX3TPC.poll env frame secs n).
Proof.
  intros Hpolite. induction n as [| n IH]; cbn [IX3TPC.poll].
  - apply transforms_ret, keeps_table_wf_refl.
  - apply transforms_bind;
      [apply keeps_table_wf_trans
      | apply transforms_gets, keeps_table_wf_refl |].
    intros cell. destruct (negb _);
      [apply transforms_ret, keeps_table_wf_refl |].
    apply transforms_bind;
      [apply keeps_table_wf_trans | by apply time_sleep_keeps_table_wf |].
    intros _. apply IH.
Qed.

Lemma send_command_blocking_keeps_table_wf env cmd timeout_ms sleep_interval :
  0 ≤ pointer_size_bits env → polite env →
  transforms (keeps_table_wf env)
    (IX3TPC.send_command_blocking env cmd timeout_ms sleep_interval).
Proof.
  intros Hbits Hpolite. unfold IX3TPC.send_command_blocking.
  apply transforms_bind;
    [apply keeps_table_wf_trans
    | apply transforms_gets, keeps_table_wf_refl |].
  intros frame. apply transforms_bind; [apply keeps_table_wf_trans | |].
  { apply transforms_modify. intros w. by apply keeps_table_wf_same. }
  intros _. apply transforms_bind;
    [apply keeps_table_wf_trans | by apply send_command_keeps_table_wf |].
  intros _. apply transforms_bind;
    [apply keeps_table_wf_trans | apply transforms_lift, keeps_table_wf_refl |].
  intros stop. apply transforms_bind;
    [apply keeps_table_wf_trans | by apply poll_keeps_table_wf |].
  intros _. apply transforms_gets, keeps_table_wf_refl.
Qed.

Lemma step_keeps_table_wf env w w' :
  0 ≤ pointer_size_bits env → polite env →
  step env w w' → keeps_table_wf env w w'.
Proof.
  intros Hbits Hpolite [cmd cb args timeout_ms w0
                       | cmd timeout_ms sleep_interval w0
                       | c w0].
  - eapply (send_command_keeps_table_wf env cmd cb args timeout_ms Hbits).
    apply surjective_pairing.
  - eapply (send_command_blocking_keeps_table_wf env cmd timeout_ms
              sleep_interval Hbits Hpolite).
    apply surjective_pairing.
  - by apply run_completion_keeps_table_wf.
Qed.

(** X5. The command table stays well formed in every world the program
    can reach from an empty table by calls of [send_command] and
    [send_command_blocking] and by command callbacks of the library, as long
    as the handlers of the caller leave it well formed: every entry is
    stored under the key its record carries in [m_Callback], the key lies
    in the key space of the platform, [m_Context] names the table, and no
    two entries carry the same key. *)
Theorem reachable_table_wf env w :
  0 ≤ pointer_size_bits env →
  polite env →
  reachable env w →
  table_wf env (_command_table w) ∧ handles_distinct (_command_table w).
Proof.
  intros Hbits Hpolite (w0 & Hempty & Hrun).
  assert (Hwf : table_wf env (_command_table w)).
  { assert (Hstart : table_wf env (_command_table w0)).
    { rewrite Hempty. intros k e Hlook. by rewrite lookup_empty in Hlook. }
    clear Hempty. induction Hrun as [w0 | w0 w1 w2 Hstep Hrun IH]; [done |].
    apply IH. by apply (step_keeps_table_wf env w0 w1). }
  split; [done |]. by apply handle_is_key_distinct, (table_wf_handle_is_key env).
Qed.

Lemma reachable_table_wf_witness :
  let w1 := snd (IX3TPC.send_command responsive "DSH 0" None [] 10000 empty_world) in
  let w2 :=
    snd (IX3TPC.send_command responsive "DIL1 10" (Some (function "notify"))
           [PyInt 7] 10000 w1) in
  let w3 :=
    snd (IX3TPC.send_command_blocking responsive "DSH?" 10000
           IX3TPC.default_sleep_interval w2) in
  size (_command_table w3) = 2%nat
  ∧ table_wf responsive (_command_table w3)
  ∧ handles_distinct (_command_table w3).
Proof.
  intros w1 w2 w3. split; [vm_compute; reflexivity |].
  refine (reachable_table_wf responsive w3 _ _ _).
  - vm_compute. discriminate.
  - intros history name st response args t Hwf. exact Hwf.
  - exists empty_world. split; [reflexivity |].
    eapply rtc_l; [apply step_send_command |].
    eapply rtc_l; [apply step_send_command |].
    eapply rtc_l; [apply step_send_command_blocking | apply rtc_refl].
Defined.

(** ** A blocking send that is answered *)

Lemma resolved_not_WAIT pContext :
  CommandStatus_eqb (resolved pContext) WAIT = false.
Proof. unfold resolved. by destruct (c_void_p_value pContext). Qed.

(** The sleep during which the answer to a blocking send arrives. *)
Lemma time_sleep_answered env secs w frame key record c text :
  _command_table w !! key
  = Some (new_entry record (Some (closure__callback frame)) []) →
  sleep_check secs = Ok tt →
  completions env (trace w ++ [EvSleep secs])%list = [c] →
  key_of (pv c) = key →
  names_command_table env (pv c) →
  response_text (pv c) = Ok text →
  time_sleep env secs w
  = (Ok tt, answered_world frame key (resolved (pContext c)) text secs w).
Proof.
  intros Hentry Hcheck Hcompletions Hkey Hcontext Hresponse.
  unfold time_sleep, bind, lift, emit, modify. rewrite Hcheck.
  cbn -[run_completion]. rewrite Hcompletions. cbn -[run_completion].
  unfold run_completion.
  rewrite (callback_command_eq env _ _ _ (pv c) (pContext c) _ _
             (new_entry record (Some (closure__callback frame)) []) text);
    [| by rewrite Hkey | done | done].
  rewrite Hkey. cbn. rewrite lookup_insert_eq.
  unfold answered_world. cbn.
  by rewrite <- app_assoc, !delete_insert_eq.
Qed.

Lemma poll_answered env secs n w frame key record c text :
  frames w !! frame = Some (WAIT, "") →
  _command_table w !! key
  = Some (new_entry record (Some (closure__callback frame)) []) →
  sleep_check secs = Ok tt →
  completions env (trace w ++ [EvSleep secs])%list = [c] →
  key_of (pv c) = key →
  names_command_table env (pv c) →
  response_text (pv c) = Ok text →
  IX3TPC.poll env frame secs (S n) w
  = (Ok tt, answered_world frame key (resolved (pContext c)) text secs w).
Proof.
  intros Hcell Hentry Hcheck Hcompletions Hkey Hcontext Hresponse.
  assert (Hlen : (frame < length (frames w))%nat) by by eapply lookup_lt_Some.
  cbn [IX3TPC.poll]. unfold bind at 1. unfold gets at 1. rewrite Hcell.
  cbn -[time_sleep IX3TPC.poll]. unfold bind.
  rewrite (time_sleep_answered env secs w frame key record c text) by done.
  destruct n as [| n]; [done |].
  cbn [IX3TPC.poll]. unfold bind, gets.
  cbn [answered_world frames set_command_table set_frames set_trace].
  rewrite list_lookup_insert_eq by done.
  cbn -[time_sleep IX3TPC.poll resolved]. by rewrite resolved_not_WAIT.
Qed.

(** The world after the submission of a blocking send. *)
Lemma blocking_submitted_eq env cmd timeout_ms w :
  payload_size cmd ≤ _MAX_COMMAND_SIZE →
  let frame := length (frames w) in
  let key := IX3TPC.find_key env (_command_table w) in
  let record :=
    new_MDK_MSL_CMD (pointer_size_bits env) (payload_size cmd)
      (command_bytes cmd) key (id_command_table env) timeout_ms 1 in
  let w1 := blocking_submitted env cmd timeout_ms w in
  IX3TPC.send_command env cmd (Some (closure__callback frame)) [] timeout_ms
    (set_frames (frames w ++ [(WAIT, "")])%list w) = (Ok tt, w1)
  ∧ _command_table w1
    = <[key := new_entry record (Some (closure__callback frame)) []]>
        (_command_table w)
  ∧ frames w1 = (frames w ++ [(WAIT, "")])%list
  ∧ _pm_if_data_addr w1 = _pm_if_data_addr w
  ∧ _shutting_down w1 = _shutting_down w
  ∧ _devices w1 = _devices w
  ∧ (MSL_PM_SendCommand env (trace w) (_pm_if_data_addr w) record = true →
     trace w1 = (trace w ++ [EvSendCommand (_pm_if_data_addr w) record])%list).
Proof.
  intros Hfits frame key record w1. subst w1. unfold blocking_submitted.
  fold frame. rewrite send_command_eq. cbn zeta.
  cbn [_command_table set_frames trace _pm_if_data_addr].
  fold key. rewrite (command_record_fits _ _ _ _ Hfits). fold record.
  destruct (MSL_PM_SendCommand _ _ _ _); cbn; repeat split; done.
Qed.

(** A blocking send whose answer arrives during its first sleep. *)
Lemma send_command_blocking_answered_run
    env cmd timeout_ms sleep_interval stop w c text :
  Z.of_nat (size (_command_table w)) < 2 ^ pointer_size_bits env →
  payload_size cmd ≤ _MAX_COMMAND_SIZE →
  IX3TPC.range_stop timeout_ms sleep_interval = Ok stop →
  0 < stop →
  sleep_check sleep_interval = Ok tt →
  completions env
    (trace (blocking_submitted env cmd timeout_ms w) ++ [EvSleep sleep_interval])%list
  = [c] →
  key_of (pv c) = IX3TPC.find_key env (_command_table w) →
  names_command_table env (pv c) →
  response_text (pv c) = Ok text →
  let w' :=
    answered_world (length (frames w))
      (IX3TPC.find_key env (_command_table w)) (resolved (pContext c)) text
      sleep_interval (blocking_submitted env cmd timeout_ms w) in
  IX3TPC.send_command_blocking env cmd timeout_ms sleep_interval w
  = (Ok (resolved (pContext c), text), w')
  ∧ _command_table w' = _command_table w
  ∧ frames w' = (frames w ++ [(resolved (pContext c), text)])%list.
Proof.
  intros Hsize Hfits Hstop Hpositive Hcheck Hcompletions Hkey Hcontext Hresponse.
  destruct (find_key_free env _ Hsize) as (_ & Hfree & _).
  destruct (blocking_submitted_eq env cmd timeout_ms w Hfits)
    as (Hsend & Htable & Hframes & _).
  set (w1 := blocking_submitted env cmd timeout_ms w) in *.
  set (key := IX3TPC.find_key env (_command_table w)) in *.
  set (frame := length (frames w)) in *.
  assert (Hcell : frames w1 !! frame = Some (WAIT, "")).
  { rewrite Hframes. by rewrite lookup_app_r, Nat.sub_diag. }
  intros w'.
  assert (Hrun : IX3TPC.send_command_blocking env cmd timeout_ms sleep_interval w
                 = (Ok (default (WAIT, "") (frames w' !! frame)), w')).
  { rewrite (send_command_blocking_eq _ _ _ _ _ _ Hsend), Hstop.
    destruct (Z.to_nat stop) as [| n] eqn:Hn; [lia |]. fold frame.
    rewrite (poll_answered env sleep_interval n w1 frame key
               (new_MDK_MSL_CMD (pointer_size_bits env) (payload_size cmd)
                  (command_bytes cmd) key (id_command_table env) timeout_ms 1)
               c text);
      [done | done | by rewrite Htable, lookup_insert_eq | done..]. }
  assert (Hframes' : frames w'
                     = (frames w ++ [(resolved (pContext c), text)])%list).
  { subst w'. cbn [answered_world frames set_command_table set_frames].
    rewrite Hframes. subst frame.
    rewrite insert_app_r_alt, Nat.sub_diag by done. done. }
  split; [| split; [| done]].
  - rewrite Hrun, Hframes'. subst frame.
    by rewrite lookup_app_r, Nat.sub_diag.
  - subst w'. cbn [answered_world _command_table set_command_table].
    by rewrite Htable, delete_insert_eq, delete_id.
Qed.

(** X4. [send_command_blocking] with [_callback_command]: when the answer
    to the command arrives during the first sleep, the call returns the
    status the callback resolved it to, never [WAIT], with the text of the
    answer, after exactly one submission and one sleep, and the command
    table is as it was before the call: the entry of the command is
    retired. *)
Theorem send_command_blocking_answered
    env cmd timeout_ms sleep_interval stop w c text :
  Z.of_nat (size (_command_table w)) < 2 ^ pointer_size_bits env →
  payload_size cmd ≤ _MAX_COMMAND_SIZE →
  IX3TPC.range_stop timeout_ms sleep_interval = Ok stop →
  0 < stop →
  sleep_check sleep_interval = Ok tt →
  completions env
    (trace (blocking_submitted env cmd timeout_ms w) ++ [EvSleep sleep_interval])%list
  = [c] →
  key_of (pv c) = IX3TPC.find_key env (_command_table w) →
  names_command_table env (pv c) →
  response_text (pv c) = Ok text →
  ∃ w',
    IX3TPC.send_command_blocking env cmd timeout_ms sleep_interval w
    = (Ok (resolved (pContext c), text), w')
    ∧ resolved (pContext c) ≠ WAIT
    ∧ _command_table w' = _command_table w
    ∧ sleeps (trace w') = S (sleeps (trace w))
    ∧ submissions (trace w') = S (submissions (trace w)).
Proof.
  intros Hsize Hfits Hstop Hpositive Hcheck Hcompletions Hkey Hcontext Hresponse.
  destruct (send_command_blocking_answered_run env cmd timeout_ms sleep_interval
              stop w c text) as (Hrun & Htable & _); try done.
  destruct (blocking_submitted_eq env cmd timeout_ms w Hfits) as (Hsend & _).
  destruct (send_command_counts _ _ _ _ _ _ _ Hsend) as [Hsleeps Hsubs].
  cbn -[sleeps submissions] in Hsleeps, Hsubs.
  eexists. split; [exact Hrun |].
  split; [unfold resolved; by destruct (c_void_p_value _) |].
  split; [exact Htable |].
  cbn -[sleeps submissions].
  rewrite sleeps_app, submissions_app, !sleeps_cons, !submissions_cons.
  cbn -[sleeps submissions].
  change (sleeps []) with 0%nat. change (submissions []) with 0%nat. lia.
Qed.

Lemma send_command_blocking_answered_witness :
  ∃ w',
    IX3TPC.send_command_blocking responsive "DSH 0" 10000
      IX3TPC.default_sleep_interval busy_world
    = (Ok (resolved 4096, "DSH +"), w')
    ∧ resolved 4096 ≠ WAIT
    ∧ _command_table w' = _command_table busy_world
    ∧ sleeps (trace w') = S (sleeps (trace busy_world))
    ∧ submissions (trace w') = S (submissions (trace busy_world)).
Proof.
  refine (send_command_blocking_answered responsive "DSH 0" 10000
            IX3TPC.default_sleep_interval 51 busy_world
            {| MsgId := 0; wParam := 0; lParam := 0;
               pv := answered "DSH +"
                       (new_MDK_MSL_CMD 64 7 (command_bytes "DSH 0") 2
                          (id_command_table responsive) 10000 1);
               pContext := 4096; pCaller := 0 |}
            "DSH +" _ _ _ _ _ _ _ _ _).
  - vm_compute. reflexivity.
  - vm_compute. discriminate.
  - vm_compute. reflexivity.
  - reflexivity.
  - vm_compute. reflexivity.
  - vm_compute. reflexivity.
  - vm_compute. reflexivity.
  - vm_compute. reflexivity.
  - vm_compute. reflexivity.
Defined.

(** ** Texts and bytes *)

Lemma chr_ord c : chr (ord c) = Ok c.
Proof.
  unfold chr, ord.
  pose proof (N_ascii_bounded c) as Hc.
  destruct (Z.leb_spec 0 (Z.of_N (N_of_ascii c))); [| lia].
  destruct (Z.ltb_spec (Z.of_N (N_of_ascii c)) 256); [| lia].
  cbn. by rewrite N2Z.id, ascii_N_embedding.
Qed.

Lemma list_chr_ord cs : list_chr (map ord cs) = Ok cs.
Proof.
  induction cs as [| c cs IH]; [done |].
  cbn [map list_chr]. by rewrite chr_ord, IH.
Qed.

Lemma c_byte_ascii c : ord c < 128 → c_byte (ord c) = ord c.
Proof.
  intros Hc. unfold c_byte, ord in *.
  pose proof (N_ascii_bounded c). rewrite Z.mod_small; lia.
Qed.

(** What the library writes as an answer decodes to the answer. *)
Lemma response_text_answered text r : response_text (answered text r) = Ok text.
Proof.
  unfold answered. rewrite response_text_with_response, Nat2Z.id.
  rewrite take_app_length, list_chr_ord.
  by rewrite string_of_list_ascii_of_string.
Qed.

(** The record of an ASCII command holds the command. *)
Lemma command_body_record env cmd key timeout_ms :
  ascii_text cmd →
  payload_size cmd ≤ _MAX_COMMAND_SIZE →
  command_body
    (new_MDK_MSL_CMD (pointer_size_bits env) (payload_size cmd)
       (command_bytes cmd) key (id_command_table env) timeout_ms 1)
  = cmd.
Proof.
  intros Hascii Hfits. unfold command_body. cbn [m_CmdSize m_Cmd new_MDK_MSL_CMD].
  assert (Hpayload : payload_size cmd = Z.of_nat (String.length cmd) + 2) by done.
  unfold c_ulong. rewrite Z.mod_small
    by (unfold _MAX_COMMAND_SIZE in *; lia).
  replace (Z.to_nat (payload_size cmd) - 2)%nat with (String.length cmd) by lia.
  unfold command_bytes. cbn zeta.
  rewrite list_ascii_of_string_app, !map_app, <- (app_assoc _ _ (replicate _ _)).
  rewrite take_app_length'
    by (by rewrite !length_map, length_list_ascii_of_string).
  assert (Hbytes : map c_byte (map ord (list_ascii_of_string cmd))
                   = map ord (list_ascii_of_string cmd)).
  { unfold ascii_text in Hascii.
    induction Hascii as [| c cs Hc _ IH]; [done |].
    cbn [map]. by rewrite c_byte_ascii, IH. }
  rewrite Hbytes, list_chr_ord. apply string_of_list_ascii_of_string.
Qed.

(** ** Starting the controller *)

Lemma submitted_commands_app h1 h2 :
  submitted_commands (h1 ++ h2)
  = (submitted_commands h1 ++ submitted_commands h2)%list.
Proof. unfold submitted_commands. apply omap_app. Qed.

Lemma range_stop_default :
  IX3TPC.range_stop IX3TPC.default_timeout_ms IX3TPC.default_sleep_interval
  = Ok 51.
Proof. vm_compute. reflexivity. Qed.

Lemma sleep_check_default : sleep_check IX3TPC.default_sleep_interval = Ok tt.
Proof. vm_compute. reflexivity. Qed.

Lemma find_key_empty env :
  0 ≤ pointer_size_bits env → IX3TPC.find_key env ∅ = 0.
Proof.
  intros Hbits. pose proof (Z.pow_pos_nonneg 2 (pointer_size_bits env)).
  unfold IX3TPC.find_key. rewrite map_size_empty. cbn.
  destruct (Z.leb_spec (2 ^ pointer_size_bits env) 0); [lia | done].
Qed.

(** One command of the start-up, sent to a unit that answers it. *)
Lemma send_command_blocking_acknowledged env reply cmd text w :
  works env → answers env reply → platform_ok env →
  _command_table w = ∅ →
  ascii_text cmd →
  payload_size cmd ≤ _MAX_COMMAND_SIZE →
  reply cmd = Some text →
  ∃ w',
    IX3TPC.send_command_blocking env cmd
      IX3TPC.default_timeout_ms IX3TPC.default_sleep_interval w
    = (Ok (SUCCESS, text), w')
    ∧ acknowledged cmd w w'.
Proof.
  intros (_ & _ & _ & _ & Haccepts & _) Hanswers [Hbits Haddress] Hempty Hascii
    Hfits Hreply.
  pose proof (Z.pow_pos_nonneg 2 (pointer_size_bits env)) as Hpow.
  pose proof (find_key_empty env Hbits) as Hkey.
  destruct (blocking_submitted_eq env cmd IX3TPC.default_timeout_ms w Hfits)
    as (Hsend & Htable & Hframes & Haddr & Hdown & Hdevices & Htrace).
  rewrite Hempty, Hkey in Htable, Htrace.
  specialize (Htrace (Haccepts _ _ _)).
  set (record := new_MDK_MSL_CMD (pointer_size_bits env) (payload_size cmd)
                   (command_bytes cmd) 0 (id_command_table env)
                   IX3TPC.default_timeout_ms 1) in *.
  set (c := {| MsgId := 0; wParam := 0; lParam := 0;
               pv := answered text record; pContext := 4096; pCaller := 0 |}).
  destruct (send_command_blocking_answered_run env cmd
              IX3TPC.default_timeout_ms IX3TPC.default_sleep_interval 51 w c text)
    as (Hrun & Htable' & Hframes').
  - rewrite Hempty, map_size_empty. lia.
  - done.
  - apply range_stop_default.
  - done.
  - apply sleep_check_default.
  - rewrite Htrace, <- app_assoc. cbn [app]. rewrite Hanswers.
    unfold answer. subst record.
    rewrite (command_body_record env cmd 0 _ Hascii Hfits), Hreply. done.
  - rewrite Hempty, Hkey. unfold key_of. cbn. unfold c_void_p.
    rewrite Z.mod_0_l by lia. done.
  - unfold names_command_table, c_void_p_value. cbn.
    destruct (Z.eqb_spec (c_void_p (pointer_size_bits env) (id_command_table env)) 0);
      done.
  - apply response_text_answered.
  - eexists. split; [exact Hrun |].
    rewrite Hempty, Hkey in Htable'. rewrite Hempty, Hkey.
    unfold acknowledged.
    cbn [answered_world _command_table _pm_if_data_addr _shutting_down _devices
           trace set_command_table set_frames set_trace].
    rewrite Htrace, !sleeps_app, !submitted_commands_app, !sleeps_cons.
    cbn -[sleeps submitted_commands command_body].
    change (sleeps []) with 0%nat.
    split; [exact Htable' |].
    repeat (split; [done |]).
    split; [| lia].
    rewrite <- app_assoc. f_equal. unfold submitted_commands. cbn.
    subst record. by rewrite (command_body_record env cmd 0 _ Hascii Hfits).
Qed.

Lemma initialise_portmanager_works env w :
  works env →
  IX3TPC._initialise_portmanager env w = (Ok tt, initialised env w).
Proof.
  intros (Hinit & Henum & Hopen & Hregister & _ & Haddress).
  unfold IX3TPC._initialise_portmanager, bind, gets, modify, emit, raise, ret,
    _logger, lift, format_address, c_void_p_value.
  cbn -[format_X]. rewrite Hinit. cbn -[format_X]. rewrite Henum.
  cbn -[format_X]. rewrite Hopen. cbn -[format_X].
  destruct (Z.eqb_spec
              (c_void_p (pointer_size_bits env)
                 (snd (MSL_PM_GetInterfaceInfo env
                         ((trace w ++ [EvInitialize]) ++ [EvEnumInterface]) 0)))
              0) as [Hnull | _]; [by apply Haddress in Hnull |].
  cbn -[format_X]. rewrite Hregister. cbn -[format_X]. unfold initialised.
  cbn -[format_X]. by rewrite <- !app_assoc.
Qed.

Lemma login_eq env :
  IX3TPC._login env
  = for_each (take 4 startup_commands)
      (startup_step env "Error logging in. Command: '").
Proof. reflexivity. Qed.

Lemma configure_eq env :
  IX3TPC._configure env
  = for_each (drop 4 startup_commands)
      (startup_step env "Error configuring. Command: '").
Proof. reflexivity. Qed.

(** A sequence of start-up commands, each answered as expected. *)
Lemma startup_sequence env reply what steps w :
  works env → answers env reply → platform_ok env →
  _command_table w = ∅ →
  Forall (λ step, ascii_text step.1
                  ∧ payload_size step.1 ≤ _MAX_COMMAND_SIZE
                  ∧ reply step.1 = Some step.2) steps →
  ∃ w',
    for_each steps (startup_step env what) w = (Ok tt, w')
    ∧ _command_table w' = ∅
    ∧ _pm_if_data_addr w' = _pm_if_data_addr w
    ∧ _shutting_down w' = _shutting_down w
    ∧ _devices w' = _devices w
    ∧ submitted_commands (trace w')
      = (submitted_commands (trace w) ++ steps.*1)%list
    ∧ sleeps (trace w') = (sleeps (trace w) + length steps)%nat.
Proof.
  intros Hworks Hanswers Hplatform Hempty Hsteps. revert w Hempty.
  induction Hsteps as [| [cmd rsp] steps (Hascii & Hfits & Hreply) _ IH];
    intros w Hempty.
  - exists w. cbn. rewrite app_nil_r, Nat.add_0_r. done.
  - destruct (send_command_blocking_acknowledged env reply cmd rsp w)
      as (w1 & Hrun & Hempty1 & Haddr1 & Hdown1 & Hdevices1 & Hcmds1 & Hsleeps1);
      try done.
    destruct (IH w1 Hempty1)
      as (w2 & Hrest & Hempty2 & Haddr2 & Hdown2 & Hdevices2 & Hcmds2 & Hsleeps2).
    exists w2. split.
    + cbn [for_each]. unfold bind at 1. unfold startup_step at 1.
      unfold bind at 1. rewrite Hrun. cbn [CommandStatus_eqb CommandStatus_value
        Z.eqb negb orb]. rewrite String.eqb_refl. cbn [negb]. unfold ret at 1.
      exact Hrest.
    + split; [done |]. split; [congruence |]. split; [congruence |].
      split; [congruence |]. split.
      * rewrite Hcmds2, Hcmds1, <- app_assoc. done.
      * rewrite Hsleeps2, Hsleeps1. cbn [length]. lia.
Qed.

Lemma startup_commands_ascii :
  Forall (λ step : string * string,
            ascii_text step.1 ∧ payload_size step.1 ≤ _MAX_COMMAND_SIZE)
    startup_commands.
Proof.
  unfold startup_commands, ascii_text.
  repeat (constructor; [split; [repeat (constructor; [done |]); constructor
                               | vm_compute; discriminate] |]).
  constructor.
Qed.

Lemma initialised_counts env w :
  submitted_commands (trace (initialised env w)) = submitted_commands (trace w)
  ∧ sleeps (trace (initialised env w)) = sleeps (trace w)
  ∧ submissions (trace (initialised env w)) = submissions (trace w).
Proof.
  unfold initialised. cbn [trace set_trace set_pm_if_data_addr].
  rewrite submitted_commands_app, sleeps_app, submissions_app.
  rewrite !sleeps_cons, !submissions_cons.
  cbn -[sleeps submissions format_X].
  change (sleeps []) with 0%nat. change (submissions []) with 0%nat.
  rewrite app_nil_r. split; [done |]. lia.
Qed.

(** The constructor with a unit that answers as expected. *)
Lemma init_run env reply w :
  works env → answers env reply → platform_ok env →
  Forall (λ step, reply step.1 = Some step.2) startup_commands →
  ∃ w',
    IX3TPC.__init__ env w = (Ok tt, w')
    ∧ _command_table w' = ∅
    ∧ _devices w' = ["LHLEDC"]
    ∧ _shutting_down w' = false
    ∧ submitted_commands (trace w')
      = (submitted_commands (trace w) ++ startup_commands.*1)%list
    ∧ sleeps (trace w') = (sleeps (trace w) + 5)%nat.
Proof.
  intros Hworks Hanswers Hplatform Hreply.
  assert (Hsteps : Forall (λ step, ascii_text step.1
                                   ∧ payload_size step.1 ≤ _MAX_COMMAND_SIZE
                                   ∧ reply step.1 = Some step.2)
                     startup_commands).
  { pose proof startup_commands_ascii as Hascii.
    apply Forall_forall. intros step Hin.
    rewrite Forall_forall in Hascii, Hreply.
    destruct (Hascii step Hin). auto. }
  set (w1 := set_shutting_down false
               (initialised env
                  (set_command_table ∅
                     (set_pm_if_data_addr 0 (set_devices [] w))))).
  destruct (startup_sequence env reply "Error logging in. Command: '"
              (take 4 startup_commands) w1 Hworks Hanswers Hplatform)
    as (w2 & Hlogin & Hempty2 & _ & Hdown2 & Hdevices2 & Hcmds2 & Hsleeps2);
    [done | by apply Forall_take |].
  destruct (startup_sequence env reply "Error configuring. Command: '"
              (drop 4 startup_commands) w2 Hworks Hanswers Hplatform)
    as (w3 & Hconfigure & Hempty3 & _ & Hdown3 & Hdevices3 & Hcmds3 & Hsleeps3);
    [done | by apply Forall_drop |].
  rewrite <- login_eq in Hlogin. rewrite <- configure_eq in Hconfigure.
  eexists. split.
  - unfold IX3TPC.__init__, bind. unfold modify at 1 2 3.
    rewrite initialise_portmanager_works by done.
    unfold modify at 1. fold w1. rewrite Hlogin, Hconfigure. reflexivity.
  - cbn -[sleeps submitted_commands startup_commands].
    rewrite Hdevices3, Hdevices2, Hdown3, Hdown2, Hcmds3, Hcmds2, Hsleeps3,
      Hsleeps2.
    split; [done |]. split; [done |]. split; [done |]. split.
    + rewrite <- app_assoc, <- fmap_app, take_drop. f_equal.
      subst w1. cbn [trace set_shutting_down].
      by rewrite (proj1 (initialised_counts env _)).
    + subst w1. cbn [trace set_shutting_down].
      rewrite (proj1 (proj2 (initialised_counts env _))).
      change (length (take 4 startup_commands)) with 4%nat.
      change (length (drop 4 startup_commands)) with 1%nat.
      cbn [trace set_command_table set_pm_if_data_addr set_devices]. lia.
Qed.

(** X7. [IX3TPC.__init__] with a library that works, the address of its
    interface not being NULL, and a unit that answers each start-up command
    as expected: the constructor returns, the command table is empty, the
    light source is the one device, the shutdown flag is down, and the
    commands submitted are the login and the four configuration commands,
    in this order, each after one sleep. *)
Theorem init_succeeds env reply w :
  works env → answers env reply → platform_ok env →
  Forall (λ step, reply step.1 = Some step.2) startup_commands →
  ∃ w',
    IX3TPC.__init__ env w = (Ok tt, w')
    ∧ _command_table w' = ∅
    ∧ _devices w' = ["LHLEDC"]
    ∧ _shutting_down w' = false
    ∧ submitted_commands (trace w')
      = (submitted_commands (trace w) ++ startup_commands.*1)%list
    ∧ sleeps (trace w') = (sleeps (trace w) + 5)%nat.
Proof. exact (init_run env reply w). Qed.

Lemma responsive_works : works responsive.
Proof. by repeat split. Qed.

Lemma responsive_answers : answers responsive acknowledge.
Proof.
  intros history addr record secs. unfold responsive, simulated, completions.
  by rewrite reverse_app.
Qed.

Lemma responsive_platform_ok : platform_ok responsive.
Proof. split; vm_compute; discriminate. Qed.

Lemma init_succeeds_witness :
  ∃ w',
    IX3TPC.__init__ responsive empty_world = (Ok tt, w')
    ∧ _command_table w' = ∅
    ∧ _devices w' = ["LHLEDC"]
    ∧ _shutting_down w' = false
    ∧ submitted_commands (trace w')
      = (submitted_commands (trace empty_world) ++ startup_commands.*1)%list
    ∧ sleeps (trace w') = (sleeps (trace empty_world) + 5)%nat.
Proof.
  refine (init_succeeds responsive acknowledge empty_world
            responsive_works responsive_answers responsive_platform_ok _).
  repeat (constructor; [reflexivity |]). constructor.
Defined.

Lemma submitted_commands_sleeps n secs :
  submitted_commands (replicate n (EvSleep secs)) = [].
Proof. induction n as [| n IH]; [done | exact IH]. Qed.

(** A blocking send that is never answered, with the world it ends in. *)
Lemma send_command_blocking_unanswered_run
    env cmd timeout_ms sleep_interval stop w :
  (∀ history, completions env history = []) →
  payload_size cmd ≤ _MAX_COMMAND_SIZE →
  IX3TPC.range_stop timeout_ms sleep_interval = Ok stop →
  (0 < stop → sleep_check sleep_interval = Ok tt) →
  let w1 := blocking_submitted env cmd timeout_ms w in
  IX3TPC.send_command_blocking env cmd timeout_ms sleep_interval w
  = (Ok (WAIT, ""),
     set_trace
       (trace w1 ++ replicate (Z.to_nat stop) (EvSleep sleep_interval))%list w1).
Proof.
  intros Hquiet Hfits Hstop Hcheck w1.
  destruct (blocking_submitted_eq env cmd timeout_ms w Hfits)
    as (Hsend & _ & Hframes & _).
  fold w1 in Hsend, Hframes.
  assert (Hcell : frames w1 !! length (frames w) = Some (WAIT, "")).
  { rewrite Hframes. by rewrite lookup_app_r, Nat.sub_diag. }
  rewrite (send_command_blocking_eq _ _ _ _ _ _ Hsend), Hstop.
  rewrite (poll_unanswered env _ sleep_interval (Z.to_nat stop) w1 Hquiet);
    [| intros Hn; apply Hcheck; lia | by rewrite Hcell].
  cbn [frames set_trace]. by rewrite Hcell.
Qed.

(** X6. [IX3TPC.__init__] with a library that works, the address of its
    interface not being NULL, and a unit that never answers: the login
    command is polled for the whole default timeout, 51 sleeps, and the
    constructor raises [InitialiseError] with the status [WAIT]; nothing
    else is submitted, no device is added, and the entry of the login
    command stays in the table under key 0, still waiting. *)
Theorem init_with_silent_unit env w :
  works env →
  (∀ history, completions env history = []) →
  platform_ok env →
  ∃ entry w',
    IX3TPC.__init__ env w
    = (Raise (InitialiseError
                "Error logging in. Command: 'L 1,0'. Status: 'WAIT'. Response: ''."),
       w')
    ∧ _command_table w' = {[ 0 := entry ]}
    ∧ status entry = WAIT
    ∧ _devices w' = []
    ∧ submitted_commands (trace w')
      = (submitted_commands (trace w) ++ ["L 1,0"])%list
    ∧ sleeps (trace w') = (sleeps (trace w) + 51)%nat.
Proof.
  intros Hworks Hquiet [Hbits Haddress].
  set (w1 := set_shutting_down false
               (initialised env
                  (set_command_table ∅
                     (set_pm_if_data_addr 0 (set_devices [] w))))).
  assert (Hfits : payload_size "L 1,0" ≤ _MAX_COMMAND_SIZE)
    by (vm_compute; discriminate).
  pose proof (send_command_blocking_unanswered_run env "L 1,0"
                IX3TPC.default_timeout_ms IX3TPC.default_sleep_interval 51 w1
                Hquiet Hfits range_stop_default (λ _, sleep_check_default))
    as Hrun.
  cbn zeta in Hrun.
  destruct (blocking_submitted_eq env "L 1,0" IX3TPC.default_timeout_ms w1 Hfits)
    as (_ & Htable & _ & _ & _ & Hdevices & Htrace).
  destruct Hworks as (Hinit & Henum & Hopen & Hregister & Haccepts & Haddr).
  specialize (Htrace (Haccepts _ _ _)).
  change (_command_table w1) with (∅ : gmap Z _CommandTableEntry) in Htable, Htrace.
  rewrite (find_key_empty env Hbits) in Htable, Htrace.
  eexists _, _. split.
  - unfold IX3TPC.__init__, bind. unfold modify at 1 2 3.
    rewrite initialise_portmanager_works by done.
    unfold modify at 1. fold w1. rewrite login_eq.
    cbn [take startup_commands for_each]. unfold bind at 1.
    unfold startup_step at 1. unfold bind at 1. rewrite Hrun.
    cbn -[blocking_submitted]. unfold raise. reflexivity.
  - cbn [_command_table _devices trace set_trace].
    split; [exact Htable |]. split; [done |].
    split; [by rewrite Hdevices |].
    rewrite Htrace, !submitted_commands_app, !sleeps_app, sleeps_replicate.
    subst w1. cbn [trace set_shutting_down].
    destruct (initialised_counts env
                (set_command_table ∅ (set_pm_if_data_addr 0 (set_devices [] w))))
      as (-> & -> & _).
    rewrite sleeps_cons, submitted_commands_sleeps, app_nil_r.
    cbn [is_sleep trace set_command_table set_pm_if_data_addr set_devices].
    change (sleeps []) with 0%nat. change (Z.to_nat 51) with 51%nat.
    split; [| lia].
    change (submitted_commands [EvSendCommand ?a ?r])
      with [command_body r].
    rewrite (command_body_record env "L 1,0" 0 _); [done | | done].
    unfold ascii_text. repeat (constructor; [done |]). constructor.
Qed.

Lemma init_with_silent_unit_witness :
  ∃ entry w',
    IX3TPC.__init__ platform64 empty_world
    = (Raise (InitialiseError
                "Error logging in. Command: 'L 1,0'. Status: 'WAIT'. Response: ''."),
       w')
    ∧ _command_table w' = {[ 0 := entry ]}
    ∧ status entry = WAIT
    ∧ _devices w' = []
    ∧ submitted_commands (trace w')
      = (submitted_commands (trace empty_world) ++ ["L 1,0"])%list
    ∧ sleeps (trace w') = (sleeps (trace empty_world) + 51)%nat.
Proof.
  refine (init_with_silent_unit platform64 empty_world _ platform64_quiet _).
  - by repeat split.
  - split; vm_compute; discriminate.
Defined.

(** ** Shutting down *)

Lemma do_shutdown_eq env super_do_shutdown w :
  IX3TPC._do_shutdown env super_do_shutdown w
  = match super_do_shutdown (set_shutting_down true w) with
    | (Raise e, w1) => (Raise e, w1)
    | (Ok _, w1) =>
        match IX3TPC.send_command env "L 0,0" None [] 0 w1 with
        | (Raise e, w2) => (Raise e, w2)
        | (Ok _, w2) =>
            (Ok tt,
             set_trace
               (trace w2 ++ [EvCloseInterface (_pm_if_data_addr w2)])%list w2)
        end
    end.
Proof.
  unfold IX3TPC._do_shutdown, bind, modify, gets, emit.
  destruct (super_do_shutdown (set_shutting_down true w)) as [[[] | e] w1];
    [| done].
  by destruct (IX3TPC.send_command env "L 0,0" None [] 0 w1) as [[[] | e] w2].
Qed.

(** X8. [IX3TPC._do_shutdown] raises the shutdown flag and then runs the
    shutdown of the base class, which so starts with the flag up.  An
    exception of that shutdown leaves the method before anything is sent.
    Otherwise the method returns whether or not the library accepts the
    submission.  All it adds to the trace is the submission of the logout
    [L 0,0], in a record with a timeout of 0, an error line in the log when
    the library refuses it, and the closing of the interface, in this
    order: it never sleeps for the answer.  The entry of the logout, without
    a handler, is in the table under the smallest free key, and the flag
    and the address are as the base class left them. *)
Theorem do_shutdown_fire_and_forget env super_do_shutdown w :
  match super_do_shutdown (set_shutting_down true w) with
  | (Raise e, w1) =>
      IX3TPC._do_shutdown env super_do_shutdown w = (Raise e, w1)
  | (Ok _, w1) =>
      let key := IX3TPC.find_key env (_command_table w1) in
      let addr := _pm_if_data_addr w1 in
      ∃ record w',
        IX3TPC._do_shutdown env super_do_shutdown w = (Ok tt, w')
        ∧ IX3TPC.command_record env key "L 0,0" 0 = Ok record
        ∧ command_body record = "L 0,0"
        ∧ m_Timeout record = 0
        ∧ trace w'
          = (trace w1
             ++ EvSendCommand addr record
                :: (if MSL_PM_SendCommand env (trace w1) addr record
                    then []
                    else [EvLog ERROR
                            "MSL_PM_SendCommand() failed for command 'L 0,0'."])
             ++ [EvCloseInterface addr])%list
        ∧ _command_table w' = <[key := new_entry record None []]> (_command_table w1)
        ∧ _shutting_down w' = _shutting_down w1
        ∧ _pm_if_data_addr w' = addr
        ∧ sleeps (trace w') = sleeps (trace w1)
        ∧ submissions (trace w') = S (submissions (trace w1))
  end.
Proof.
  rewrite do_shutdown_eq.
  destruct (super_do_shutdown (set_shutting_down true w)) as [[[] | e] w1];
    [| done].
  cbn zeta.
  assert (Hfits : payload_size "L 0,0" ≤ _MAX_COMMAND_SIZE)
    by (vm_compute; discriminate).
  pose proof (command_record_fits env (IX3TPC.find_key env (_command_table w1))
                "L 0,0" 0 Hfits) as Hrecord.
  pose proof (command_body_record env "L 0,0"
                (IX3TPC.find_key env (_command_table w1)) 0) as Hbody.
  rewrite send_command_eq. cbn zeta. rewrite Hrecord.
  set (record := new_MDK_MSL_CMD _ _ _ _ _ _ _) in *.
  exists record.
  destruct (MSL_PM_SendCommand _ _ _ _); eexists; (split; [reflexivity |]);
    (split; [done |]);
    (split;
       [apply Hbody;
        [unfold ascii_text; repeat (constructor; [done |]); constructor | done] |]);
    (split; [done |]);
    cbn -[sleeps submissions];
    rewrite <- ?app_assoc; (split; [done |]);
    (split; [done |]); (split; [done |]); (split; [done |]);
    rewrite ?sleeps_app, ?submissions_app, ?sleeps_cons, ?submissions_cons;
    cbn -[sleeps submissions];
    rewrite ?sleeps_cons, ?submissions_cons; cbn -[sleeps submissions];
    change (sleeps []) with 0%nat; change (submissions []) with 0%nat;
    split; lia.
Qed.

(** ** The light source, continued *)

(** X9. [_IX3LHLEDC._do_disable]: while the controller shuts down it
    does nothing at all.  Otherwise it returns exactly when the blocking
    send of [DSH 1] gives [SUCCESS] and [DSH +]; any other outcome is a
    [ValueError], and an exception of the send is passed on. *)
Theorem do_disable_cases env w :
  (_shutting_down w = true → _IX3LHLEDC._do_disable env w = (Ok tt, w))
  ∧ (_shutting_down w = false →
     let blocking :=
       IX3TPC.send_command_blocking env "DSH 1"
         IX3TPC.default_timeout_ms IX3TPC.default_sleep_interval w in
     (∀ w', _IX3LHLEDC._do_disable env w = (Ok tt, w')
            ↔ blocking = (Ok (SUCCESS, "DSH +"), w'))
     ∧ (∀ st response w',
          blocking = (Ok (st, response), w') →
          (st, response) ≠ (SUCCESS, "DSH +") →
          ∃ msg, _IX3LHLEDC._do_disable env w = (Raise (ValueError msg), w'))
     ∧ (∀ e w', blocking = (Raise e, w') →
                _IX3LHLEDC._do_disable env w = (Raise e, w'))).
Proof.
  unfold _IX3LHLEDC._do_disable, bind, gets.
  split; intros Hflag; rewrite Hflag; [done |].
  cbn [negb].
  set (blocking := IX3TPC.send_command_blocking env "DSH 1" _ _ w).
  destruct blocking as [[[st response] | e] w1].
  - cbn beta iota.
    destruct (CommandStatus_eqb st SUCCESS) eqn:Hst.
    + apply CommandStatus_eqb_eq in Hst as ->.
      destruct (String.eqb_spec response "DSH +") as [-> | Hresponse]; cbn;
        unfold ret, raise.
      * split; [intros w'; split; intros [= <-]; done |].
        split; [| discriminate].
        by intros st' response' w' [= <- <- <-] Hne.
      * split; [intros w'; split; [discriminate | intros [= ? _]; done] |].
        split; [| discriminate].
        intros st' response' w' [= <- <- <-] _. by eexists.
    + assert (st ≠ SUCCESS) by (intros ->; discriminate). cbn.
      unfold raise.
      split; [intros w'; split; [discriminate | intros [= ? _ _]; done] |].
      split; [| discriminate].
      intros st' response' w' [= <- <- <-] _. by eexists.
  - split; [intros w'; split; discriminate |].
    split; [discriminate |]. by intros e' w' [= <- <-].
Qed.

(** The shutdown of a controller whose device shutdown disables the light
    source: the flag is up by then, so the only submission is the logout,
    and the flag is up at the end. *)
Lemma do_shutdown_with_device :
  ∃ w',
    IX3TPC._do_shutdown responsive (_IX3LHLEDC._do_disable responsive)
      busy_world = (Ok tt, w')
    ∧ _shutting_down w' = true
    ∧ submitted_commands (trace w') = ["L 0,0"]
    ∧ last (trace w') = Some (EvCloseInterface 0).
Proof.
  destruct (do_shutdown_fire_and_forget responsive
              (_IX3LHLEDC._do_disable responsive) busy_world)
    as (record & w' & Hrun & _ & Hbody & _ & Htrace & _ & Hflag & _).
  exists w'. split; [exact Hrun |]. split; [exact Hflag |].
  rewrite Htrace. split; [| reflexivity].
  cbn -[command_body]. by rewrite Hbody.
Defined.

Lemma split_go_blank s :
  Forall (λ c, is_space c = true) (list_ascii_of_string s) →
  split_go s "" = [].
Proof.
  induction s as [| c s IH]; [done |].
  cbn [list_ascii_of_string]. intros Hblank.
  apply Forall_cons in Hblank as [Hc Hs].
  cbn [split_go]. rewrite Hc. cbn. by apply IH.
Qed.

Lemma unit_fractions n :
  0 ≤ n ≤ 255 → is_unit_fraction n = true.
Proof.
  intros Hn.
  assert (Hall : forallb is_unit_fraction (seqZ 0 256) = true)
    by (vm_compute; reflexivity).
  rewrite forallb_forall in Hall. apply Hall.
  apply list_elem_of_In, elem_of_seqZ. lia.
Qed.

Lemma do_get_power_eq env w :
  _IX3LHLEDC._do_get_power env w
  = match IX3TPC.send_command_blocking env "DSH?"
            IX3TPC.default_timeout_ms IX3TPC.default_sleep_interval w with
    | (Raise e, w1) => (Raise e, w1)
    | (Ok (st, response), w1) =>
        let power_int :=
          if String.eqb response "" then Ok (-1)
          else match _IX3LHLEDC.last_item (str_split response) with
               | Raise e => Raise e
               | Ok word => int_of_str word
               end in
        match power_int with
        | Raise e => (Raise e, w1)
        | Ok n =>
            if negb (CommandStatus_eqb st SUCCESS)
               || negb ((0 <=? n) && (n <=? 255))
            then (Raise (ValueError
                           ("Unexpected response for command 'DSH?'. Status: "
                            ++ CommandStatus_name st ++ ". Response: "
                            ++ response)), w1)
            else (int_truediv n 255, w1)
        end
    end.
Proof.
  unfold _IX3LHLEDC._do_get_power, bind.
  destruct (IX3TPC.send_command_blocking _ _ _ _ _) as [[[st response] | e] w1];
    [| done].
  cbn beta iota zeta.
  destruct (String.eqb response "").
  - cbn [negb]. unfold ret at 1. by destruct (negb _ || _).
  - cbn [negb]. unfold bind, lift.
    destruct (_IX3LHLEDC.last_item _) as [word | e]; [| done].
    destruct (int_of_str word) as [n | e]; [| done].
    by destruct (negb _ || _).
Qed.

(** X10. [_IX3LHLEDC._do_get_power], given the outcome of the blocking
    send of [DSH?]: an empty response is a [ValueError]; a response of
    white space only escapes as [IndexError]; a last word that is not an
    integer escapes with the exception of [int]; an integer [n] with status
    [SUCCESS] and [0 <= n <= 255] gives the float [n / 255], which lies
    between 0 and 1; any other status or integer is a [ValueError]. *)
Theorem do_get_power_cases env w st response w1 :
  IX3TPC.send_command_blocking env "DSH?"
    IX3TPC.default_timeout_ms IX3TPC.default_sleep_interval w
  = (Ok (st, response), w1) →
  (response = "" →
   ∃ msg, _IX3LHLEDC._do_get_power env w = (Raise (ValueError msg), w1))
  ∧ (response ≠ "" →
     Forall (λ c, is_space c = true) (list_ascii_of_string response) →
     _IX3LHLEDC._do_get_power env w
     = (Raise (IndexError "list index out of range"), w1))
  ∧ (∀ word e,
       response ≠ "" → last (str_split response) = Some word →
       int_of_str word = Raise e →
       _IX3LHLEDC._do_get_power env w = (Raise e, w1))
  ∧ (∀ word n,
       response ≠ "" → last (str_split response) = Some word →
       int_of_str word = Ok n →
       (st = SUCCESS → 0 ≤ n ≤ 255 →
        ∃ x, _IX3LHLEDC._do_get_power env w = (Ok x, w1)
             ∧ int_truediv n 255 = Ok x
             ∧ float_le (S754_zero false) x = true
             ∧ float_le x (float_of_ratio 1 1) = true)
       ∧ (st ≠ SUCCESS ∨ n < 0 ∨ 255 < n →
          ∃ msg, _IX3LHLEDC._do_get_power env w = (Raise (ValueError msg), w1))).
Proof.
  intros Hrun. rewrite do_get_power_eq, Hrun. cbn zeta.
  split; [| split; [| split]].
  - intros ->. cbn. destruct (negb _); by eexists.
  - intros Hne Hblank. apply String.eqb_neq in Hne. rewrite Hne.
    unfold str_split. by rewrite split_go_blank.
  - intros word e Hne Hlast Hint. apply String.eqb_neq in Hne. rewrite Hne.
    unfold _IX3LHLEDC.last_item. by rewrite Hlast, Hint.
  - intros word n Hne Hlast Hint. apply String.eqb_neq in Hne. rewrite Hne.
    unfold _IX3LHLEDC.last_item. rewrite Hlast, Hint. split.
    + intros -> Hn. cbn [CommandStatus_eqb CommandStatus_value Z.eqb negb orb].
      destruct (Z.leb_spec 0 n); [| lia].
      destruct (Z.leb_spec n 255); [| lia]. cbn [andb negb].
      pose proof (unit_fractions n Hn) as Hunit. unfold is_unit_fraction in Hunit.
      destruct (int_truediv n 255) as [x | e]; [| discriminate].
      apply andb_true_iff in Hunit as [? ?]. by exists x.
    + intros Hbad.
      assert (Hcond : negb (CommandStatus_eqb st SUCCESS)
                      || negb ((0 <=? n) && (n <=? 255)) = true).
      { destruct Hbad as [Hst | Hn].
        - destruct (CommandStatus_eqb st SUCCESS) eqn:Heq; [| done].
          by apply CommandStatus_eqb_eq in Heq.
        - apply orb_true_iff. right. apply negb_true_iff, andb_false_iff.
          destruct Hn; [left | right]; by apply Z.leb_gt. }
      rewrite Hcond. by eexists.
Qed.

Lemma do_get_power_cases_witness :
  ∃ msg,
    _IX3LHLEDC._do_get_power (simulated 1 true (λ _, Some "")) empty_world
    = (Raise (ValueError msg),
       snd (IX3TPC.send_command_blocking (simulated 1 true (λ _, Some "")) "DSH?"
              IX3TPC.default_timeout_ms IX3TPC.default_sleep_interval
              empty_world)).
Proof.
  refine (proj1 (do_get_power_cases (simulated 1 true (λ _, Some "")) empty_world
                   SUCCESS "" _ _) _); [| reflexivity].
  vm_compute. reflexivity.
Defined.

(** X11. [_IX3LHLEDC._do_set_power]: the level sent is
    [int(power * 255)].  When that conversion raises, as it does for NaN
    and the infinities, the exception leaves the method before anything is
    sent; otherwise the method returns exactly when the blocking send of
    [DIL1 level] gives [SUCCESS] and [DIL1 +], any other outcome is a
    [ValueError], and an exception of the send is passed on. *)
Theorem do_set_power_cases env power w :
  match power_level power with
  | Raise e => _IX3LHLEDC._do_set_power env power w = (Raise e, w)
  | Ok level =>
      let blocking :=
        IX3TPC.send_command_blocking env ("DIL1 " ++ format_d level)
          IX3TPC.default_timeout_ms IX3TPC.default_sleep_interval w in
      (∀ w', _IX3LHLEDC._do_set_power env power w = (Ok tt, w')
             ↔ blocking = (Ok (SUCCESS, "DIL1 +"), w'))
      ∧ (∀ st response w',
           blocking = (Ok (st, response), w') →
           (st, response) ≠ (SUCCESS, "DIL1 +") →
           ∃ msg, _IX3LHLEDC._do_set_power env power w
                  = (Raise (ValueError msg), w'))
      ∧ (∀ e w', blocking = (Raise e, w') →
                 _IX3LHLEDC._do_set_power env power w = (Raise e, w'))
  end
  ∧ (power = S754_nan →
     power_level power = Raise (ValueError "cannot convert float NaN to integer"))
  ∧ (∀ s, power = S754_infinity s →
          power_level power
          = Raise (OverflowError "cannot convert float infinity to integer")).
Proof.
  split; [| split; [by intros -> | by intros [] ->]].
  unfold _IX3LHLEDC._do_set_power, power_level, bind, lift.
  destruct (float_mul_int power 255) as [scaled | e]; [| done].
  destruct (int_of_float scaled) as [level | e]; [| done].
  cbn zeta.
  set (blocking := IX3TPC.send_command_blocking env _ _ _ w).
  destruct blocking as [[[st response] | e] w1].
  - cbn beta iota.
    destruct (CommandStatus_eqb st SUCCESS) eqn:Hst.
    + apply CommandStatus_eqb_eq in Hst as ->.
      destruct (String.eqb_spec response "DIL1 +") as [-> | Hresponse]; cbn;
        unfold ret, raise.
      * split; [intros w'; split; intros [= <-]; done |].
        split; [| discriminate].
        by intros st' response' w' [= <- <- <-] Hne.
      * split; [intros w'; split; [discriminate | intros [= ? _]; done] |].
        split; [| discriminate].
        intros st' response' w' [= <- <- <-] _. by eexists.
    + assert (st ≠ SUCCESS) by (intros ->; discriminate). cbn.
      unfold raise.
      split; [intros w'; split; [discriminate | intros [= ? _ _]; done] |].
      split; [| discriminate].
      intros st' response' w' [= <- <- <-] _. by eexists.
  - split; [intros w'; split; discriminate |].
    split; [discriminate |]. by intros e' w' [= <- <-].
Qed.

(** ** Responses that do not decode *)

Lemma ord_chr b c : chr b = Ok c → ord c = b.
Proof.
  unfold chr, ord.
  destruct (Z.leb_spec 0 b); [| discriminate].
  destruct (Z.ltb_spec b 256); [| discriminate].
  cbn. intros [= <-]. rewrite N_ascii_embedding by lia. lia.
Qed.

Lemma list_chr_ok bs :
  Forall (λ b, 0 ≤ b < 256) bs →
  ∃ cs, list_chr bs = Ok cs ∧ map ord cs = bs.
Proof.
  induction 1 as [| b bs Hb _ (cs & Hcs & Hround)]; [by exists [] |].
  cbn [list_chr]. destruct (chr b) as [c | e] eqn:Hc.
  - rewrite Hcs. exists (c :: cs). split; [done |]. cbn [map].
    by rewrite (ord_chr b c Hc), Hround.
  - unfold chr in Hc.
    destruct (Z.leb_spec 0 b); [| lia].
    destruct (Z.ltb_spec b 256); [| lia]. discriminate.
Qed.

Lemma list_chr_bad bs :
  Exists (λ b, b < 0) bs →
  list_chr bs = Raise (ValueError "chr() arg not in range(0x110000)").
Proof.
  induction bs as [| b bs IH]; intros Hbad; [by apply Exists_nil in Hbad |].
  cbn [list_chr]. unfold chr at 1.
  destruct ((0 <=? b) && (b <? 256)) eqn:Hb; [| done].
  apply Exists_cons in Hbad as [Hneg | Hrest].
  - apply andb_true_iff in Hb as [Hb _]. apply Z.leb_le in Hb. lia.
  - by rewrite (IH Hrest).
Qed.

(** The characters of a decoded list are the bytes it was decoded from. *)
Lemma list_chr_round bs cs : list_chr bs = Ok cs → map ord cs = bs.
Proof.
  revert cs. induction bs as [| b bs IH]; intros cs; cbn [list_chr].
  - by intros [= <-].
  - destruct (chr b) as [c | e] eqn:Hc; [| discriminate].
    destruct (list_chr bs) as [cs' | e]; [| discriminate].
    intros [= <-]. cbn [map]. by rewrite (ord_chr b c Hc), (IH cs').
Qed.

(** C5, as the code has it.  A record whose response size is 7 and whose
    response starts with the bytes of "DSH 0" and two NUL bytes decodes to
    seven characters, those of "DSH 0" followed by two NUL characters: the
    NUL bytes within the declared size are kept.  That is so in general:
    the characters of a decoded text are the bytes within the declared
    size, one character for each byte, and the bytes beyond the declared
    size are ignored: bytes that follow it change nothing, and two records
    that agree on the bytes within it decode alike. *)
Theorem response_text_declared_size :
  (∀ r rest,
     response_text (with_response r 7 ([68; 83; 72; 32; 48; 0; 0] ++ rest)%list)
     = Ok ("DSH 0" ++ String NUL (String NUL "")))
  ∧ (∀ r text,
       response_text r = Ok text →
       map ord (list_ascii_of_string text) = declared_response r)
  ∧ (∀ r size rsp rest,
       0 ≤ size ≤ Z.of_nat (length rsp) →
       response_text (with_response r size (rsp ++ rest)%list)
       = response_text (with_response r size rsp))
  ∧ (∀ r1 r2,
       declared_response r1 = declared_response r2 →
       response_text r1 = response_text r2).
Proof.
  split; [| split; [| split]].
  - intros r rest. by rewrite response_text_with_response.
  - intros r text. unfold response_text, declared_response.
    destruct (list_chr _) as [cs |] eqn:Hcs; [| discriminate].
    intros [= <-]. rewrite list_ascii_of_string_of_list_ascii.
    by apply list_chr_round.
  - intros r size rsp rest Hsize. rewrite !response_text_with_response.
    by rewrite take_app_le by lia.
  - intros r1 r2. unfold response_text, declared_response. by intros ->.
Qed.

Lemma response_text_declared_size_witness :
  let r := data (waiting_entry responsive 0 None []) in
  response_text (with_response r 5 ([68; 83; 72; 32; 48] ++ [0; 0])%list)
  = response_text (with_response r 5 [68; 83; 72; 32; 48]).
Proof.
  intros r.
  refine (proj1 (proj2 (proj2 response_text_declared_size)) r 5 _ _ _).
  cbn. lia.
Defined.

(** X12. Decoding the response in [_callback_command]: when every byte
    within the declared size is in the range of [chr], the text is those
    bytes, one character each.  A negative byte, which is how [c_byte] reads
    0x80 and above, makes [chr] raise [ValueError], and the callback leaves
    with it before it has touched the world: the entry is not resolved, the
    handler not called. *)
Theorem response_text_bytes (r : _MDK_MSL_CMD) :
  (Forall (λ b, 0 ≤ b < 256) (declared_response r) →
   ∃ s, response_text r = Ok s
        ∧ map ord (list_ascii_of_string s) = declared_response r)
  ∧ (Exists (λ b, b < 0) (declared_response r) →
     response_text r = Raise (ValueError "chr() arg not in range(0x110000)")
     ∧ ∀ env MsgId wParam lParam pContext pCaller w,
         _callback_command env MsgId wParam lParam r pContext pCaller w
         = (Raise (ValueError "chr() arg not in range(0x110000)"), w)).
Proof.
  unfold declared_response, response_text. split.
  - intros Hbytes. destruct (list_chr_ok _ Hbytes) as (cs & -> & Hround).
    eexists. split; [reflexivity |].
    by rewrite list_ascii_of_string_of_list_ascii.
  - intros Hbad. pose proof (list_chr_bad _ Hbad) as Hraise.
    split; [by rewrite Hraise |].
    intros env MsgId wParam lParam pContext pCaller w.
    unfold _callback_command, bind, lift, response_text. by rewrite Hraise.
Qed.

Lemma response_text_bytes_witness :
  let r := with_response (data (waiting_entry responsive 0 None [])) 5
             [68; 83; 72; 32; -80] in
  response_text r = Raise (ValueError "chr() arg not in range(0x110000)")
  ∧ ∀ env MsgId wParam lParam pContext pCaller w,
      _callback_command env MsgId wParam lParam r pContext pCaller w
      = (Raise (ValueError "chr() arg not in range(0x110000)"), w).
Proof.
  intros r. refine (proj2 (response_text_bytes r) _).
  vm_compute. do 4 apply Exists_cons_tl. apply Exists_cons_hd. reflexivity.
Defined.

(** ** The light source on concrete inputs *)

Lemma do_disable_cases_witness :
  _IX3LHLEDC._do_disable responsive (set_shutting_down true busy_world)
  = (Ok tt, set_shutting_down true busy_world).
Proof.
  refine (proj1 (do_disable_cases responsive
                   (set_shutting_down true busy_world)) _).
  reflexivity.
Defined.

Lemma do_set_power_cases_witness :
  _IX3LHLEDC._do_set_power responsive S754_nan busy_world
  = (Raise (ValueError "cannot convert float NaN to integer"), busy_world).
Proof.
  exact (proj1 (do_set_power_cases responsive S754_nan busy_world)).
Defined.

(** ** A command and its completion *)

(** The key and the address of the table survive the trip through the
    record, the key 0 as the NULL pointer. *)
Lemma record_names_entry env key cmd_size cmd timeout_ms command text :
  platform_ok env →
  0 ≤ key < 2 ^ pointer_size_bits env →
  let record :=
    answered text
      (new_MDK_MSL_CMD (pointer_size_bits env) cmd_size cmd key
         (id_command_table env) timeout_ms command) in
  key_of record = key ∧ names_command_table env record.
Proof.
  intros [Hbits Haddress] Hkey record. split.
  - unfold key_of, c_void_p_value. cbn. unfold c_void_p.
    rewrite Z.mod_small by done.
    by destruct (Z.eqb_spec key 0).
  - unfold names_command_table, c_void_p_value. cbn.
    by destruct (Z.eqb_spec (c_void_p (pointer_size_bits env)
                               (id_command_table env)) 0).
Qed.

Lemma callback_command_unknown_key
    env MsgId wParam lParam pv pContext pCaller w response :
  _command_table w !! key_of pv = None →
  response_text pv = Ok response →
  names_command_table env pv →
  _callback_command env MsgId wParam lParam pv pContext pCaller w
  = (Raise (KeyError (key_of pv)), w).
Proof.
  intros Hentry Hresponse Hcontext.
  unfold _callback_command, py_object_value, set_status, getitem, bind, lift,
    ret, raise.
  fold (key_of pv). rewrite Hresponse, Hcontext, Z.eqb_refl. cbn.
  by destruct (c_void_p_value pContext); rewrite Hentry.
Qed.

(** X13. [send_command] followed by [_callback_command]: a command sent
    without a handler is stored under the smallest free key, and the record
    it is sent in leads the callback back to that entry, the key 0 as the
    NULL pointer included.  The completion of the command returns 0 and
    leaves the table exactly as it was before the command was sent, without
    an event in the trace; a second completion of the same command finds no
    entry and raises [KeyError], again without any effect. *)
Theorem send_command_then_callback
    env cmd timeout_ms w MsgId wParam lParam text pContext pCaller :
  platform_ok env →
  Z.of_nat (size (_command_table w)) < 2 ^ pointer_size_bits env →
  payload_size cmd ≤ _MAX_COMMAND_SIZE →
  let key := IX3TPC.find_key env (_command_table w) in
  ∃ record w1 w2,
    IX3TPC.command_record env key cmd timeout_ms = Ok record
    ∧ IX3TPC.send_command env cmd None [] timeout_ms w = (Ok tt, w1)
    ∧ _command_table w1 !! key = Some (new_entry record None [])
    ∧ _callback_command env MsgId wParam lParam (answered text record)
        pContext pCaller w1 = (Ok 0, w2)
    ∧ _command_table w2 = _command_table w
    ∧ trace w2 = trace w1
    ∧ _callback_command env MsgId wParam lParam (answered text record)
        pContext pCaller w2 = (Raise (KeyError key), w2).
Proof.
  intros Hplatform Hsize Hfits key.
  destruct (find_key_free env (_command_table w) Hsize) as (Hrange & Hfree & _).
  fold key in Hrange, Hfree.
  pose proof (command_record_fits env key cmd timeout_ms Hfits) as Hrecord.
  set (record := new_MDK_MSL_CMD _ _ _ _ _ _ _) in Hrecord.
  destruct (record_names_entry env key (payload_size cmd) (command_bytes cmd)
              timeout_ms 1 text Hplatform Hrange) as [Hkey Hcontext].
  fold record in Hkey, Hcontext.
  pose proof (response_text_answered text record) as Hresponse.
  destruct (send_command_stores env cmd None [] timeout_ms w Hfits)
    as (w1 & Hsend & Htable).
  fold key record in Htable.
  assert (Hentry : _command_table w1 !! key_of (answered text record)
                   = Some (new_entry record None [])).
  { by rewrite Hkey, Htable, lookup_insert_eq. }
  exists record, w1. eexists.
  split; [exact Hrecord |]. split; [exact Hsend |].
  split; [by rewrite <- Hkey |].
  rewrite (callback_command_eq env MsgId wParam lParam (answered text record)
             pContext pCaller w1 _ text Hentry Hresponse Hcontext).
  cbn zeta. cbn [callback new_entry]. split; [reflexivity |].
  cbn [_command_table set_command_table trace].
  rewrite Hkey, Htable, !delete_insert_eq, delete_id by done.
  split; [done |]. split; [done |].
  match goal with
  | |- _callback_command _ _ _ _ _ _ _ ?w2 = _ =>
      rewrite (callback_command_unknown_key env MsgId wParam lParam
                 (answered text record) pContext pCaller w2 text);
        [by rewrite Hkey | | done | done]
  end.
  cbn [_command_table set_command_table]. by rewrite Hkey.
Qed.

Lemma send_command_then_callback_witness :
  ∃ record w1 w2,
    IX3TPC.command_record responsive 2 "DSH 0" 10000 = Ok record
    ∧ IX3TPC.send_command responsive "DSH 0" None [] 10000 busy_world
      = (Ok tt, w1)
    ∧ _command_table w1 !! 2 = Some (new_entry record None [])
    ∧ _callback_command responsive 0 0 0 (answered "DSH +" record) 4096 0 w1
      = (Ok 0, w2)
    ∧ _command_table w2 = _command_table busy_world
    ∧ trace w2 = trace w1
    ∧ _callback_command responsive 0 0 0 (answered "DSH +" record) 4096 0 w2
      = (Raise (KeyError 2), w2).
Proof.
  refine (send_command_then_callback responsive "DSH 0" 10000 busy_world
            0 0 0 "DSH +" 4096 0 responsive_platform_ok _ _).
  - vm_compute. reflexivity.
  - vm_compute. discriminate.
Defined.

(** ** The steps of the initialisation *)

Lemma initialise_portmanager_eq env w :
  IX3TPC._initialise_portmanager env w
  = let addr := pm_address env w in
    let w1 := set_trace (trace w ++ [EvInitialize])%list w in
    let w2 := set_trace (trace w ++ [EvInitialize; EvEnumInterface])%list w in
    let w4 :=
      set_trace
        (trace w ++ [EvInitialize; EvEnumInterface; EvGetInterfaceInfo 0;
                     EvOpenInterface addr])%list
        (set_pm_if_data_addr addr w) in
    let w6 :=
      set_trace
        (trace w ++ [EvInitialize; EvEnumInterface; EvGetInterfaceInfo 0;
                     EvOpenInterface addr;
                     EvLog INFO ("Opened interface for object at address 0x"
                                 ++ format_X addr);
                     EvRegisterCallback addr (id_self env)])%list
        (set_pm_if_data_addr addr w) in
    if negb (pm_status env w =? 0) then
      (Raise (InitialiseError ("MSL_PM_Initialize() failed with code "
                               ++ format_d (pm_status env w))), w1)
    else if pm_count env w =? 0 then
      (Raise (InitialiseError
                ("Couldn't find active interfaces on the IEEE 1394 bus. "
                 ++ "Please ensure that the computer is connected to an "
                 ++ "IX3-CBH control unit which is powered.")), w2)
    else if 1 <? pm_count env w then
      (Raise (UnsupportedFeatureError
                ("The ability to communicate with multiple devices on the "
                 ++ "IEEE 1394 bus has not been implemented yet.")), w2)
    else if addr =? 0 then
      (Raise (TypeError
                "unsupported format string passed to NoneType.__format__"), w4)
    else if negb (pm_opened env w) then
      (Raise (InitialiseError
                ("Failed to open interface for object at address 0x"
                 ++ format_X addr)), w4)
    else if negb (pm_registered env w) then
      (Raise (InitialiseError
                ("Failed to register callbacks for object at address 0x"
                 ++ format_X addr)), w6)
    else (Ok tt, w6).
Proof.
  unfold IX3TPC._initialise_portmanager, bind, gets, modify, emit, raise, ret,
    _logger, lift, format_address, c_void_p_value, pm_status, pm_count,
    pm_opened, pm_registered, pm_address.
  cbn -[format_X format_d].
  destruct (MSL_PM_Initialize env (trace w) =? 0); [| done].
  cbn -[format_X format_d]. rewrite <- !app_assoc. cbn -[format_X format_d].
  destruct (MSL_PM_EnumInterface env _ =? 0); [done |].
  destruct (1 <? MSL_PM_EnumInterface env _); [done |].
  cbn -[format_X format_d]. rewrite <- !app_assoc. cbn -[format_X format_d].
  destruct (c_void_p _ _ =? 0) eqn:Hnull.
  - destruct (MSL_PM_OpenInterface env _ _); cbn -[format_X format_d];
      by rewrite <- ?app_assoc.
  - destruct (MSL_PM_OpenInterface env _ _); [| done].
    cbn -[format_X format_d]. rewrite <- !app_assoc. cbn -[format_X format_d].
    by destruct (MSL_PM_RegisterCallback env _ _ _).
Qed.

(** X14. [_initialise_portmanager] returns exactly when the library
    initialises with status 0, reports a number of interfaces that is not 0
    and not above 1 (a negative number is not refused), gives an address
    for the interface that is not NULL, opens the interface and registers
    the callbacks.  A status other than 0 raises [InitialiseError] with the
    status in the message, before any other call of the library.  With a
    NULL address the method raises [TypeError] once it has tried to open
    the interface, whether that succeeded or not: the value of the pointer
    is [None], which the messages cannot format.  With any other address,
    an interface that does not open, or callbacks that do not register,
    raise [InitialiseError] with the address in the message, and that call
    is the last thing the method does.  In no case does the method touch
    the command table, submit a command or sleep. *)
Theorem initialise_portmanager_cases env w :
  let run := IX3TPC._initialise_portmanager env w in
  (fst run = Ok tt
   ↔ pm_status env w = 0 ∧ pm_count env w ≠ 0 ∧ pm_count env w ≤ 1
     ∧ pm_address env w ≠ 0
     ∧ pm_opened env w = true ∧ pm_registered env w = true)
  ∧ (pm_status env w ≠ 0 →
     run = (Raise (InitialiseError ("MSL_PM_Initialize() failed with code "
                                    ++ format_d (pm_status env w))),
            set_trace (trace w ++ [EvInitialize])%list w))
  ∧ (pm_status env w = 0 → pm_count env w ≠ 0 → pm_count env w ≤ 1 →
     pm_address env w = 0 →
     fst run = Raise (TypeError
                        "unsupported format string passed to NoneType.__format__")
     ∧ last (trace (snd run)) = Some (EvOpenInterface 0))
  ∧ (pm_status env w = 0 → pm_count env w ≠ 0 → pm_count env w ≤ 1 →
     pm_address env w ≠ 0 → pm_opened env w = false →
     fst run = Raise (InitialiseError
                        ("Failed to open interface for object at address 0x"
                         ++ format_X (pm_address env w)))
     ∧ last (trace (snd run)) = Some (EvOpenInterface (pm_address env w)))
  ∧ (pm_status env w = 0 → pm_count env w ≠ 0 → pm_count env w ≤ 1 →
     pm_address env w ≠ 0 → pm_opened env w = true →
     pm_registered env w = false →
     fst run = Raise (InitialiseError
                        ("Failed to register callbacks for object at address 0x"
                         ++ format_X (pm_address env w)))
     ∧ last (trace (snd run))
       = Some (EvRegisterCallback (pm_address env w) (id_self env)))
  ∧ _command_table (snd run) = _command_table w
  ∧ submissions (trace (snd run)) = submissions (trace w)
  ∧ sleeps (trace (snd run)) = sleeps (trace w).
Proof.
  intros run. subst run. rewrite initialise_portmanager_eq. cbn zeta.
  destruct (Z.eqb_spec (pm_status env w) 0) as [Hstatus | Hstatus];
    cbn [negb];
    [destruct (Z.eqb_spec (pm_count env w) 0) as [Hzero | Hzero];
     [| destruct (Z.ltb_spec 1 (pm_count env w)) as [Hmany | Hmany];
        [| destruct (Z.eqb_spec (pm_address env w) 0) as [Hnull | Hnull];
           [| destruct (pm_opened env w) eqn:Hopened; cbn [negb];
              [destruct (pm_registered env w) eqn:Hregistered; cbn [negb] |]]]] |];
    cbn -[sleeps submissions last format_X format_d];
    rewrite ?sleeps_app, ?submissions_app, ?sleeps_cons, ?submissions_cons;
    cbn -[sleeps submissions last format_X format_d];
    change (sleeps []) with 0%nat; change (submissions []) with 0%nat;
    (split;
       [split; [try discriminate; done
               | intros (? & ? & ? & ? & ? & ?);
                 first [done | lia | congruence]] |]);
    do 4 (split;
            [intros;
             first [done | lia | congruence
                   | split; [done | rewrite last_app; by rewrite ?Hnull]] |]);
    (split; [done |]); split; lia.
Qed.

Lemma initialise_portmanager_cases_witness :
  fst (IX3TPC._initialise_portmanager (simulated (-1) true acknowledge)
         empty_world) = Ok tt
  ∧ fst (IX3TPC._initialise_portmanager null_interface empty_world)
    = Raise (TypeError
               "unsupported format string passed to NoneType.__format__").
Proof.
  split.
  - refine (proj2 (proj1 (initialise_portmanager_cases
                            (simulated (-1) true acknowledge) empty_world)) _).
    repeat split; vm_compute; discriminate.
  - refine (proj1 (proj1 (proj2 (proj2 (initialise_portmanager_cases
                                          null_interface empty_world)))
                     _ _ _ _));
      vm_compute; (reflexivity || discriminate).
Defined.

(** ** A session *)

Lemma do_disable_shutting_down env w :
  _shutting_down w = true → _IX3LHLEDC._do_disable env w = (Ok tt, w).
Proof.
  intros Hflag. unfold _IX3LHLEDC._do_disable, bind, gets. by rewrite Hflag.
Qed.

(** X15. A whole session with a library that works, the address of its
    interface not being NULL, and a unit that answers as expected: the
    constructor followed by [_do_shutdown], whose device shutdown disables
    the light source.  Both return; the commands submitted are the five of
    the start-up and the logout, nothing for the light source, whose
    [_do_disable] finds the shutdown flag up; the program slept five times;
    the entry of the logout is the only one left in the table, still
    waiting and without a handler; the last event is the closing of the
    interface. *)
Theorem session_commands env reply w :
  works env → answers env reply → platform_ok env →
  Forall (λ step, reply step.1 = Some step.2) startup_commands →
  ∃ w1 w2 entry,
    IX3TPC.__init__ env w = (Ok tt, w1)
    ∧ IX3TPC._do_shutdown env (_IX3LHLEDC._do_disable env) w1 = (Ok tt, w2)
    ∧ submitted_commands (trace w2)
      = (submitted_commands (trace w) ++ startup_commands.*1 ++ ["L 0,0"])%list
    ∧ sleeps (trace w2) = (sleeps (trace w) + 5)%nat
    ∧ _command_table w2 = {[ 0 := entry ]}
    ∧ status entry = WAIT
    ∧ callback entry = None
    ∧ last (trace w2) = Some (EvCloseInterface (_pm_if_data_addr w1)).
Proof.
  intros Hworks Hanswers Hplatform Hreply.
  destruct (init_run env reply w Hworks Hanswers Hplatform Hreply)
    as (w1 & Hinit & Hempty & _ & _ & Hcmds & Hsleeps).
  destruct Hworks as (_ & _ & _ & _ & Haccepts & _).
  destruct Hplatform as [Hbits _].
  assert (Hfits : payload_size "L 0,0" ≤ _MAX_COMMAND_SIZE)
    by (vm_compute; discriminate).
  exists w1. eexists. eexists. split; [exact Hinit |].
  rewrite do_shutdown_eq, do_disable_shutting_down by done.
  rewrite send_command_eq. cbn zeta.
  cbn [_command_table set_shutting_down trace _pm_if_data_addr].
  rewrite Hempty, (find_key_empty env Hbits).
  rewrite (command_record_fits env 0 "L 0,0" 0 Hfits), Haccepts.
  split; [reflexivity |].
  cbn -[sleeps submitted_commands last startup_commands].
  rewrite Hempty, <- app_assoc, !submitted_commands_app, !sleeps_app, Hcmds,
    Hsleeps.
  change (submitted_commands [EvSendCommand ?a ?r]) with [command_body r].
  change (submitted_commands [EvCloseInterface ?a]) with (@nil string).
  rewrite (command_body_record env "L 0,0" 0 0);
    [| unfold ascii_text; repeat (constructor; [done |]); constructor | done].
  rewrite app_nil_r, <- app_assoc. split; [done |].
  change (sleeps [EvSendCommand ?a ?r]) with 0%nat.
  change (sleeps [EvCloseInterface ?a]) with 0%nat.
  split; [lia |]. split; [reflexivity |]. split; [done |].
  split; [done |].
  by rewrite app_assoc, last_snoc.
Qed.

Lemma session_commands_witness :
  ∃ w1 w2 entry,
    IX3TPC.__init__ responsive empty_world = (Ok tt, w1)
    ∧ IX3TPC._do_shutdown responsive (_IX3LHLEDC._do_disable responsive) w1
      = (Ok tt, w2)
    ∧ submitted_commands (trace w2)
      = (submitted_commands (trace empty_world)
         ++ startup_commands.*1 ++ ["L 0,0"])%list
    ∧ sleeps (trace w2) = (sleeps (trace empty_world) + 5)%nat
    ∧ _command_table w2 = {[ 0 := entry ]}
    ∧ status entry = WAIT
    ∧ callback entry = None
    ∧ last (trace w2) = Some (EvCloseInterface (_pm_if_data_addr w1)).
Proof.
  refine (session_commands responsive acknowledge empty_world
            responsive_works responsive_answers responsive_platform_ok _).
  repeat (constructor; [reflexivity |]). constructor.
Defined.
